(** * Moltbook Reader: a shallow embedding of [moltbook/__init__.py]

    The development follows the module top to bottom: the text helpers
    ([truncate_text], [maybe_truncate], [format_timestamp]), the credential
    lookup ([get_api_key]), the request executor ([make_request]) and the
    rendering commands ([search], [browse], [comments], [fetch], [submolts],
    [whoami]).

    Python strings are modelled by [string]: one [ascii] per code point, so
    the model covers the code points below 256 (Latin-1).  Python integers are
    [Z].  Objects that Python shares by reference (lists and dicts of a
    deserialized response) live in a heap indexed by locations. *)

From Stdlib Require Import ZArith QArith Qround Ascii String List Bool Lia Permutation Sorted.
From stdpp Require Import base option list sorting gmap strings.

Local Open Scope Z_scope.

(** ** Text primitives of Python's [str] *)

Module PyStr.

Definition code (c : ascii) : Z := Z.of_nat (nat_of_ascii c).

(** [len(s)] *)
Definition len (s : string) : Z := Z.of_nat (String.length s).

(** Characters that [str.isspace] accepts and [str.rstrip()] removes,
    among the code points below 256: TAB..CR, FS..US, SPACE, NEL, NBSP. *)
Definition isspace (c : ascii) : bool :=
  let n := code c in
  ((9 <=? n) && (n <=? 13)) || ((28 <=? n) && (n <=? 32))
  || (n =? 133) || (n =? 160).

(** Characters with a decimal value, the only digits [int()] reads:
    ['0'..'9'] among the code points below 256. *)
Definition isdecimal_char (c : ascii) : bool :=
  let n := code c in (48 <=? n) && (n <=? 57).

(** Characters that [str.isdigit] accepts: the decimal digits and the
    characters of numeric type Digit, which below 256 are the superscripts
    U+00B2, U+00B3 and U+00B9. *)
Definition isdigit_char (c : ascii) : bool :=
  let n := code c in
  isdecimal_char c || (n =? 178) || (n =? 179) || (n =? 185).

Fixpoint all_chars (p : ascii -> bool) (s : string) : bool :=
  match s with
  | EmptyString => true
  | String c r => p c && all_chars p r
  end.

Definition nonempty (s : string) : bool :=
  match s with EmptyString => false | String _ _ => true end.

(** [s.isdigit()]: at least one character, all of them digits. *)
Definition isdigit (s : string) : bool := nonempty s && all_chars isdigit_char s.

(** A non-empty string of ['0'..'9']. *)
Definition isdecimal (s : string) : bool := nonempty s && all_chars isdecimal_char s.

Fixpoint decimal_value_from (acc : Z) (s : string) : Z :=
  match s with
  | EmptyString => acc
  | String c r => decimal_value_from (10 * acc + (code c - 48)) r
  end.

(** The longest string of digits that [int] converts: the default of
    [sys.int_max_str_digits] (CPython 3.11, and the security releases of 3.7
    to 3.10); a longer one raises [ValueError]. *)
Definition MAX_STR_DIGITS : Z := 4300.

(** [int(s)] for a string that passed [s.isdigit()]: the value of a decimal
    string, [ValueError] (here [None]) when a superscript digit occurs or the
    string has more than [MAX_STR_DIGITS] digits. *)
Definition int_of_digits (s : string) : option Z :=
  if isdecimal s && (len s <=? MAX_STR_DIGITS)
  then Some (decimal_value_from 0 s) else None.

(** [s.replace(c, by)] for a one-character pattern [c]. *)
Fixpoint replace (c : ascii) (by_ : string) (s : string) : string :=
  match s with
  | EmptyString => EmptyString
  | String d r =>
      if Ascii.eqb d c then by_ ++ replace c by_ r else String d (replace c by_ r)
  end.

Fixpoint take (n : nat) (s : string) : string :=
  match n, s with
  | O, _ => EmptyString
  | _, EmptyString => EmptyString
  | S k, String c r => String c (take k r)
  end.

(** [s[:m]]: the first [m] characters, or, for a negative [m], all but the
    last [-m]. *)
Definition slice_to (m : Z) (s : string) : string :=
  if m <? 0 then take (Z.to_nat (len s + m)) s else take (Z.to_nat m) s.

(** [s.rstrip()] *)
Fixpoint rstrip (s : string) : string :=
  match s with
  | EmptyString => EmptyString
  | String c r =>
      match rstrip r with
      | EmptyString => if isspace c then EmptyString else String c EmptyString
      | r' => String c r'
      end
  end.

(** [p] is an initial segment of [s]. *)
Definition is_prefix (p s : string) : Prop := exists t, s = (p ++ t)%string.

End PyStr.

(** ** [truncate_text] and [maybe_truncate] *)

Definition LF : ascii := ascii_of_nat 10.
Definition CR : ascii := ascii_of_nat 13.

(** Line 111: every line feed becomes a space, every carriage return is
    deleted. *)
Definition collapse_newlines (text : string) : string :=
  PyStr.replace CR EmptyString (PyStr.replace LF " " text).

Definition truncate_text (text : string) (max_length : Z) : string :=
  if negb (PyStr.nonempty text) then EmptyString
  else
    let text := collapse_newlines text in
    if PyStr.len text >? max_length
    then (PyStr.rstrip (PyStr.slice_to max_length text) ++ "...")%string
    else text.

(** [text or <empty string>] on a string. *)
Definition or_empty (text : string) : string :=
  if PyStr.nonempty text then text else EmptyString.

Definition maybe_truncate (text : string) (max_length : Z) (no_truncate : bool) : string :=
  if no_truncate then or_empty text
  else truncate_text (or_empty text) max_length.

(** ** [format_timestamp] *)

(** [datetime.fromisoformat] and [datetime.strftime], for the format
    [YYYY-MM-DD[*HH[:MM[:SS[.fff[fff]]]][+HH:MM[:SS[.ffffff]]]]] that the
    standard library documents for Python 3.7 to 3.10.  From 3.11 on
    [fromisoformat] takes more of ISO 8601 (the basic format, week dates,
    any number of digits in the fraction), so that a string refused here
    may be parsed there.  [strftime] writes the year with four digits, as
    the C libraries do that pad it; glibc writes a year below 1000 without
    padding.  [None] stands for [ValueError]. *)
Module Iso.

Record datetime := {
  year : Z; month : Z; day : Z;
  hour : Z; minute : Z; second : Z
}.

Definition digit (c : ascii) : option Z :=
  if PyStr.isdecimal_char c then Some (PyStr.code c - 48) else None.

(** Exactly [n] decimal digits, then the rest of the string. *)
Fixpoint number (n : nat) (acc : Z) (s : string) : option (Z * string) :=
  match n with
  | O => Some (acc, s)
  | S k =>
      match s with
      | String c r =>
          match digit c with
          | Some d => number k (10 * acc + d) r
          | None => None
          end
      | EmptyString => None
      end
  end.

Definition expect (c : ascii) (s : string) : option string :=
  match s with
  | String d r => if Ascii.eqb d c then Some r else None
  | EmptyString => None
  end.

Definition is_leap (y : Z) : bool :=
  ((y mod 4 =? 0) && negb (y mod 100 =? 0)) || (y mod 400 =? 0).

Definition days_in_month (y m : Z) : Z :=
  if m =? 2 then (if is_leap y then 29 else 28)
  else if (m =? 4) || (m =? 6) || (m =? 9) || (m =? 11) then 30
  else 31.

Definition valid_date (y m d : Z) : bool :=
  (1 <=? y) && (y <=? 9999) && (1 <=? m) && (m <=? 12)
  && (1 <=? d) && (d <=? days_in_month y m).

Definition valid_time (h mi s : Z) : bool :=
  (h <=? 23) && (mi <=? 59) && (s <=? 59).

(** [.fff] or [.ffffff] *)
Definition fraction (s : string) : option unit :=
  match expect "." s with
  | Some r =>
      if PyStr.all_chars PyStr.isdecimal_char r
         && ((String.length r =? 3)%nat || (String.length r =? 6)%nat)
      then Some tt else None
  | None => None
  end.

(** [HH[:MM[:SS[.fff[fff]]]]], the whole of [s]. *)
Definition clock (s : string) : option (Z * Z * Z) :=
  match number 2 0 s with
  | None => None
  | Some (h, EmptyString) => Some (h, 0, 0)
  | Some (h, r) =>
      match expect ":" r with
      | None => None
      | Some r =>
          match number 2 0 r with
          | None => None
          | Some (mi, EmptyString) => Some (h, mi, 0)
          | Some (mi, r) =>
              match expect ":" r with
              | None => None
              | Some r =>
                  match number 2 0 r with
                  | None => None
                  | Some (sec, EmptyString) => Some (h, mi, sec)
                  | Some (sec, r) =>
                      match fraction r with
                      | Some _ => Some (h, mi, sec)
                      | None => None
                      end
                  end
              end
          end
      end
  end.

(** Splits a time string at its first ['+'] or ['-']. *)
Fixpoint split_offset (s : string) : string * option string :=
  match s with
  | EmptyString => (EmptyString, None)
  | String c r =>
      if Ascii.eqb c "+" || Ascii.eqb c "-" then (EmptyString, Some r)
      else let '(t, z) := split_offset r in (String c t, z)
  end.

(** [HH:MM[:SS[.ffffff]]] of a UTC offset: 5, 8 or 15 characters. *)
Definition valid_offset (z : string) : bool :=
  match clock z with
  | Some (h, mi, sec) =>
      ((String.length z =? 5)%nat || (String.length z =? 8)%nat
       || (String.length z =? 15)%nat)
      && valid_time h mi sec
  | None => false
  end.

Definition fromisoformat (s : string) : option datetime :=
  match number 4 0 s with
  | None => None
  | Some (y, r) =>
  match expect "-" r with
  | None => None
  | Some r =>
  match number 2 0 r with
  | None => None
  | Some (m, r) =>
  match expect "-" r with
  | None => None
  | Some r =>
  match number 2 0 r with
  | None => None
  | Some (d, r) =>
      if negb (valid_date y m d) then None
      else
        match r with
        | EmptyString =>
            Some {| year := y; month := m; day := d;
                    hour := 0; minute := 0; second := 0 |}
        | String _separator t =>
            let '(t, z) := split_offset t in
            match clock t with
            | None => None
            | Some (h, mi, sec) =>
                if valid_time h mi sec
                   && match z with Some z => valid_offset z | None => true end
                then Some {| year := y; month := m; day := d;
                             hour := h; minute := mi; second := sec |}
                else None
            end
        end
  end end end end end.

Definition digit_char (d : Z) : ascii := ascii_of_nat (Z.to_nat (48 + d mod 10)).

Definition pad2 (n : Z) : string :=
  String (digit_char (n / 10)) (String (digit_char n) EmptyString).

Definition pad4 (n : Z) : string := (pad2 (n / 100) ++ pad2 (n mod 100))%string.

(** [dt.strftime("%Y-%m-%d %H:%M")] *)
Definition strftime (dt : datetime) : string :=
  (pad4 (year dt) ++ "-" ++ pad2 (month dt) ++ "-" ++ pad2 (day dt)
   ++ " " ++ pad2 (hour dt) ++ ":" ++ pad2 (minute dt))%string.

End Iso.

(** The body of [format_timestamp] over a parser [parse] that stands for
    [datetime.fromisoformat]: the bare [except] turns every failure of the
    parse into the input. *)
Definition format_timestamp_with (parse : string -> option Iso.datetime)
    (iso_string : string) : string :=
  match parse (PyStr.replace "Z" "+00:00" iso_string) with
  | Some dt => Iso.strftime dt
  | None => iso_string
  end.

Definition format_timestamp : string -> string :=
  format_timestamp_with Iso.fromisoformat.


(** ** Python values and the object store *)

(** Locations of the store. *)
Abbreviation loc := nat.

(** The values a deserialized JSON document is made of.  Lists and dicts are
    objects of the store and are held by reference, so that two names for the
    same list see each other's updates.  JSON numbers are the integers;
    non-integer numbers are outside the model. *)
Inductive val :=
| VNone
| VBool (b : bool)
| VInt (n : Z)
| VStr (s : string)
| VRef (l : loc).

Inductive obj :=
| OList (items : list val)
| ODict (fields : gmap string val).

(** A parsed JSON text, before it is turned into objects: what [json.load]
    and [response.json()] have made of a document.  Its integers are those
    that the parser yields, of at most 4300 digits. *)
Local Unset Elimination Schemes.
Inductive json :=
| JNull
| JBool (b : bool)
| JInt (n : Z)
| JStr (s : string)
| JArr (items : list json)
| JObj (fields : list (string * json)).
Local Set Elimination Schemes.

(** ** What the program does to the outside world *)

(** A piece of an f-string or of a cell handed to the console.  [Lit s] is
    text of the program itself.  Formatting is symbolic: [Fmt spec v] stands
    for [format(v, spec)] ([str(v)] when [spec] is empty), [Upper v] for
    [v.upper()] and [Raw v] for a value passed to the console as it is.  What
    [format], [Table.add_row] and the console refuse is part of the model:
    see [format_number], [add_row] and [console_print]. *)
Inductive seg :=
| Lit (s : string)
| Fmt (spec : string) (v : val)
| Upper (v : val)
| Raw (v : val).

Definition text := list seg.

Inductive event :=
| EvResolveKey                                       (* get_api_key() is entered *)
| EvGet (url : string) (headers : list (string * text))
        (params : list (string * val))               (* requests.get(...) *)
| EvSleep (seconds : Z)                              (* time.sleep(...) *)
| EvPrint (line : text)                              (* console.print(markup) *)
| EvPrintJson (data : val)                           (* console.print_json(json.dumps(data)) *)
| EvPanel (title : string) (body : list text)        (* console.print(Panel(...)) *)
| EvTable (columns : list string) (rows : list (list text)).  (* console.print(table) *)

Record world := {
  heap : list obj;
  trace : list event
}.

Inductive exn :=
| AttributeError
| TypeError
| ValueError
| UnicodeDecodeError
| OverflowError           (* time.sleep: a duration beyond what it can hold *)
| PermissionError         (* Path.exists: a directory that cannot be searched *)
| RequestException        (* requests.get: neither Timeout nor ConnectionError *)
| NotRenderableError.     (* rich: a table cell that is no string *)

(** How a piece of code ends: with a value, with an exception that nothing
    caught, or with [sys.exit(code)].  [Unmodelled] marks the points where
    the embedding stops following Python (see [list_sort] and [fields_of]). *)
Inductive res (A : Type) :=
| Ok (a : A)
| Raise (e : exn)
| Exit (code : Z)
| Unmodelled.
Arguments Ok {A} a.
Arguments Raise {A} e.
Arguments Exit {A} code.
Arguments Unmodelled {A}.

Definition M (A : Type) : Type := world -> res A * world.

Definition ret {A} (a : A) : M A := fun w => (Ok a, w).

Definition bind {A B} (m : M A) (k : A -> M B) : M B := fun w =>
  match m w with
  | (Ok a, w') => k a w'
  | (Raise e, w') => (Raise e, w')
  | (Exit c, w') => (Exit c, w')
  | (Unmodelled, w') => (Unmodelled, w')
  end.

Notation "x <- m ;; k" := (bind m (fun x => k))
  (at level 100, m at level 99, k at level 200, right associativity).
Notation "m ;;; k" := (bind m (fun _ => k))
  (at level 100, k at level 200, right associativity).

Definition raise {A} (e : exn) : M A := fun w => (Raise e, w).
Definition sys_exit {A} (code : Z) : M A := fun w => (Exit code, w).
Definition unmodelled {A} : M A := fun w => (Unmodelled, w).

Definition emit (e : event) : M unit := fun w =>
  (Ok tt, {| heap := heap w; trace := trace w ++ [e] |}).

(** *** What the console reads as markup

    [console.print] reads a string as markup: an opening bracket may start a
    tag, and a closing tag that matches no open one raises [MarkupError].  A
    string without an opening bracket holds no tag, and rich prints it as it
    is.  The tags of the program's own text are well formed.  So the model
    follows the console where the values put into a line have no opening
    bracket in their text, and stops where one may have: what rich makes of
    such a string is not modelled.  A console that cannot write a character
    (an encoding without the emoji) is not modelled either. *)
Definition markup_free (s : string) : bool :=
  PyStr.all_chars (fun c => negb (Ascii.eqb c "[")) s.

(** The text of [str(v)] has no opening bracket.  None, the booleans and the
    integers are written without one; a list is written in brackets, and a
    dict around the text of its items. *)
Definition plain_value (v : val) : bool :=
  match v with
  | VStr s => markup_free s
  | VRef _ => false
  | VNone | VBool _ | VInt _ => true
  end.

Definition plain_seg (g : seg) : bool :=
  match g with
  | Lit _ => true
  | Fmt _ v | Upper v | Raw v => plain_value v
  end.

Definition plain_line (line : text) : bool := forallb plain_seg line.

(** [console.print(line)] *)
Definition console_print (line : text) : M unit :=
  if plain_line line then emit (EvPrint line) else unmodelled.

(** [console.print(table)]: the cells are read as markup when the table is
    printed. *)
Definition print_table (columns : list string) (rows : list (list text)) : M unit :=
  if forallb (forallb plain_line) rows then emit (EvTable columns rows) else unmodelled.

(** [table.add_row(...)]: a cell is a string or None (shown as the empty
    string); for any other value of a response [add_row] raises
    [NotRenderableError], when the row is added. *)
Definition renderable (v : val) : bool :=
  match v with
  | VStr _ | VNone => true
  | _ => false
  end.

Definition cell_accepted (cell : text) : bool :=
  forallb (fun g => match g with Raw v => renderable v | _ => true end) cell.

Definition add_row (cells : list text) : M (list text) :=
  if forallb cell_accepted cells then ret cells else raise NotRenderableError.

(** The integers from which [float(n)] raises [OverflowError]: those that
    round to 2^1024 or beyond. *)
Definition FLOAT_LIMIT : Z := 2 ^ 1024 - 2 ^ 970.

(** A percentage is computed on the float of the number. *)
Definition as_float (spec : string) : bool := String.eqb spec ".0%".

(** [format(v, spec)] for the presentations that only numbers have, [,] and
    [.0%]: an integer or a boolean is formatted, unless the percentage
    needs the float of an integer that has none; a string raises
    [ValueError], and None, a list or a dict [TypeError]. *)
Definition format_number (spec : string) (v : val) : M seg :=
  match v with
  | VInt n =>
      if as_float spec && (FLOAT_LIMIT <=? Z.abs n) then raise OverflowError
      else ret (Fmt spec v)
  | VBool _ => ret (Fmt spec v)
  | VStr _ => raise ValueError
  | VNone | VRef _ => raise TypeError
  end.

(** Allocation of a new object. *)
Definition alloc (o : obj) : M val := fun w =>
  (Ok (VRef (length (heap w))), {| heap := heap w ++ [o]; trace := trace w |}).

Definition read_heap : M (list obj) := fun w => (Ok (heap w), w).

Definition store (l : loc) (o : obj) : M unit := fun w =>
  (Ok tt, {| heap := <[l := o]> (heap w); trace := trace w |}).

(** Iteration of a loop body over a snapshot of the elements. *)
Fixpoint for_each {A} (body : A -> M unit) (l : list A) : M unit :=
  match l with
  | [] => ret tt
  | x :: r => body x ;;; for_each body r
  end.

Fixpoint map_m {A B} (f : A -> M B) (l : list A) : M (list B) :=
  match l with
  | [] => ret []
  | x :: r => y <- f x ;; ys <- map_m f r ;; ret (y :: ys)
  end.

(** [json.loads] / [response.json()]: every array and object of the document
    becomes a new object of the store; a repeated key keeps its last value. *)
Fixpoint load (j : json) : M val :=
  match j with
  | JNull => ret VNone
  | JBool b => ret (VBool b)
  | JInt n => ret (VInt n)
  | JStr s => ret (VStr s)
  | JArr items =>
      vs <- (fix go (l : list json) : M (list val) :=
               match l with
               | [] => ret []
               | x :: r => v <- load x ;; vs <- go r ;; ret (v :: vs)
               end) items ;;
      alloc (OList vs)
  | JObj fields =>
      f <- (fix go (l : list (string * json)) (acc : gmap string val)
              : M (gmap string val) :=
              match l with
              | [] => ret acc
              | (k, x) :: r => v <- load x ;; go r (<[k := v]> acc)
              end) fields ∅ ;;
      alloc (ODict f)
  end.

(** ** Dynamic operations on values *)

(** [bool(v)] *)
Definition truthy (h : list obj) (v : val) : bool :=
  match v with
  | VNone => false
  | VBool b => b
  | VInt n => negb (n =? 0)
  | VStr s => PyStr.nonempty s
  | VRef l =>
      match h !! l with
      | Some (OList items) => match items with [] => false | _ => true end
      | Some (ODict f) => negb (bool_decide (f = ∅))
      | None => true
      end
  end.

Definition is_true (v : val) : M bool := fun w => (Ok (truthy (heap w) v), w).

(** The attribute lookup [v.get]: only a dict has it.  A reference that
    points outside the store cannot arise in Python. *)
Definition fields_of (v : val) : M (gmap string val) := fun w =>
  match v with
  | VRef l =>
      match heap w !! l with
      | Some (ODict f) => (Ok f, w)
      | Some (OList _) => (Raise AttributeError, w)
      | None => (Unmodelled, w)
      end
  | _ => (Raise AttributeError, w)
  end.

(** [v.get(key, default)], the default being evaluated after [v.get] is
    looked up and before the call. *)
Definition get_with (v : val) (key : string) (mk_default : M val) : M val :=
  f <- fields_of v ;;
  d <- mk_default ;;
  ret (default d (f !! key)).

Definition get (v : val) (key : string) (d : val) : M val := get_with v key (ret d).

(** [v.get(key)] *)
Definition get_none (v : val) (key : string) : M val := get v key VNone.

(** [v.get(key, {})] and [v.get(key, [])] build a new object each time. *)
Definition get_or_dict (v : val) (key : string) : M val :=
  get_with v key (alloc (ODict ∅)).
Definition get_or_list (v : val) (key : string) : M val :=
  get_with v key (alloc (OList [])).

(** [len(v)] *)
Definition py_len (v : val) : M Z := fun w =>
  match v with
  | VStr s => (Ok (PyStr.len s), w)
  | VRef l =>
      match heap w !! l with
      | Some (OList items) => (Ok (Z.of_nat (length items)), w)
      | Some (ODict f) => (Ok (Z.of_nat (size f)), w)
      | None => (Unmodelled, w)
      end
  | _ => (Raise TypeError, w)
  end.

Fixpoint chars (s : string) : list val :=
  match s with
  | EmptyString => []
  | String c r => VStr (String c EmptyString) :: chars r
  end.

(** The elements that [for x in v] visits: the items of a list, the keys of
    a dict, the characters of a string. *)
Definition py_iter (v : val) : M (list val) := fun w =>
  match v with
  | VStr s => (Ok (chars s), w)
  | VRef l =>
      match heap w !! l with
      | Some (OList items) => (Ok items, w)
      | Some (ODict f) => (Ok (VStr <$> (map_to_list f).*1), w)
      | None => (Unmodelled, w)
      end
  | _ => (Raise TypeError, w)
  end.

(** An integer, or a boolean counted as 0 or 1. *)
Definition as_number (v : val) : option Z :=
  match v with
  | VInt n => Some n
  | VBool b => Some (if b then 1 else 0)
  | _ => None
  end.

(** [v > bound] for an integer literal [bound]. *)
Definition greater_than (v : val) (bound : Z) : M bool :=
  match as_number v with
  | Some n => ret (n >? bound)
  | None => raise TypeError
  end.

(** ** The environment of one invocation *)

(** What [CONFIG_PATH.exists()] and then [open(CONFIG_PATH)] followed by
    [json.load] meet. *)
Inductive config_file :=
| FileUnsearchable        (* CONFIG_PATH.exists() raises PermissionError: a
                             directory on the path cannot be searched *)
| FileAbsent              (* CONFIG_PATH.exists() is false *)
| FileUnreadable          (* open or read raises OSError, alias IOError *)
| FileUndecodable         (* the bytes are not text: UnicodeDecodeError *)
| FileNotJson             (* json.load raises JSONDecodeError *)
| FileJson (j : json).    (* json.load returns the document *)

(** A response as [make_request] looks at it: the status, the result of
    [headers.get("Retry-After")], and the body as [response.json()] finds it
    ([None]: not JSON). *)
Record response := {
  status_code : Z;
  retry_after : option string;
  json_body : option json
}.

(** What one call of [requests.get] comes to. *)
Inductive reply :=
| ReplyTimeout            (* requests.exceptions.Timeout *)
| ReplyConnectionError    (* requests.exceptions.ConnectionError *)
| ReplyError              (* another exception of requests: InvalidHeader for a
                             key with a line break, TooManyRedirects, ... *)
| Reply (r : response).

Record env := {
  environ_key : option string;   (* os.environ.get("MOLTBOOK_API_KEY") *)
  config : config_file;
  server : nat -> reply          (* the answer to the n-th GET of a request *)
}.

(** ** Constants *)

Definition BASE_URL : string := "https://www.moltbook.com/api/v1".
Definition MAX_RETRIES : nat := 3.
Definition RETRY_STATUSES : list Z := [429; 500; 502; 503; 504].
Definition RETRY_BACKOFF : Q := 3 # 2.

Definition nl : string := String LF EmptyString.
Definition dquote : string := String (ascii_of_nat 34) EmptyString.

(** ** [get_api_key] *)

Definition get_api_key (e : env) : M val :=
  emit EvResolveKey ;;;
  match environ_key e with
  | Some (String c k) => ret (VStr (String c k))
  | _ =>
      match config e with
      | FileUnsearchable => raise PermissionError  (* raised outside the try *)
      | FileAbsent => ret VNone
      | FileJson j => cfg <- load j ;; get_none cfg "api_key"
      | FileNotJson => ret VNone                 (* except json.JSONDecodeError *)
      | FileUnreadable => ret VNone              (* except IOError *)
      | FileUndecodable => raise UnicodeDecodeError
      end
  end.

(** ** [make_request] *)

(** [int(x)] of a float: the fractional part is dropped. *)
Definition int_of_Q (x : Q) : Z := Z.quot (Qnum x) (Z.pos (Qden x)).

(** [int(RETRY_BACKOFF ** attempt)].  The powers of 1.5 that the loop can
    reach are dyadic rationals with a numerator far below 2^53, which a
    double holds exactly, so the rational power is the float. *)
Definition backoff_wait (attempt : nat) : Z :=
  int_of_Q (Qpower RETRY_BACKOFF (Z.of_nat attempt)).

(** Lines 75 to 79: the duration of the pause, [None] when [int] raises
    [ValueError]. *)
Definition wait_seconds (hint : option string) (attempt : nat) : option Z :=
  match hint with
  | Some h =>
      if PyStr.nonempty h && PyStr.isdigit h then PyStr.int_of_digits h
      else Some (backoff_wait attempt)
  | None => Some (backoff_wait attempt)
  end.

Definition is_retry_status (s : Z) : bool := bool_decide (s ∈ RETRY_STATUSES).

(** The longest pause that [time.sleep] takes: it holds the duration in
    nanoseconds in a signed 64-bit integer. *)
Definition SLEEP_MAX : Z := 9223372036.

(** [time.sleep(seconds)] for an integer that is not negative:
    [OverflowError] beyond [SLEEP_MAX]. *)
Definition sleep (seconds : Z) : M unit :=
  if seconds >? SLEEP_MAX then raise OverflowError else emit (EvSleep seconds).

(** [response.raise_for_status()] raises for the statuses 400 to 599. *)
Definition is_error_status (s : Z) : bool := (400 <=? s) && (s <? 600).

Definition error_line (msg : text) : text :=
  [Lit "[red]Error: "] ++ msg ++ [Lit "[/red]"].

(** The body of [for attempt in range(MAX_RETRIES + 1)], with the handlers
    of the enclosing [try] applied where the exception arises; an exception
    that has no handler ([ValueError] of [int], [OverflowError] of
    [time.sleep], another exception of requests) ends the call. *)
Fixpoint attempts (e : env) (url : string) (headers : list (string * text))
    (params : option (list (string * val))) (remaining attempt : nat) : M val :=
  match remaining with
  | O => ret VNone
  | S remaining' =>
      emit (EvGet url headers (default [] params)) ;;;
      match server e attempt with
      | ReplyTimeout =>
          console_print (error_line [Lit "Request timed out"]) ;;; sys_exit 1
      | ReplyConnectionError =>
          console_print (error_line [Lit "Could not connect to Moltbook"]) ;;; sys_exit 1
      | ReplyError => raise RequestException
      | Reply r =>
          if is_retry_status (status_code r) && (attempt <? MAX_RETRIES)%nat then
            match wait_seconds (retry_after r) attempt with
            | Some w =>
                sleep w ;;;
                attempts e url headers params remaining' (S attempt)
            | None => raise ValueError
            end
          else if is_error_status (status_code r) then
            console_print
              (error_line [Lit "HTTP "; Fmt EmptyString (VInt (status_code r))]) ;;;
            sys_exit 1
          else
            match json_body r with
            | Some j => load j
            | None =>
                console_print (error_line [Lit "Invalid JSON response"]) ;;; sys_exit 1
            end
      end
  end.

Definition user_agent : string * text := ("User-Agent"%string, [Lit "Moltbook-Reader/1.0"]).

Definition bearer (api_key : val) : string * text :=
  ("Authorization"%string, [Lit "Bearer "; Fmt EmptyString api_key]).

Definition make_request (e : env) (endpoint : string)
    (params : option (list (string * val))) (auth : bool) : M val :=
  let url := (BASE_URL ++ "/" ++ endpoint)%string in
  headers <-
    (if auth then
       api_key <- get_api_key e ;;
       has_key <- is_true api_key ;;
       ret (if has_key then [user_agent; bearer api_key] else [user_agent])
     else ret [user_agent]) ;;
  attempts e url headers params (MAX_RETRIES + 1) 0.

(** ** The helpers applied to values read from a response *)

(** [maybe_truncate] on a value that need not be a string: a falsy value
    gives the empty string, a truthy one that is no string has no [replace]. *)
Definition maybe_truncate_dyn (v : val) (max_length : Z) (no_truncate : bool) : M val :=
  match v with
  | VStr s => ret (VStr (maybe_truncate s max_length no_truncate))
  | _ =>
      t <- is_true v ;;
      if negb t then ret (VStr EmptyString)
      else if no_truncate then ret v
      else raise AttributeError
  end.

(** [truncate_text] on a value that need not be a string. *)
Definition truncate_text_dyn (v : val) (max_length : Z) : M val :=
  match v with
  | VStr s => ret (VStr (truncate_text s max_length))
  | _ =>
      t <- is_true v ;;
      if negb t then ret (VStr EmptyString) else raise AttributeError
  end.

(** [format_timestamp] on a value that need not be a string: the bare
    [except] also swallows the missing [replace]. *)
Definition format_timestamp_dyn (v : val) : val :=
  match v with
  | VStr s => VStr (format_timestamp s)
  | _ => v
  end.

(** [v or <empty string>] *)
Definition or_empty_dyn (v : val) : M val :=
  t <- is_true v ;; ret (if t then v else VStr EmptyString).

(** [v.upper()]: only a string has it. *)
Definition upper (v : val) : M text :=
  match v with
  | VStr _ => ret [Upper v]
  | _ => raise AttributeError
  end.

Definition str (v : val) : seg := Fmt EmptyString v.

(** [r.get("author", {}).get("name", "Unknown")] and its likes. *)
Definition get_nested (v : val) (outer inner : string) (d : val) : M val :=
  a <- get_or_dict v outer ;; get a inner d.

(** ** Sorting and slicing lists *)

Section Sorting.
Context {A : Type} (key : A -> Z).

(** [x] goes in front of the first element whose key does not exceed its
    own, hence in front of its equals. *)
Fixpoint insert_desc (x : A) (l : list A) : list A :=
  match l with
  | [] => [x]
  | y :: r => if key y <=? key x then x :: y :: r else y :: insert_desc x r
  end.

(** The stable sort into non-increasing order of [key], which is what
    [list.sort(key=..., reverse=True)] computes. *)
Fixpoint sort_desc (l : list A) : list A :=
  match l with
  | [] => []
  | x :: r => insert_desc x (sort_desc r)
  end.

(** [max(l, key=...)]: the first element of greatest key. *)
Fixpoint max_by (best : A) (l : list A) : A :=
  match l with
  | [] => best
  | x :: r => max_by (if key x >? key best then x else best) r
  end.
End Sorting.

(** [l[:m]] *)
Definition slice_list {A} (m : Z) (l : list A) : list A :=
  if m <? 0 then take (Z.to_nat (Z.of_nat (length l) + m)) l else take (Z.to_nat m) l.

Definition subscriber_count (x : val) : M val := get x "subscriber_count" (VInt 0).

(** The keys as integers, when all of them are. *)
Definition numeric_keys (keys : list val) : option (list Z) := mapM as_number keys.

(** [v.sort(key=lambda x: x.get("subscriber_count", 0), reverse=True)]: the
    list object itself is reordered.  The keys are computed first.  Keys that
    are not all integers are compared by Python in ways this model does not
    follow (an exception that leaves the list in an unspecified order, or the
    order of another type), unless there is nothing to compare. *)
Definition list_sort (v : val) : M unit :=
  match v with
  | VRef l =>
      h <- read_heap ;;
      match h !! l with
      | Some (OList items) =>
          keys <- map_m subscriber_count items ;;
          match numeric_keys keys with
          | Some ns => store l (OList (sort_desc snd (zip items ns)).*1)
          | None =>
              if (length items <=? 1)%nat then ret tt else unmodelled
          end
      | Some (ODict _) => raise AttributeError
      | None => unmodelled
      end
  | _ => raise AttributeError
  end.

(** [max(items, key=lambda x: x.get("subscriber_count", 0))] on a non-empty
    list of items. *)
Definition max_subscribers (items : list val) : M val :=
  keys <- map_m subscriber_count items ;;
  match zip items <$> numeric_keys keys with
  | Some (first :: rest) => ret (max_by snd first rest).1
  | Some [] => raise ValueError
  | None =>
      match items with
      | [x] => ret x
      | _ => unmodelled
      end
  end.

(** [isinstance(v, list)] *)
Definition is_list (v : val) : M bool := fun w =>
  match v with
  | VRef l =>
      match heap w !! l with
      | Some (OList _) => (Ok true, w)
      | Some (ODict _) => (Ok false, w)
      | None => (Unmodelled, w)
      end
  | _ => (Ok false, w)
  end.

Definition when (b : bool) (m : M unit) : M unit := if b then m else ret tt.

(** ** The commands *)

Definition no_key_warning (what : string) : M unit :=
  console_print
    [Lit "[yellow]Warning: No API key found. "; Lit what;
     Lit " authentication.[/yellow]"] ;;;
  console_print
    [Lit "[dim]Set MOLTBOOK_API_KEY env var or save key to ~/.config/moltbook/credentials.json[/dim]";
     Lit nl].

Definition search_row (no_truncate : bool) (r : val) : M (list text) :=
  content_type <- get r "type" (VStr "unknown") ;;
  title0 <- get_none r "title" ;;
  has_title <- is_true title0 ;;
  title <- (if has_title then ret title0 else get r "content" (VStr EmptyString)) ;;
  author <- get_nested r "author" "name" (VStr "Unknown") ;;
  upvotes <- get r "upvotes" (VInt 0) ;;
  similarity <- get r "similarity" (VInt 0) ;;
  item_id <- (match content_type with
              | VStr "post" => get_none r "id"
              | _ => get r "post_id" (VStr EmptyString)
              end) ;;
  kind <- upper content_type ;;
  shown_id <- or_empty_dyn item_id ;;
  preview <- maybe_truncate_dyn title 50 no_truncate ;;
  score <- format_number ".0%" similarity ;;
  add_row [kind; [Raw shown_id]; [Raw preview]; [Raw author]; [str upvotes]; [score]].

(** Each command is split at the point where [make_request] has returned:
    [render_x] is the rest of the body of command [x], applied to [data]. *)
Definition render_search (query : string) (json_out no_truncate : bool) (data : val)
    : M unit :=
  if json_out then emit (EvPrintJson data)
  else
    results <- get_or_list data "results" ;;
    any <- is_true results ;;
    if negb any then console_print [Lit "[yellow]No results found[/yellow]"]
    else
      console_print
        [Lit nl; Lit "[bold cyan]Search Results for:[/bold cyan] ";
         Lit dquote; str (VStr query); Lit dquote] ;;;
      n <- py_len results ;;
      console_print [Lit "[dim]Found "; str (VInt n); Lit " results"; Lit nl; Lit "[/dim]"] ;;;
      items <- py_iter results ;;
      rows <- map_m (search_row no_truncate) items ;;
      print_table ["Type"; "ID"; "Title/Preview"; "Author"; "👍"; "Match"]%string rows ;;;
      console_print [].

Definition search (e : env) (query : string) (limit : Z) (content_type : string)
    (json_out no_truncate : bool) : M unit :=
  api_key <- get_api_key e ;;
  has_key <- is_true api_key ;;
  when (negb has_key) (no_key_warning "Search requires") ;;;
  let params :=
    [("q"%string, VStr query); ("limit"%string, VInt (Z.min limit 50))]
    ++ (if String.eqb content_type "all" then []
        else [("type"%string, VStr content_type)]) in
  data <- make_request e "search" (Some params) true ;;
  render_search query json_out no_truncate data.

Definition vote_color (upvotes : val) : M string :=
  c1 <- greater_than upvotes 10000 ;;
  if c1 then ret "bold red"%string
  else
    c2 <- greater_than upvotes 1000 ;;
    if c2 then ret "bold yellow"%string
    else
      c3 <- greater_than upvotes 100 ;;
      ret (if c3 then "green" else "dim")%string.

Definition browse_post (show_ids no_truncate : bool) (post : val) : M unit :=
  upvotes <- get post "upvotes" (VInt 0) ;;
  title <- get post "title" (VStr "No title") ;;
  author <- get_nested post "author" "name" (VStr "Unknown") ;;
  comment_count <- get post "comment_count" (VInt 0) ;;
  post_id <- get post "id" (VStr EmptyString) ;;
  color <- vote_color upvotes ;;
  console_print
    [Lit "["; Lit color; Lit "]"; Fmt ">6" upvotes; Lit "👍[/"; Lit color;
     Lit "] [bold]"; str title; Lit "[/bold]"] ;;;
  console_print
    [Lit "      [dim]by "; str author; Lit " | "; str comment_count;
     Lit " comments[/dim]"] ;;;
  when show_ids (console_print [Lit "      ID: "; str post_id]) ;;;
  content <- get post "content" (VStr EmptyString) ;;
  has_content <- is_true content ;;
  (if has_content then
     preview <- maybe_truncate_dyn content 120 no_truncate ;;
     console_print [Lit "      [italic]"; str preview; Lit "[/italic]"]
   else ret tt) ;;;
  console_print [].

Definition render_browse (sort : string) (limit offset : Z)
    (json_out show_ids no_truncate : bool) (data : val) : M unit :=
  if json_out then emit (EvPrintJson data)
  else
    posts <- get_or_list data "posts" ;;
    any <- is_true posts ;;
    if negb any then console_print [Lit "[yellow]No posts found[/yellow]"]
    else
      console_print [Lit nl; Lit "[bold cyan]"; Upper (VStr sort); Lit " Posts[/bold cyan]"] ;;;
      n <- py_len posts ;;
      console_print
        [Lit "[dim]Showing "; str (VInt n); Lit " posts (offset: "; str (VInt offset);
         Lit ")"; Lit nl; Lit "[/dim]"] ;;;
      items <- py_iter posts ;;
      for_each (browse_post show_ids no_truncate) items ;;;
      has_more <- get_none data "has_more" ;;
      more <- is_true has_more ;;
      if more then
        next_offset <- get data "next_offset" (VInt (offset + limit)) ;;
        console_print
          [Lit "[dim]More posts available. Use --offset "; str next_offset;
           Lit " to see next page[/dim]"]
      else ret tt.

Definition browse (e : env) (sort : string) (limit offset : Z)
    (json_out show_ids no_truncate : bool) : M unit :=
  let params :=
    [("sort"%string, VStr sort); ("limit"%string, VInt (Z.min limit 50));
     ("offset"%string, VInt offset)] in
  data <- make_request e "posts" (Some params) false ;;
  render_browse sort limit offset json_out show_ids no_truncate data.

Definition comment_panel (no_truncate : bool) (c : val) : M unit :=
  author <- get_nested c "author" "name" (VStr "Unknown") ;;
  upvotes <- get c "upvotes" (VInt 0) ;;
  downvotes <- get c "downvotes" (VInt 0) ;;
  created <- get c "created_at" (VStr EmptyString) ;;
  let created_at := format_timestamp_dyn created in
  body <- get c "content" (VStr EmptyString) ;;
  content <- maybe_truncate_dyn body 300 no_truncate ;;
  emit (EvPanel "💬 Comment"
          [[str author; Lit nl]; [Lit "Posted: "]; [str created_at; Lit nl];
           [Lit "Engagement: "]; [str upvotes; Lit "👍 "]; [str downvotes; Lit "👎"]]) ;;;
  has_content <- is_true content ;;
  when has_content (console_print [Raw content]) ;;;
  console_print [].

Definition render_comments (post_id sort : string) (json_out no_truncate : bool)
    (data : val) : M unit :=
  if json_out then emit (EvPrintJson data)
  else
    direct <- is_list data ;;
    comments_list <-
      (if direct then ret data
       else
         found <- get_none data "comments" ;;
         match found with
         | VNone => get_or_list data "results"
         | _ => ret found
         end) ;;
    any <- is_true comments_list ;;
    if negb any then console_print [Lit "[yellow]No comments found[/yellow]"]
    else
      console_print [Lit nl; Lit "[bold cyan]Comments[/bold cyan]"] ;;;
      console_print
        [Lit "[dim]Post ID: "; str (VStr post_id); Lit " | Sort: "; str (VStr sort);
         Lit "[/dim]"; Lit nl] ;;;
      items <- py_iter comments_list ;;
      for_each (comment_panel no_truncate) items.

Definition comments (e : env) (post_id sort : string) (json_out no_truncate : bool)
    : M unit :=
  api_key <- get_api_key e ;;
  has_key <- is_true api_key ;;
  when (negb has_key) (no_key_warning "Comments require") ;;;
  data <- make_request e ("posts/" ++ post_id ++ "/comments")
            (Some [("sort"%string, VStr sort)]) true ;;
  render_comments post_id sort json_out no_truncate data.

Definition post_not_found : text := [Lit "[red]Post not found[/red]"].

Definition render_fetch (post_id : string) (json_out : bool) (data : val) : M unit :=
  if json_out then emit (EvPrintJson data)
  else
    post <- get_none data "post" ;;
    found <- is_true post ;;
    if negb found then console_print post_not_found
    else
      title <- get post "title" (VStr "No title") ;;
      content <- get post "content" (VStr EmptyString) ;;
      author <- get_nested post "author" "name" (VStr "Unknown") ;;
      upvotes <- get post "upvotes" (VInt 0) ;;
      downvotes <- get post "downvotes" (VInt 0) ;;
      comment_count <- get post "comment_count" (VInt 0) ;;
      created <- get post "created_at" (VStr EmptyString) ;;
      let created_at := format_timestamp_dyn created in
      submolt <- get_nested post "submolt" "display_name" (VStr "General") ;;
      emit (EvPanel "🦞 Moltbook Post"
              [[str title; Lit nl; Lit nl]; [Lit "Author: "]; [str author; Lit nl];
               [Lit "Posted: "]; [str created_at; Lit " in "]; [str submolt; Lit nl];
               [Lit "Engagement: "]; [str upvotes; Lit "👍 "]; [str downvotes; Lit "👎 "];
               [str comment_count; Lit "💬"]]) ;;;
      has_content <- is_true content ;;
      (if has_content then console_print [] ;;; console_print [Raw content] else ret tt) ;;;
      console_print [] ;;;
      console_print [Lit "[dim]Post ID: "; str (VStr post_id); Lit "[/dim]"].

Definition fetch (e : env) (post_id : string) (json_out : bool) : M unit :=
  data <- make_request e ("posts/" ++ post_id) None false ;;
  render_fetch post_id json_out data.

Definition submolt_row (s : val) : M (list text) :=
  fallback <- get s "name" (VStr "Unknown") ;;
  name <- get s "display_name" fallback ;;
  count <- subscriber_count s ;;
  description <- get s "description" (VStr EmptyString) ;;
  desc <- truncate_text_dyn description 60 ;;
  add_row [[Raw name]; [str count]; [Raw desc]].

Definition render_submolts (limit : Z) (json_out : bool) (data : val) : M unit :=
  if json_out then emit (EvPrintJson data)
  else
    submolts_list <- get_or_list data "submolts" ;;
    any <- is_true submolts_list ;;
    if negb any then console_print [Lit "[yellow]No submolts found[/yellow]"]
    else
      list_sort submolts_list ;;;
      console_print [Lit nl; Lit "[bold cyan]Submolts (Communities)[/bold cyan]"] ;;;
      n <- py_len submolts_list ;;
      console_print [Lit "[dim]Total: "; str (VInt n); Lit " communities"; Lit nl; Lit "[/dim]"] ;;;
      items <- py_iter submolts_list ;;
      rows <- map_m submolt_row (slice_list limit items) ;;
      print_table ["Name"; "Subscribers"; "Description"]%string rows ;;;
      console_print [].

Definition submolts (e : env) (limit : Z) (json_out : bool) : M unit :=
  data <- make_request e "submolts" None false ;;
  render_submolts limit json_out data.

(** The cells of the table of [stats] are strings made by [str] and by
    f-strings, which [add_row] always takes; the rows are added one by one,
    so that the totals are formatted before the largest community is
    looked for. *)
Definition render_stats (data : val) : M unit :=
  submolts_list <- get_or_list data "submolts" ;;
  total_posts <- get data "total_posts" (VInt 0) ;;
  total_comments <- get data "total_comments" (VInt 0) ;;
  console_print [Lit nl; Lit "[bold cyan]🦞 Moltbook Statistics[/bold cyan]"; Lit nl] ;;;
  n <- py_len submolts_list ;;
  posts_cell <- format_number "," total_posts ;;
  comments_cell <- format_number "," total_comments ;;
  any <- is_true submolts_list ;;
  top_submolt <-
    (if any then items <- py_iter submolts_list ;; max_subscribers items
     else ret VNone) ;;
  has_top <- is_true top_submolt ;;
  largest <-
    (if has_top then
       name <- get_none top_submolt "display_name" ;;
       count <- get_none top_submolt "subscriber_count" ;;
       ret [[[Lit "Largest Community"];
             [str name; Lit " ("; str count; Lit " subscribers)"]]]
     else ret []) ;;
  print_table []
    ([[[Lit "Total Submolts"]; [str (VInt n)]];
      [[Lit "Total Posts"]; [posts_cell]];
      [[Lit "Total Comments"]; [comments_cell]]] ++ largest) ;;;
  console_print [].

Definition stats (e : env) : M unit :=
  data <- make_request e "submolts" None false ;;
  render_stats data.

(** The description cell of [whoami]: clipped to 60 characters whatever the
    flags say.  What indexing a dict by a slice raises depends on the Python
    version. *)
Definition clipped_description (agent : val) : M text :=
  d <- get agent "description" (VStr EmptyString) ;;
  n <- py_len d ;;
  if n >? 60 then
    match d with
    | VStr s => ret [Raw (VStr (PyStr.slice_to 60 s ++ "..."))]
    | _ =>
        direct <- is_list d ;;
        if direct then raise TypeError else unmodelled
    end
  else ret [Raw d].

Definition render_whoami (data : val) : M unit :=
  success <- get_none data "success" ;;
  ok <- is_true success ;;
  if negb ok then
    err <- get data "error" (VStr "Unknown error") ;;
    console_print [Lit "[red]Error: "; str err; Lit "[/red]"] ;;;
    hint <- get_none data "hint" ;;
    has_hint <- is_true hint ;;
    when has_hint (console_print [Lit "[dim]"; str hint; Lit "[/dim]"])
  else
    agent <- get_or_dict data "agent" ;;
    owner <- get_or_dict agent "owner" ;;
    console_print [Lit nl; Lit "[bold cyan]🦞 Moltbook Identity[/bold cyan]"; Lit nl] ;;;
    name <- get agent "name" (VStr "Unknown") ;;
    name_row <- add_row [[Lit "Agent Name"]; [Raw name]] ;;
    description <- clipped_description agent ;;
    description_row <- add_row [[Lit "Description"]; description] ;;
    is_claimed <- get_none agent "is_claimed" ;;
    claimed <- is_true is_claimed ;;
    karma <- get agent "karma" (VInt 0) ;;
    posts <- get_nested agent "stats" "posts" (VInt 0) ;;
    comments_count <- get_nested agent "stats" "comments" (VInt 0) ;;
    has_owner <- is_true owner ;;
    owner_row <-
      (if has_owner then
         handle <- get owner "xHandle" (VStr "Unknown") ;;
         ret [[[Lit "Owner"]; [Lit "@"; str handle]]]
       else ret []) ;;
    profile <- get agent "name" (VStr EmptyString) ;;
    print_table []
      ([name_row;
        description_row;
        [[Lit "Status"]; [Lit (if claimed then "✅ Claimed" else "⏳ Pending")]];
        [[Lit "Karma"]; [str karma]];
        [[Lit "Posts"]; [str posts]];
        [[Lit "Comments"]; [str comments_count]]]
       ++ owner_row
       ++ [[[Lit "Profile"]; [Lit "https://www.moltbook.com/u/"; str profile]]]) ;;;
    console_print [].

Definition whoami (e : env) : M unit :=
  api_key <- get_api_key e ;;
  has_key <- is_true api_key ;;
  if negb has_key then
    console_print [Lit "[yellow]No API key configured.[/yellow]"] ;;;
    console_print [Lit nl; Lit "[dim]To configure, either:[/dim]"] ;;;
    console_print [Lit "[dim]  1. Set MOLTBOOK_API_KEY environment variable[/dim]"] ;;;
    console_print [Lit "[dim]  2. Save to ~/.config/moltbook/credentials.json[/dim]"]
  else
    data <- make_request e "agents/me" None true ;;
    render_whoami data.

(** ** Vocabulary of the statements *)

(** The world after the events [evs] have been added to the trace. *)
Definition log (w : world) (evs : list event) : world :=
  {| heap := heap w; trace := trace w ++ evs |}.

Definition empty_world : world := {| heap := []; trace := [] |}.

(** Every object of the store is still there, unchanged, after [m]; new
    objects may have been allocated. *)
Definition preserves_store {A} (m : M A) : Prop :=
  forall w r w', m w = (r, w') ->
  forall l o, heap w !! l = Some o -> heap w' !! l = Some o.

(** The value of a string of decimal digits. *)
Definition decimal_value (s : string) : Z := PyStr.decimal_value_from 0 s.

(** The one-character string U+00B2, SUPERSCRIPT TWO. *)
Definition superscript_two : string := String (ascii_of_nat 178) EmptyString.

(** The statuses for which a response counts as a success. *)
Definition is_success_status (s : Z) : bool := (200 <=? s) && (s <? 300).

(** The events that one call of [make_request] may add once its headers are
    fixed: GETs of the same URL with the same headers and parameters, pauses
    and console lines. *)
Definition request_event (url : string) (headers : list (string * text))
    (params : list (string * val)) (ev : event) : Prop :=
  match ev with
  | EvGet u h p => u = url /\ h = headers /\ p = params
  | EvSleep _ | EvPrint _ => True
  | _ => False
  end.

Definition is_get (ev : event) : bool :=
  match ev with EvGet _ _ _ => true | _ => false end.

Definition is_sleep (ev : event) : bool :=
  match ev with EvSleep _ => true | _ => false end.

(** The integer under [subscriber_count] of a submolt held in the store, the
    missing field counting as zero; [None] when the value is no dict or the
    field holds something else than an integer. *)
Definition count_of (h : list obj) (v : val) : option Z :=
  match v with
  | VRef l =>
      match h !! l with
      | Some (ODict f) => as_number (default (VInt 0) (f !! "subscriber_count"%string))
      | _ => None
      end
  | _ => None
  end.

(** A string, or a value that counts as false. *)
Definition text_or_falsy (h : list obj) (d : val) : Prop :=
  match d with
  | VStr _ => True
  | _ => truthy h d = false
  end.

(** A value that a table takes as a cell and shows as it is: None, or a
    string without an opening bracket. *)
Definition plain_cell (v : val) : bool := renderable v && plain_value v.

(** A value that is no string, or a string without an opening bracket. *)
Definition plain_text (v : val) : bool :=
  match v with VStr s => markup_free s | _ => true end.

(** A submolt that [render_submolts] can list: a dict whose subscriber count
    is an integer or missing, whose description is a string without an
    opening bracket, or missing, or falsy, and whose name to show (the
    [display_name], else the [name], else the text of the program) is None
    or a string without an opening bracket. *)
Definition listable (h : list obj) (v : val) : Prop :=
  match v with
  | VRef l =>
      match h !! l with
      | Some (ODict f) =>
          is_Some (as_number (default (VInt 0) (f !! "subscriber_count"%string)))
          /\ text_or_falsy h (default (VStr EmptyString) (f !! "description"%string))
          /\ plain_text (default (VStr EmptyString) (f !! "description"%string)) = true
          /\ plain_cell (default (default (VStr "Unknown") (f !! "name"%string))
                           (f !! "display_name"%string)) = true
      | _ => False
      end
  | _ => False
  end.

(** The rows of the tables printed in a run. *)
Definition tables (evs : list event) : list (list (list text)) :=
  omap (fun ev => match ev with EvTable _ rows => Some rows | _ => None end) evs.

Definition is_panel (ev : event) : bool :=
  match ev with EvPanel _ _ => true | _ => false end.

(** A world that results from [w] by allocations only. *)
Definition grown (w w' : world) : Prop :=
  exists ext, w' = {| heap := heap w ++ ext; trace := trace w |}.

(** The response to attempt [i] is retryable, and its pause is computed and
    is one that [time.sleep] takes. *)
Definition retried (e : env) (i : nat) : Prop :=
  exists r s, server e i = Reply r
              /\ is_retry_status (status_code r) = true
              /\ wait_seconds (retry_after r) i = Some s
              /\ s <= SLEEP_MAX.

(** [m] changes the store by allocation only, whatever it prints. *)
Definition allocates {A} (m : M A) : Prop :=
  forall w, exists ext evs,
    (m w).2 = {| heap := heap w ++ ext; trace := trace w ++ evs |}.

(** [m] reads the world and leaves it as it is. *)
Definition reads {A} (m : M A) : Prop := forall w, (m w).2 = w.

(** The row of the submolt table for a listable submolt. *)
Definition row_of (h : list obj) (v : val) : list text :=
  match v with
  | VRef l =>
      match h !! l with
      | Some (ODict f) =>
          [[Raw (default (default (VStr "Unknown") (f !! "name"%string))
                   (f !! "display_name"%string))];
           [str (default (VInt 0) (f !! "subscriber_count"%string))];
           [Raw (match default (VStr EmptyString) (f !! "description"%string) with
                 | VStr s => VStr (truncate_text s 60)
                 | _ => VStr EmptyString
                 end)]]
      | _ => []
      end
  | _ => []
  end.

(** All the table rows printed in a run. *)
Definition rendered_rows (evs : list event) : list (list text) := concat (tables evs).

(** A response body with two submolts, the smaller one first. *)
Definition two_submolts : json :=
  JObj [("submolts"%string,
         JArr [JObj [("name"%string, JStr "small"); ("subscriber_count"%string, JInt 1)];
               JObj [("name"%string, JStr "large"); ("subscriber_count"%string, JInt 2)]])].

(** [h2] holds every object of [h]: the dicts as they are, the lists
    possibly with other items, but empty exactly when they were. *)
Definition similar (h h2 : list obj) : Prop :=
  forall l o, h !! l = Some o ->
    match o with
    | ODict g => h2 !! l = Some (ODict g)
    | OList a => exists b, h2 !! l = Some (OList b) /\ (a = [] <-> b = [])
    end.

(** Replies used in the examples. *)
Definition retryable_reply (status : Z) (hint : option string) : reply :=
  Reply {| status_code := status; retry_after := hint; json_body := None |}.

Definition ok_reply (j : json) : reply :=
  Reply {| status_code := 200; retry_after := None; json_body := Some j |}.

(** No credential anywhere, and a server that answers as [srv] says. *)
Definition anonymous (srv : nat -> reply) : env :=
  {| environ_key := None; config := FileAbsent; server := srv |}.

(** A 503 whose Retry-After is U+00B2, then a 200 with an empty object. *)
Definition superscript_server (n : nat) : reply :=
  match n with
  | O => retryable_reply 503 (Some superscript_two)
  | _ => ok_reply (JObj [])
  end.

(** Induction on JSON documents. *)
Section JsonInduction.
Variable P : json -> Prop.
Hypothesis Hnull : P JNull.
Hypothesis Hbool : forall b, P (JBool b).
Hypothesis Hint : forall n, P (JInt n).
Hypothesis Hstr : forall s, P (JStr s).
Hypothesis Harr : forall items, Forall P items -> P (JArr items).
Hypothesis Hobj : forall fields, Forall (fun kv => P kv.2) fields -> P (JObj fields).

Fixpoint json_induction (j : json) : P j :=
  match j with
  | JNull => Hnull
  | JBool b => Hbool b
  | JInt n => Hint n
  | JStr s => Hstr s
  | JArr items =>
      Harr items
        ((fix go (l : list json) : Forall P l :=
            match l with
            | [] => Forall_nil_2 P
            | x :: r => Forall_cons_2 P x r (json_induction x) (go r)
            end) items)
  | JObj fields =>
      Hobj fields
        ((fix go (l : list (string * json)) : Forall (fun kv => P kv.2) l :=
            match l with
            | [] => Forall_nil_2 _
            | kv :: r => Forall_cons_2 _ kv r (json_induction kv.2) (go r)
            end) fields)
  end.
End JsonInduction.

(** ** Vocabulary of the further properties *)

(** Events of the console. *)
Definition console_event (ev : event) : Prop :=
  match ev with
  | EvPrint _ | EvPrintJson _ | EvPanel _ _ | EvTable _ _ => True
  | _ => False
  end.

(** Whatever [m] adds to the trace satisfies [P]. *)
Definition emits {A} (P : event -> Prop) (m : M A) : Prop :=
  forall w, exists evs, trace (m w).2 = trace w ++ evs /\ Forall P evs.

(** The events of a command that asks for no authentication: console
    events, pauses, and GETs of one URL with the User-Agent header alone. *)
Definition public_event (url : string) (params : list (string * val)) (ev : event) : Prop :=
  match ev with
  | EvGet u h p => u = url /\ h = [user_agent] /\ p = params
  | EvResolveKey => False
  | _ => True
  end.

(** The events of a command that asks for authentication: as above, but the
    credential may be looked up and a GET may carry one bearer token. *)
Definition authenticated_event (url : string) (params : list (string * val))
    (ev : event) : Prop :=
  match ev with
  | EvGet u h p =>
      u = url /\ p = params
      /\ (h = [user_agent] \/ exists key, h = [user_agent; bearer key])
  | _ => True
  end.

(** A pause that [time.sleep] accepts. *)
Definition sound_event (ev : event) : Prop :=
  match ev with
  | EvSleep s => 0 <= s <= SLEEP_MAX
  | _ => True
  end.

(** The value that a key has in a parsed JSON object: that of its last
    occurrence. *)
Fixpoint last_field (key : string) (fields : list (string * json)) : option json :=
  match fields with
  | [] => None
  | (k, x) :: r =>
      match last_field key r with
      | Some y => Some y
      | None => if String.eqb k key then Some x else None
      end
  end.

(** The value that [load] gives for a document that is no array and no
    object. *)
Definition scalar (j : json) : option val :=
  match j with
  | JNull => Some VNone
  | JBool b => Some (VBool b)
  | JInt n => Some (VInt n)
  | JStr s => Some (VStr s)
  | _ => None
  end.

Definition is_line_break (c : ascii) : bool := Ascii.eqb c LF || Ascii.eqb c CR.

(** The last character of [s] is whitespace. *)
Fixpoint ends_in_space (s : string) : bool :=
  match s with
  | EmptyString => false
  | String c EmptyString => PyStr.isspace c
  | String _ r => ends_in_space r
  end.

(** Two 503 responses without a hint, then a 200 with an empty object. *)
Definition flaky_server (n : nat) : reply :=
  match n with
  | O | S O => retryable_reply 503 None
  | _ => ok_reply (JObj [])
  end.

(** A server that is down: 503 with a hint of one second, for ever. *)
Definition down_server (n : nat) : reply := retryable_reply 503 (Some "1"%string).

(** A field that is missing or holds an object. *)
Definition dict_or_missing (h : list obj) (field : option val) : Prop :=
  match field with
  | None => True
  | Some (VRef la) => exists fa, h !! la = Some (ODict fa)
  | Some _ => False
  end.

(** [p.get(outer, {}).get(inner, d)] when [outer] is missing or an object. *)
Definition nested_field (h : list obj) (p : gmap string val) (outer inner : string)
    (d : val) : val :=
  match p !! outer with
  | Some (VRef la) =>
      match h !! la with
      | Some (ODict fa) => default d (fa !! inner)
      | _ => d
      end
  | _ => d
  end.

(** What the Posted cell holds whatever grammar [fromisoformat] accepts: a
    value that is no string is shown as it is, the empty string as the
    empty string, and any other string as some string. *)
Definition posted_as (created posted : val) : Prop :=
  match created with
  | VStr EmptyString => posted = VStr EmptyString
  | VStr _ => exists s, posted = VStr s
  | _ => posted = created
  end.

(** A rendering of the [created_at] field. *)
Definition stamping (stamp : val -> val) : Prop := forall v, posted_as v (stamp v).

(** The header panel of [fetch] for a post with the fields [p], the
    [created_at] field being rendered by [stamp]. *)
Definition post_panel (stamp : val -> val) (h : list obj) (p : gmap string val) : event :=
  EvPanel "🦞 Moltbook Post"
    [[str (default (VStr "No title") (p !! "title"%string)); Lit nl; Lit nl];
     [Lit "Author: "];
     [str (nested_field h p "author" "name" (VStr "Unknown")); Lit nl];
     [Lit "Posted: "];
     [str (stamp (default (VStr EmptyString) (p !! "created_at"%string)));
      Lit " in "];
     [str (nested_field h p "submolt" "display_name" (VStr "General")); Lit nl];
     [Lit "Engagement: "];
     [str (default (VInt 0) (p !! "upvotes"%string)); Lit "👍 "];
     [str (default (VInt 0) (p !! "downvotes"%string)); Lit "👎 "];
     [str (default (VInt 0) (p !! "comment_count"%string)); Lit "💬"]].

(** The highlight of a vote count. *)
Definition tier (n : Z) : string :=
  if n >? 10000 then "bold red"
  else if n >? 1000 then "bold yellow"
  else if n >? 100 then "green"
  else "dim".

(** An integer that [str] converts: Python refuses to print more than 4300
    digits.  The integers of a response and of the command line are such. *)
Definition printable_int (n : Z) : Prop := Z.abs n < 10 ^ PyStr.MAX_STR_DIGITS.

(** A post that [browse] can show: an object whose vote count is an
    integer or missing, whose author is an object or missing, whose
    content is a string, missing or falsy, and whose title, author name,
    comment count, identifier and content are scalars without an opening
    bracket, which the console would read as markup. *)
Definition browsable (h : list obj) (v : val) : Prop :=
  match v with
  | VRef l =>
      match h !! l with
      | Some (ODict p) =>
          is_Some (as_number (default (VInt 0) (p !! "upvotes"%string)))
          /\ dict_or_missing h (p !! "author"%string)
          /\ text_or_falsy h (default (VStr EmptyString) (p !! "content"%string))
          /\ plain_text (default (VStr EmptyString) (p !! "content"%string)) = true
          /\ plain_value (default (VStr "No title") (p !! "title"%string)) = true
          /\ plain_value (nested_field h p "author" "name" (VStr "Unknown")) = true
          /\ plain_value (default (VInt 0) (p !! "comment_count"%string)) = true
          /\ plain_value (default (VStr EmptyString) (p !! "id"%string)) = true
      | _ => False
      end
  | _ => False
  end.

(** The lines that [browse] prints for one browsable post. *)
Definition post_lines (h : list obj) (show_ids no_truncate : bool) (v : val)
    : list event :=
  match v with
  | VRef l =>
      match h !! l with
      | Some (ODict p) =>
          let upvotes := default (VInt 0) (p !! "upvotes"%string) in
          let color := tier (default 0 (as_number upvotes)) in
          [EvPrint [Lit "["; Lit color; Lit "]"; Fmt ">6" upvotes; Lit "👍[/"; Lit color;
                    Lit "] [bold]"; str (default (VStr "No title") (p !! "title"%string));
                    Lit "[/bold]"];
           EvPrint [Lit "      [dim]by ";
                    str (nested_field h p "author" "name" (VStr "Unknown")); Lit " | ";
                    str (default (VInt 0) (p !! "comment_count"%string));
                    Lit " comments[/dim]"]]
          ++ (if show_ids
              then [EvPrint [Lit "      ID: ";
                             str (default (VStr EmptyString) (p !! "id"%string))]]
              else [])
          ++ match default (VStr EmptyString) (p !! "content"%string) with
             | VStr (String c s) =>
                 [EvPrint [Lit "      [italic]";
                           str (VStr (maybe_truncate (String c s) 120 no_truncate));
                           Lit "[/italic]"]]
             | _ => []
             end
          ++ [EvPrint []]
      | _ => []
      end
  | _ => []
  end.

(** The line that proposes the next page. *)
Definition more_line (next_offset : val) : event :=
  EvPrint [Lit "[dim]More posts available. Use --offset "; str next_offset;
           Lit " to see next page[/dim]"].

(** A value that is no reference, or that refers to an object of the store. *)
Definition known (h : list obj) (v : val) : Prop :=
  match v with
  | VRef l => is_Some (h !! l)
  | _ => True
  end.

(** The two lines above the posts of [browse]. *)
Definition browse_headers (sort : string) (shown offset : Z) : list event :=
  [EvPrint [Lit nl; Lit "[bold cyan]"; Upper (VStr sort); Lit " Posts[/bold cyan]"];
   EvPrint [Lit "[dim]Showing "; str (VInt shown); Lit " posts (offset: ";
            str (VInt offset); Lit ")"; Lit nl; Lit "[/dim]"]].

(** What [search] clips for the title cell: the title, or the content when
    the title is missing or falsy. *)
Definition shown_title (h : list obj) (p : gmap string val) : val :=
  let title := default VNone (p !! "title"%string) in
  if truthy h title then title else default (VStr EmptyString) (p !! "content"%string).

(** The identifier [search] picks: the result's own for a post, the one of
    its post for anything else. *)
Definition item_id (p : gmap string val) : val :=
  match default (VStr "unknown") (p !! "type"%string) with
  | VStr "post" => default VNone (p !! "id"%string)
  | _ => default (VStr EmptyString) (p !! "post_id"%string)
  end.

(** A number of which the percentage can be written: a boolean, or an
    integer that has a float. *)
Definition percentable (v : val) : bool :=
  match v with
  | VBool _ => true
  | VInt n => Z.abs n <? FLOAT_LIMIT
  | _ => false
  end.

(** A result that [search] can show: an object whose type is a string or
    missing, whose author is an object or missing, whose title cell is a
    string or falsy, whose identifier is a string or falsy, whose author
    name is a string or None, whose similarity is a number that has a
    percentage, or missing, and whose type, identifier, title cell, author
    name and vote count hold no opening bracket, which the console would
    read as markup. *)
Definition searchable (h : list obj) (v : val) : Prop :=
  match v with
  | VRef l =>
      match h !! l with
      | Some (ODict p) =>
          (exists t, default (VStr "unknown") (p !! "type"%string) = VStr t
                     /\ markup_free t = true)
          /\ dict_or_missing h (p !! "author"%string)
          /\ known h (default VNone (p !! "title"%string))
          /\ text_or_falsy h (shown_title h p)
          /\ known h (item_id p)
          /\ plain_text (shown_title h p) = true
          /\ plain_cell (if truthy h (item_id p) then item_id p else VStr EmptyString) = true
          /\ plain_cell (nested_field h p "author" "name" (VStr "Unknown")) = true
          /\ plain_value (default (VInt 0) (p !! "upvotes"%string)) = true
          /\ percentable (default (VInt 0) (p !! "similarity"%string)) = true
      | _ => False
      end
  | _ => False
  end.

(** The row of the table of [search] for one searchable result. *)
Definition result_row (h : list obj) (no_truncate : bool) (v : val) : list text :=
  match v with
  | VRef l =>
      match h !! l with
      | Some (ODict p) =>
          [[Upper (default (VStr "unknown") (p !! "type"%string))];
           [Raw (if truthy h (item_id p) then item_id p else VStr EmptyString)];
           [Raw match shown_title h p with
                | VStr s => VStr (maybe_truncate s 50 no_truncate)
                | _ => VStr EmptyString
                end];
           [Raw (nested_field h p "author" "name" (VStr "Unknown"))];
           [str (default (VInt 0) (p !! "upvotes"%string))];
           [Fmt ".0%" (default (VInt 0) (p !! "similarity"%string))]]
      | _ => []
      end
  | _ => []
  end.

(** The two lines above the table of [search]. *)
Definition search_headers (query : string) (found : Z) : list event :=
  [EvPrint [Lit nl; Lit "[bold cyan]Search Results for:[/bold cyan] ";
            Lit dquote; str (VStr query); Lit dquote];
   EvPrint [Lit "[dim]Found "; str (VInt found); Lit " results"; Lit nl; Lit "[/dim]"]].

(** A result whose type is there but is no string, as a JSON null. *)
Definition untyped (h : list obj) (v : val) : Prop :=
  match v with
  | VRef l =>
      match h !! l with
      | Some (ODict p) =>
          match default (VStr "unknown") (p !! "type"%string) with
          | VStr _ => False
          | _ => True
          end
          /\ dict_or_missing h (p !! "author"%string)
      | _ => False
      end
  | _ => False
  end.

(** A comment that [comments] can show: an object whose author is an object
    or missing and whose content is a string without an opening bracket,
    which the console would read as markup, or missing, or falsy. *)
Definition showable (h : list obj) (v : val) : Prop :=
  match v with
  | VRef l =>
      match h !! l with
      | Some (ODict p) =>
          dict_or_missing h (p !! "author"%string)
          /\ text_or_falsy h (default (VStr EmptyString) (p !! "content"%string))
          /\ plain_text (default (VStr EmptyString) (p !! "content"%string)) = true
      | _ => False
      end
  | _ => False
  end.

(** What [comments] prints for one showable comment, the [created_at] field
    being rendered by [stamp]. *)
Definition comment_lines (stamp : val -> val) (h : list obj) (no_truncate : bool) (v : val)
    : list event :=
  match v with
  | VRef l =>
      match h !! l with
      | Some (ODict p) =>
          [EvPanel "💬 Comment"
             [[str (nested_field h p "author" "name" (VStr "Unknown")); Lit nl];
              [Lit "Posted: "];
              [str (stamp (default (VStr EmptyString) (p !! "created_at"%string)));
               Lit nl];
              [Lit "Engagement: "];
              [str (default (VInt 0) (p !! "upvotes"%string)); Lit "👍 "];
              [str (default (VInt 0) (p !! "downvotes"%string)); Lit "👎"]]]
          ++ match default (VStr EmptyString) (p !! "content"%string) with
             | VStr s =>
                 if PyStr.nonempty (maybe_truncate s 300 no_truncate)
                 then [EvPrint [Raw (VStr (maybe_truncate s 300 no_truncate))]]
                 else []
             | _ => []
             end
          ++ [EvPrint []]
      | _ => []
      end
  | _ => []
  end.

(** The two lines above the comments. *)
Definition comments_headers (post_id sort : string) : list event :=
  [EvPrint [Lit nl; Lit "[bold cyan]Comments[/bold cyan]"];
   EvPrint [Lit "[dim]Post ID: "; str (VStr post_id); Lit " | Sort: "; str (VStr sort);
            Lit "[/dim]"; Lit nl]].

(** The response is the list [items] itself, or an object whose [comments]
    field is that list. *)
Definition holds_comments (h : list obj) (data : val) (items : list val) : Prop :=
  match data with
  | VRef ld =>
      match h !! ld with
      | Some (OList direct) => direct = items
      | Some (ODict f) =>
          exists l, f !! "comments"%string = Some (VRef l) /\ h !! l = Some (OList items)
      | None => False
      end
  | _ => False
  end.

(** A timestamp as the API writes it, [YYYY-MM-DDTHH:MM:SS], without its
    offset. *)
Definition stamp (y m d h mi s : Z) : string :=
  (Iso.pad4 y ++ "-" ++ Iso.pad2 m ++ "-" ++ Iso.pad2 d ++ "T"
   ++ Iso.pad2 h ++ ":" ++ Iso.pad2 mi ++ ":" ++ Iso.pad2 s)%string.

(** A UTC offset, [+HH:MM] or [-HH:MM]. *)
Definition utc_offset (sign : ascii) (oh om : Z) : string :=
  String sign (Iso.pad2 oh ++ ":" ++ Iso.pad2 om)%string.

(** The date and the minute as they are shown, [YYYY-MM-DD HH:MM]. *)
Definition minute_of (y m d h mi : Z) : string :=
  (Iso.pad4 y ++ "-" ++ Iso.pad2 m ++ "-" ++ Iso.pad2 d ++ " "
   ++ Iso.pad2 h ++ ":" ++ Iso.pad2 mi)%string.

(** A submolt whose [display_name] holds no opening bracket, which the
    console would read as markup. *)
Definition plainly_named (h : list obj) (v : val) : Prop :=
  match v with
  | VRef l =>
      match h !! l with
      | Some (ODict p) => plain_value (default VNone (p !! "display_name"%string)) = true
      | _ => True
      end
  | _ => True
  end.

(** The three rows that the table of [stats] always has. *)
Definition stats_rows (shown : Z) (total_posts total_comments : val) : list (list text) :=
  [[[Lit "Total Submolts"]; [str (VInt shown)]];
   [[Lit "Total Posts"]; [Fmt "," total_posts]];
   [[Lit "Total Comments"]; [Fmt "," total_comments]]].

(** The row of the largest community, for the submolt with the fields [p]:
    both fields are read without a default. *)
Definition largest_row (p : gmap string val) : list text :=
  [[Lit "Largest Community"];
   [str (default VNone (p !! "display_name"%string)); Lit " (";
    str (default VNone (p !! "subscriber_count"%string)); Lit " subscribers)"]].

Definition stats_title : event :=
  EvPrint [Lit nl; Lit "[bold cyan]🦞 Moltbook Statistics[/bold cyan]"; Lit nl].

(** A post whose vote count is there but is no number, as a JSON null or a
    string. *)
Definition uncounted (h : list obj) (v : val) : Prop :=
  match v with
  | VRef l =>
      match h !! l with
      | Some (ODict p) =>
          as_number (default (VInt 0) (p !! "upvotes"%string)) = None
          /\ dict_or_missing h (p !! "author"%string)
      | _ => False
      end
  | _ => False
  end.

(** * Properties of the text helpers *)

Section TextFacts.
Import PyStr.

Lemma append_cons (c : ascii) (a b : string) :
  (String c a ++ b)%string = String c (a ++ b).
Proof. reflexivity. Qed.

Lemma strlen_app (a b : string) :
  String.length (a ++ b) = (String.length a + String.length b)%nat.
Proof.
  induction a as [|c a IH]; [reflexivity|].
  rewrite append_cons. simpl. now rewrite IH.
Qed.

Lemma strlen_take (n : nat) (s : string) :
  String.length (take n s) = Nat.min n (String.length s).
Proof.
  revert s; induction n as [|n IH]; intros [|c s]; simpl; try reflexivity.
  now rewrite IH.
Qed.

Lemma str_take_prefix (n : nat) (s : string) : is_prefix (take n s) s.
Proof.
  revert s; induction n as [|n IH]; intros s.
  - exists s. reflexivity.
  - destruct s as [|c s]; [exists EmptyString; reflexivity|].
    destruct (IH s) as [t Ht]. exists t. simpl take. rewrite append_cons. now rewrite <- Ht.
Qed.

Lemma str_take_all (n : nat) (s : string) :
  (String.length s <= n)%nat -> take n s = s.
Proof.
  revert s; induction n as [|n IH]; intros [|c s] H; simpl in *; try reflexivity.
  - lia.
  - rewrite IH; [reflexivity | lia].
Qed.

Lemma str_rstrip_prefix (s : string) : is_prefix (rstrip s) s.
Proof.
  induction s as [|c s [t Ht]]; [exists EmptyString; reflexivity|].
  simpl. destruct (rstrip s) as [|d r] eqn:E.
  - destruct (isspace c).
    + exists (String c s). reflexivity.
    + exists s. reflexivity.
  - exists t. rewrite append_cons. now rewrite <- Ht.
Qed.

Lemma str_prefix_trans (a b c : string) : is_prefix a b -> is_prefix b c -> is_prefix a c.
Proof.
  intros [t Ht] [u Hu]. exists (t ++ u)%string. subst.
  induction a as [|x a IH]; [reflexivity|].
  rewrite !append_cons. now rewrite IH.
Qed.

Lemma str_prefix_length (a b : string) :
  is_prefix a b -> (String.length a <= String.length b)%nat.
Proof. intros [t ->]. rewrite strlen_app. lia. Qed.

Lemma slice_to_nonneg (m : Z) (s : string) :
  0 <= m -> slice_to m s = take (Z.to_nat m) s.
Proof. intros H. unfold slice_to. destruct (Z.ltb_spec m 0); [lia | reflexivity]. Qed.

Lemma or_empty_id (s : string) : or_empty s = s.
Proof. now destruct s. Qed.
End TextFacts.

(** C1, as stated, fails: the clipped text is right-stripped before the
    ellipsis is added, so a cut that lands after a blank gives a shorter
    result.  Here the collapsed input has 3 characters, the maximum is 2, and
    the output has 4 characters instead of 5. *)
Lemma truncate_text_length_counterexample :
  PyStr.len (collapse_newlines "a b") > 2
  /\ PyStr.len (truncate_text "a b" 2) <> 2 + 3.
Proof. vm_compute. split; [reflexivity | discriminate]. Qed.

(** C1, amended.  For a maximum that is not negative: a text whose collapsed
    form is longer than the maximum is rendered as the right-stripped first
    [max_length] characters of the collapsed form followed by the ellipsis,
    so that the output minus the ellipsis is a prefix of the collapsed input,
    the output has at most [max_length + 3] characters, and exactly that many
    when stripping removes nothing; a text whose collapsed form fits is
    rendered as the collapsed form; and without truncation [maybe_truncate]
    is the identity. *)
Theorem truncate_text_spec (text : string) (max_length : Z) :
  0 <= max_length ->
  (PyStr.len (collapse_newlines text) > max_length ->
     let kept := PyStr.rstrip (PyStr.slice_to max_length (collapse_newlines text)) in
     truncate_text text max_length = (kept ++ "...")%string
     /\ PyStr.is_prefix kept (collapse_newlines text)
     /\ PyStr.len (truncate_text text max_length) <= max_length + 3
     /\ (kept = PyStr.slice_to max_length (collapse_newlines text) ->
         PyStr.len (truncate_text text max_length) = max_length + 3))
  /\ (PyStr.len (collapse_newlines text) <= max_length ->
      truncate_text text max_length = collapse_newlines text)
  /\ maybe_truncate text max_length true = text.
Proof.
  intros Hmax. split; [|split].
  - intros Hlong kept.
    assert (Hne : PyStr.nonempty text = true).
    { destruct text; [|reflexivity]. change (0 > max_length) in Hlong. lia. }
    assert (Hout : truncate_text text max_length = (kept ++ "...")%string).
    { unfold truncate_text. rewrite Hne. simpl.
      destruct (Z.gtb_spec (PyStr.len (collapse_newlines text)) max_length); [reflexivity | lia]. }
    assert (Hslice : String.length (PyStr.slice_to max_length (collapse_newlines text))
                     = Z.to_nat max_length).
    { rewrite slice_to_nonneg by assumption. rewrite strlen_take.
      unfold PyStr.len in Hlong. lia. }
    assert (Hkept : (String.length kept <= Z.to_nat max_length)%nat).
    { rewrite <- Hslice. apply str_prefix_length, str_rstrip_prefix. }
    split; [exact Hout|]. split; [|split].
    + eapply str_prefix_trans; [apply str_rstrip_prefix|].
      rewrite slice_to_nonneg by assumption. apply str_take_prefix.
    + rewrite Hout. unfold PyStr.len. rewrite strlen_app. simpl. lia.
    + intros Heq. rewrite Hout. unfold PyStr.len. rewrite strlen_app, Heq, Hslice.
      simpl. lia.
  - intros Hfit. unfold truncate_text.
    destruct text as [|c text]; [reflexivity|]. simpl PyStr.nonempty. simpl negb. cbv iota.
    cbv zeta.
    destruct (Z.gtb_spec (PyStr.len (collapse_newlines (String c text))) max_length);
      [lia | reflexivity].
  - unfold maybe_truncate. apply or_empty_id.
Qed.

Lemma truncate_text_spec_witness :
  0 <= 6
  /\ truncate_text "hello world" 6 = "hello..."%string
  /\ truncate_text "hello" 6 = "hello"%string.
Proof.
  split; [lia|].
  destruct (truncate_text_spec "hello world" 6 ltac:(lia)) as [Hlong _].
  destruct (truncate_text_spec "hello" 6 ltac:(lia)) as [_ [Hfit _]].
  split.
  - destruct (Hlong ltac:(vm_compute; reflexivity)) as [H _]. exact H.
  - exact (Hfit ltac:(vm_compute; discriminate)).
Defined.

(** C7.  The timestamp of the specification's example is rendered as
    [2024-01-15 10:30], its trailing [Z] being read as the offset [+00:00];
    and every string that the ISO parser rejects, whichever strings that
    parser accepts, is returned as it is. *)
Theorem format_timestamp_spec :
  format_timestamp "2024-01-15T10:30:00Z" = "2024-01-15 10:30"%string
  /\ (forall (parse : string -> option Iso.datetime) (s : string),
        parse (PyStr.replace "Z" "+00:00" s) = None ->
        format_timestamp_with parse s = s).
Proof.
  split.
  - vm_compute. reflexivity.
  - intros parse s Hfail. unfold format_timestamp_with. now rewrite Hfail.
Qed.

Lemma format_timestamp_spec_witness :
  format_timestamp "Zulu time, yesterday" = "Zulu time, yesterday"%string.
Proof.
  apply (proj2 format_timestamp_spec Iso.fromisoformat "Zulu time, yesterday"%string).
  vm_compute. reflexivity.
Defined.

(** ** Texts without markup *)

Lemma all_chars_app (p : ascii -> bool) (a b : string) :
  PyStr.all_chars p (a ++ b) = PyStr.all_chars p a && PyStr.all_chars p b.
Proof.
  induction a as [| c a IH]; [reflexivity|].
  rewrite append_cons. simpl. rewrite IH. now rewrite andb_assoc.
Qed.

Lemma all_chars_take (p : ascii -> bool) (n : nat) (s : string) :
  PyStr.all_chars p s = true -> PyStr.all_chars p (PyStr.take n s) = true.
Proof.
  revert s. induction n as [| n IH]; intros [| c s] H; try reflexivity.
  simpl in *. apply andb_true_iff in H as [-> H]. now apply IH.
Qed.

Lemma all_chars_rstrip (p : ascii -> bool) (s : string) :
  PyStr.all_chars p s = true -> PyStr.all_chars p (PyStr.rstrip s) = true.
Proof.
  induction s as [| c s IH]; [reflexivity|]. intros H.
  simpl in H. apply andb_true_iff in H as [Hc Hs]. specialize (IH Hs).
  simpl. destruct (PyStr.rstrip s) as [| d r].
  - destruct (PyStr.isspace c); [reflexivity|]. simpl. now rewrite Hc.
  - change (PyStr.all_chars p (String c (String d r)))
      with (p c && PyStr.all_chars p (String d r)).
    now rewrite Hc, IH.
Qed.

Lemma all_chars_replace (p : ascii -> bool) (c : ascii) (by_ s : string) :
  PyStr.all_chars p by_ = true -> PyStr.all_chars p s = true ->
  PyStr.all_chars p (PyStr.replace c by_ s) = true.
Proof.
  intros Hby. induction s as [| d s IH]; [reflexivity|]. intros H.
  simpl in H. apply andb_true_iff in H as [Hd Hs]. simpl.
  destruct (Ascii.eqb d c).
  - rewrite all_chars_app, Hby. now apply IH.
  - simpl. rewrite Hd. now apply IH.
Qed.

(** Clipping a text puts no opening bracket into it. *)
Lemma markup_free_truncate_text (text : string) (max_length : Z) :
  markup_free text = true -> markup_free (truncate_text text max_length) = true.
Proof.
  unfold markup_free, truncate_text. intros H.
  destruct (PyStr.nonempty text); [|reflexivity]. cbn [negb]. cbv zeta.
  assert (Hc : PyStr.all_chars (fun c => negb (Ascii.eqb c "[")) (collapse_newlines text)
               = true).
  { unfold collapse_newlines. repeat apply all_chars_replace; auto. }
  destruct (PyStr.len (collapse_newlines text) >? max_length); [|exact Hc].
  rewrite all_chars_app. apply andb_true_iff. split; [|reflexivity].
  apply all_chars_rstrip. unfold PyStr.slice_to.
  destruct (max_length <? 0); now apply all_chars_take.
Qed.

Lemma markup_free_maybe_truncate (text : string) (max_length : Z) (no_truncate : bool) :
  markup_free text = true ->
  markup_free (maybe_truncate text max_length no_truncate) = true.
Proof.
  intros H. unfold maybe_truncate.
  assert (Ho : markup_free (or_empty text) = true).
  { unfold or_empty. now destruct (PyStr.nonempty text). }
  destruct no_truncate; [exact Ho | now apply markup_free_truncate_text].
Qed.

(** * The object store under [load] and the request executor *)

Lemma log_log (w : world) (a b : list event) : log (log w a) b = log w (a ++ b).
Proof. unfold log. simpl. now rewrite <- app_assoc. Qed.

Lemma log_nil (w : world) : log w [] = w.
Proof. destruct w. unfold log. simpl. now rewrite app_nil_r. Qed.

Lemma bind_ok {A B} (m : M A) (k : A -> M B) (w w1 : world) (a : A) :
  m w = (Ok a, w1) -> bind m k w = k a w1.
Proof. intros E. unfold bind. now rewrite E. Qed.

Lemma emit_eval (ev : event) (w : world) : emit ev w = (Ok tt, log w [ev]).
Proof. reflexivity. Qed.

(** A line without markup in its values is printed. *)
Lemma console_print_eval (line : text) (w : world) :
  plain_line line = true -> console_print line w = (Ok tt, log w [EvPrint line]).
Proof. intros H. unfold console_print. now rewrite H. Qed.

(** A table without markup in its cells is printed. *)
Lemma print_table_eval (columns : list string) (rows : list (list text)) (w : world) :
  forallb (forallb plain_line) rows = true ->
  print_table columns rows w = (Ok tt, log w [EvTable columns rows]).
Proof. intros H. unfold print_table. now rewrite H. Qed.

(** A row of strings is added. *)
Lemma add_row_eval (cells : list text) (w : world) :
  forallb cell_accepted cells = true -> add_row cells w = (Ok cells, w).
Proof. intros H. unfold add_row. now rewrite H. Qed.

Lemma console_print_bind {B} (line : text) (k : unit -> M B) (w : world) :
  plain_line line = true -> bind (console_print line) k w = k tt (log w [EvPrint line]).
Proof. intros H. apply bind_ok, console_print_eval, H. Qed.

Lemma print_table_bind {B} (columns : list string) (rows : list (list text))
    (k : unit -> M B) (w : world) :
  forallb (forallb plain_line) rows = true ->
  bind (print_table columns rows) k w = k tt (log w [EvTable columns rows]).
Proof. intros H. apply bind_ok, print_table_eval, H. Qed.

(** Lines whose values are numbers, or strings known to hold no markup. *)
Ltac plain :=
  cbn [plain_line forallb plain_seg plain_value str andb];
  repeat match goal with H : ?x = true |- context [?x] => rewrite H end;
  reflexivity.

(** The error lines of [make_request] hold a status at most. *)
Lemma exit_line (A : Type) (line : text) (w : world) :
  plain_line line = true ->
  (console_print line ;;; @sys_exit A 1) w = (Exit 1, log w [EvPrint line]).
Proof.
  intros H. unfold bind. now rewrite (console_print_eval _ _ H).
Qed.

Lemma grown_refl (w : world) : grown w w.
Proof. exists []. destruct w. simpl. now rewrite app_nil_r. Qed.

Lemma grown_trans (a b c : world) : grown a b -> grown b c -> grown a c.
Proof.
  intros [x ->] [y ->]. exists (x ++ y). simpl. now rewrite <- app_assoc.
Qed.

Lemma grown_alloc (w : world) (o : obj) : grown w (alloc o w).2.
Proof. exists [o]. reflexivity. Qed.

(** [load] always succeeds, prints nothing and only allocates. *)
Lemma load_grows (j : json) :
  forall w, exists v w', load j w = (Ok v, w') /\ grown w w'.
Proof.
  induction j as [| b | n | s | items IH | fields IH] using json_induction; intros w;
    try (eexists _, w; split; [reflexivity | apply grown_refl]).
  - simpl. unfold bind at 1.
    assert (Hgo : forall w, exists vs w',
      (fix go (l : list json) : M (list val) :=
         match l with
         | [] => ret []
         | x :: r => v <- load x ;; vs <- go r ;; ret (v :: vs)
         end) items w = (Ok vs, w') /\ grown w w').
    { clear w. induction IH as [| x r Hx _ IHr]; intros w.
      - eexists _, w. split; [reflexivity | apply grown_refl].
      - destruct (Hx w) as (v & w1 & E1 & G1).
        destruct (IHr w1) as (vs & w2 & E2 & G2).
        exists (v :: vs), w2. split; [|eapply grown_trans; eassumption].
        unfold bind at 1. rewrite E1. unfold bind at 1. rewrite E2. reflexivity. }
    destruct (Hgo w) as (vs & w1 & E & G). rewrite E.
    eexists _, _. split; [reflexivity|].
    eapply grown_trans; [exact G | apply grown_alloc].
  - simpl. unfold bind at 1.
    assert (Hgo : forall acc w, exists f w',
      (fix go (l : list (string * json)) (acc : gmap string val) : M (gmap string val) :=
         match l with
         | [] => ret acc
         | (k, x) :: r => v <- load x ;; go r (<[k := v]> acc)
         end) fields acc w = (Ok f, w') /\ grown w w').
    { clear w. induction IH as [| [k x] r Hx _ IHr]; intros acc w.
      - eexists _, w. split; [reflexivity | apply grown_refl].
      - destruct (Hx w) as (v & w1 & E1 & G1). simpl in E1.
        destruct (IHr (<[k := v]> acc) w1) as (f & w2 & E2 & G2).
        exists f, w2. split; [|eapply grown_trans; eassumption].
        unfold bind at 1. rewrite E1. exact E2. }
    destruct (Hgo ∅ w) as (f & w1 & E & G). rewrite E.
    eexists _, _. split; [reflexivity|].
    eapply grown_trans; [exact G | apply grown_alloc].
Qed.

Section Executor.
Context (e : env) (url : string) (headers : list (string * text))
        (params : option (list (string * val))).

Let sent : event := EvGet url headers (default [] params).

(** One turn of the loop on a retryable response within the budget, when
    the pause can be computed and slept. *)
Lemma attempts_retry (remaining attempt : nat) (r : response) (s : Z) (w : world) :
  server e attempt = Reply r ->
  is_retry_status (status_code r) = true ->
  (attempt < MAX_RETRIES)%nat ->
  wait_seconds (retry_after r) attempt = Some s ->
  s <= SLEEP_MAX ->
  attempts e url headers params (S remaining) attempt w
  = attempts e url headers params remaining (S attempt) (log w [sent; EvSleep s]).
Proof.
  intros Hs Hr Ha Hw Hmax. simpl. unfold bind at 1. simpl. rewrite Hs, Hr.
  apply Nat.ltb_lt in Ha. rewrite Ha. simpl. rewrite Hw.
  unfold bind at 1, sleep. destruct (Z.gtb_spec s SLEEP_MAX) as [Hgt|_]; [lia|].
  simpl. unfold log. simpl. now rewrite <- app_assoc.
Qed.

(** A pause that [time.sleep] does not take ends the call after the GET. *)
Lemma attempts_overflow (remaining attempt : nat) (r : response) (s : Z) (w : world) :
  server e attempt = Reply r ->
  is_retry_status (status_code r) = true ->
  (attempt < MAX_RETRIES)%nat ->
  wait_seconds (retry_after r) attempt = Some s ->
  s > SLEEP_MAX ->
  attempts e url headers params (S remaining) attempt w
  = (Raise OverflowError, log w [sent]).
Proof.
  intros Hs Hr Ha Hw Hmax. simpl. unfold bind at 1. simpl. rewrite Hs, Hr.
  apply Nat.ltb_lt in Ha. rewrite Ha. simpl. rewrite Hw.
  unfold bind at 1, sleep. destruct (Z.gtb_spec s SLEEP_MAX) as [_|Hle]; [|lia].
  reflexivity.
Qed.

(** A success status with a JSON body ends the loop with the loaded body. *)
Lemma attempts_success (remaining attempt : nat) (r : response) (j : json) (w : world) :
  server e attempt = Reply r ->
  is_success_status (status_code r) = true ->
  json_body r = Some j ->
  attempts e url headers params (S remaining) attempt w = load j (log w [sent]).
Proof.
  intros Hs Hok Hj. simpl. unfold bind at 1. simpl. rewrite Hs.
  assert (Hn : is_retry_status (status_code r) = false).
  { unfold is_success_status in Hok. unfold is_retry_status, RETRY_STATUSES.
    apply bool_decide_eq_false. rewrite !elem_of_cons, elem_of_nil. lia. }
  assert (He : is_error_status (status_code r) = false).
  { unfold is_success_status in Hok. unfold is_error_status. lia. }
  rewrite Hn, He, Hj. reflexivity.
Qed.

(** An error status that is not retried ends the loop with the HTTP error
    line and exit status 1. *)
Lemma attempts_http_error (remaining attempt : nat) (r : response) (w : world) :
  server e attempt = Reply r ->
  is_error_status (status_code r) = true ->
  is_retry_status (status_code r) && (attempt <? MAX_RETRIES)%nat = false ->
  attempts e url headers params (S remaining) attempt w
  = (Exit 1,
     log w [sent;
            EvPrint (error_line [Lit "HTTP "; Fmt EmptyString (VInt (status_code r))])]).
Proof.
  intros Hs He Hn. cbn [attempts]. rewrite (bind_ok _ _ _ _ _ (emit_eval _ _)).
  rewrite Hs, Hn, He. rewrite exit_line by reflexivity. now rewrite log_log.
Qed.

(** The loop body, with its events written out. *)
Lemma attempts_unfold (remaining attempt : nat) (w : world) :
  attempts e url headers params (S remaining) attempt w
  = match server e attempt with
    | ReplyTimeout =>
        (Exit 1, log w [sent; EvPrint (error_line [Lit "Request timed out"])])
    | ReplyConnectionError =>
        (Exit 1, log w [sent; EvPrint (error_line [Lit "Could not connect to Moltbook"])])
    | ReplyError => (Raise RequestException, log w [sent])
    | Reply r =>
        if is_retry_status (status_code r) && (attempt <? MAX_RETRIES)%nat then
          match wait_seconds (retry_after r) attempt with
          | Some s =>
              if s >? SLEEP_MAX then (Raise OverflowError, log w [sent])
              else attempts e url headers params remaining (S attempt)
                     (log w [sent; EvSleep s])
          | None => (Raise ValueError, log w [sent])
          end
        else if is_error_status (status_code r) then
          (Exit 1,
           log w [sent;
                  EvPrint (error_line
                             [Lit "HTTP "; Fmt EmptyString (VInt (status_code r))])])
        else
          match json_body r with
          | Some j => load j (log w [sent])
          | None =>
              (Exit 1, log w [sent; EvPrint (error_line [Lit "Invalid JSON response"])])
          end
    end.
Proof.
  assert (Hlog : forall a b, {| heap := heap w; trace := (trace w ++ [a]) ++ [b] |}
                             = log w [a; b]).
  { intros a b. unfold log. now rewrite <- app_assoc. }
  cbn [attempts]. rewrite (bind_ok _ _ _ _ _ (emit_eval _ _)).
  destruct (server e attempt) as [| | | r].
  - rewrite exit_line by reflexivity. now rewrite log_log.
  - rewrite exit_line by reflexivity. now rewrite log_log.
  - reflexivity.
  - destruct (is_retry_status (status_code r) && (attempt <? MAX_RETRIES)%nat).
    + destruct (wait_seconds (retry_after r) attempt) as [s|]; [|reflexivity].
      unfold bind at 1, sleep. destruct (s >? SLEEP_MAX); [reflexivity|].
      unfold emit at 1, log. cbn [heap trace]. now rewrite Hlog.
    + destruct (is_error_status (status_code r)).
      * rewrite exit_line by reflexivity. now rewrite log_log.
      * destruct (json_body r) as [j|]; [reflexivity|].
        rewrite exit_line by reflexivity. now rewrite log_log.
Qed.

(** Whatever the server answers, a run of the loop adds only events of the
    request at hand, and changes the store by allocation only. *)
Lemma attempts_events (remaining : nat) :
  forall attempt w, exists evs ext,
    (attempts e url headers params remaining attempt w).2
    = {| heap := heap w ++ ext; trace := trace w ++ evs |}
    /\ Forall (request_event url headers (default [] params)) evs.
Proof.
  assert (Hstop : forall (A : Type) (r : res A) w evs,
            Forall (request_event url headers (default [] params)) evs ->
            exists evs' ext,
              (r, log w evs).2 = {| heap := heap w ++ ext; trace := trace w ++ evs' |}
              /\ Forall (request_event url headers (default [] params)) evs').
  { intros A r w evs F. exists evs, []. split; [|exact F].
    unfold log. simpl. now rewrite app_nil_r. }
  induction remaining as [| k IH]; intros attempt w.
  - exists [], []. destruct w. simpl. now rewrite !app_nil_r.
  - rewrite attempts_unfold.
    destruct (server e attempt) as [| | | r];
      [apply Hstop; repeat constructor | apply Hstop; repeat constructor
      | apply Hstop; repeat constructor |].
    destruct (is_retry_status (status_code r) && (attempt <? MAX_RETRIES)%nat).
    + destruct (wait_seconds (retry_after r) attempt) as [s|];
        [|apply Hstop; repeat constructor].
      destruct (s >? SLEEP_MAX); [apply Hstop; repeat constructor|].
      destruct (IH (S attempt) (log w [sent; EvSleep s])) as (evs & ext & E & F).
      exists (sent :: EvSleep s :: evs), ext. rewrite E. simpl.
      split; [now rewrite <- !app_assoc|].
      repeat constructor; assumption.
    + destruct (is_error_status (status_code r)); [apply Hstop; repeat constructor|].
      destruct (json_body r) as [j|]; [|apply Hstop; repeat constructor].
      destruct (load_grows j (log w [sent])) as (v & w' & E & [ext ->]).
      exists [sent], ext. rewrite E. simpl. split; [reflexivity|].
      repeat constructor.
Qed.
End Executor.

(** ** The pause between attempts *)

Lemma isdecimal_isdigit (s : string) : PyStr.isdecimal s = true -> PyStr.isdigit s = true.
Proof.
  unfold PyStr.isdecimal, PyStr.isdigit. intros H.
  apply andb_true_iff in H as [Hn Ha]. rewrite Hn. simpl.
  clear Hn. induction s as [| c s IH]; [reflexivity|].
  simpl in *. apply andb_true_iff in Ha as [Hc Hs].
  unfold PyStr.isdigit_char. rewrite Hc. simpl. auto.
Qed.

Lemma wait_seconds_decimal (hint : string) (attempt : nat) :
  PyStr.isdecimal hint = true ->
  PyStr.len hint <= PyStr.MAX_STR_DIGITS ->
  wait_seconds (Some hint) attempt = Some (decimal_value hint).
Proof.
  intros H Hlen. unfold wait_seconds, PyStr.int_of_digits.
  rewrite (isdecimal_isdigit _ H), H.
  apply Z.leb_le in Hlen. rewrite Hlen.
  unfold PyStr.isdecimal in H. apply andb_true_iff in H as [-> _]. reflexivity.
Qed.

(** Without a hint, or with one that [isdigit] rejects, the pause is the
    backoff value. *)
Lemma wait_seconds_backoff (hint : option string) (attempt : nat) :
  match hint with Some h => PyStr.isdigit h = false | None => True end ->
  wait_seconds hint attempt = Some (backoff_wait attempt).
Proof.
  destruct hint as [h|]; [|reflexivity]. intros H. unfold wait_seconds.
  rewrite H. now rewrite andb_false_r.
Qed.

(** The backoff values the loop can reach, and why the rational power is the
    floating-point one: it is 3^n / 2^n with 3^n below 2^53. *)
Lemma backoff_wait_values :
  backoff_wait 0 = 1 /\ backoff_wait 1 = 1 /\ backoff_wait 2 = 2.
Proof. vm_compute. auto. Qed.

Lemma backoff_power_dyadic (attempt : nat) :
  (attempt < MAX_RETRIES)%nat ->
  Qpower RETRY_BACKOFF (Z.of_nat attempt)
  == (3 ^ Z.of_nat attempt) # Z.to_pos (2 ^ Z.of_nat attempt)
  /\ 3 ^ Z.of_nat attempt < 2 ^ 53.
Proof.
  unfold MAX_RETRIES. intros H.
  destruct attempt as [|[|[|n]]]; [| | | lia]; vm_compute; split; reflexivity.
Qed.

(** C4, as stated, fails for a hint that [time.sleep] does not take.  The
    hint 10000000000 is made of decimal digits and its value is computed,
    but no pause of that length, nor any other, takes place: [time.sleep]
    raises [OverflowError], which nothing catches, and the request ends after
    one GET. *)
Lemma oversized_hint_counterexample :
  let e := anonymous (fun _ => retryable_reply 429 (Some "10000000000"%string)) in
  PyStr.isdecimal "10000000000" = true
  /\ wait_seconds (Some "10000000000"%string) 0 = Some 10000000000
  /\ attempts e "u" [] None 4 0 empty_world
     = (Raise OverflowError, log empty_world [EvGet "u" [] []])
  /\ List.filter is_sleep (trace (attempts e "u" [] None 4 0 empty_world).2) = [].
Proof. vm_compute. repeat split; reflexivity. Qed.

(** Nor is a hint of more than [MAX_STR_DIGITS] digits the wait, however
    small its value: [int] refuses 4301 zeros with [ValueError], and the
    request ends after one GET. *)
Lemma overlong_hint_has_no_wait :
  let hint := string_of_list_ascii (repeat "0"%char 4301) in
  let e := anonymous (fun _ => retryable_reply 429 (Some hint)) in
  PyStr.isdecimal hint = true
  /\ decimal_value hint = 0
  /\ wait_seconds (Some hint) 0 = None
  /\ attempts e "u" [] None 4 0 empty_world
     = (Raise ValueError, log empty_world [EvGet "u" [] []]).
Proof. vm_compute. repeat split; reflexivity. Qed.

(** C4, amended.  When a retryable response within the retry budget carries
    a hint made of decimal digits, at most [MAX_STR_DIGITS] of them, whose
    value [time.sleep] takes (at most [SLEEP_MAX] seconds), the pause before
    the next attempt is the value of that hint, whatever the backoff value
    is: the loop sends its GET, sleeps for exactly that long and goes on with
    the next attempt. *)
Theorem numeric_hint_is_the_wait (e : env) (url : string)
    (headers : list (string * text)) (params : option (list (string * val)))
    (remaining attempt : nat) (r : response) (hint : string) (w : world) :
  server e attempt = Reply r ->
  is_retry_status (status_code r) = true ->
  (attempt < MAX_RETRIES)%nat ->
  retry_after r = Some hint ->
  PyStr.isdecimal hint = true ->
  PyStr.len hint <= PyStr.MAX_STR_DIGITS ->
  decimal_value hint <= SLEEP_MAX ->
  wait_seconds (retry_after r) attempt = Some (decimal_value hint)
  /\ attempts e url headers params (S remaining) attempt w
     = attempts e url headers params remaining (S attempt)
         (log w [EvGet url headers (default [] params); EvSleep (decimal_value hint)]).
Proof.
  intros Hs Hr Ha Hh Hd Hlen Hmax.
  assert (Hw : wait_seconds (retry_after r) attempt = Some (decimal_value hint)).
  { rewrite Hh. now apply wait_seconds_decimal. }
  split; [exact Hw|]. eapply attempts_retry; eassumption.
Qed.

Lemma numeric_hint_is_the_wait_witness :
  wait_seconds (Some "120"%string) 1 = Some 120
  /\ backoff_wait 1 = 1.
Proof.
  pose (srv := fun n : nat => retryable_reply 429 (Some "120"%string)).
  destruct (numeric_hint_is_the_wait (anonymous srv) "u" [] None 2 1
              {| status_code := 429; retry_after := Some "120"%string; json_body := None |}
              "120" empty_world eq_refl eq_refl ltac:(unfold MAX_RETRIES; lia)
              eq_refl eq_refl ltac:(vm_compute; discriminate)
              ltac:(vm_compute; discriminate)) as [H _].
  split; [exact H | reflexivity].
Defined.

(** C5, at the failing input.  U+00B2 passes [isdigit] but [int] rejects it:
    no pause is computed, neither the hint nor the backoff value 1 of a first
    attempt, and the request ends with a [ValueError] that no handler of
    [make_request] catches, after a single GET. *)
Theorem superscript_hint_has_no_wait :
  PyStr.isdigit superscript_two = true
  /\ PyStr.isdecimal superscript_two = false
  /\ wait_seconds (Some superscript_two) 0 = None
  /\ backoff_wait 0 = 1
  /\ attempts (anonymous superscript_server) "u" [] None 4 0 empty_world
     = (Raise ValueError, log empty_world [EvGet "u" [] []]).
Proof. vm_compute. repeat split; reflexivity. Qed.

(** ** The retry budget *)

Section Budget.
Context (e : env) (url : string) (headers : list (string * text))
        (params : option (list (string * val))).

Lemma retries_then_success_from (n : nat) (j : json) :
  forall attempt remaining w,
    (attempt + n <= MAX_RETRIES)%nat ->
    (forall i, (attempt <= i < attempt + n)%nat -> retried e i) ->
    (exists r, server e (attempt + n)%nat = Reply r
               /\ is_success_status (status_code r) = true
               /\ json_body r = Some j) ->
    exists evs,
      attempts e url headers params (S (n + remaining)) attempt w = load j (log w evs)
      /\ length (List.filter is_get evs) = S n
      /\ length (List.filter is_sleep evs) = n.
Proof.
  induction n as [| n IH]; intros attempt remaining w Hle Hretry (r & Hs & Hok & Hj).
  - rewrite Nat.add_0_r in Hs. eexists. split; [|split].
    + eapply attempts_success; eassumption.
    + reflexivity.
    + reflexivity.
  - destruct (Hretry attempt ltac:(lia)) as (r0 & s & Hs0 & Hr0 & Hw0 & Hm0).
    destruct (IH (S attempt) remaining
                (log w [EvGet url headers (default [] params); EvSleep s]))
      as (evs & E & Hg & Hsl).
    + lia.
    + intros i Hi. apply Hretry. lia.
    + exists r. replace (S attempt + n)%nat with (attempt + S n)%nat by lia. auto.
    + eexists. split; [|split].
      * rewrite (attempts_retry e url headers params _ attempt r0 s w Hs0 Hr0
                   ltac:(lia) Hw0 Hm0).
        change (S n + remaining)%nat with (S (n + remaining)).
        rewrite E, log_log. reflexivity.
      * simpl. now rewrite Hg.
      * simpl. now rewrite Hsl.
Qed.

(** After at most three retryable responses whose pauses are computed, a
    success response gives its body back: [k + 1] GETs, [k] pauses. *)
Lemma retries_then_success (k : nat) (j : json) (w : world) :
  (k <= MAX_RETRIES)%nat ->
  (forall i, (i < k)%nat -> retried e i) ->
  (exists r, server e k = Reply r
             /\ is_success_status (status_code r) = true
             /\ json_body r = Some j) ->
  exists evs,
    attempts e url headers params (MAX_RETRIES + 1) 0 w = load j (log w evs)
    /\ length (List.filter is_get evs) = S k
    /\ length (List.filter is_sleep evs) = k.
Proof.
  intros Hk Hretry Hok.
  replace (MAX_RETRIES + 1)%nat with (S (k + (MAX_RETRIES - k)))%nat by lia.
  apply retries_then_success_from; auto.
  intros i Hi. apply Hretry. lia.
Qed.

(** Four retryable responses in a row use up the budget: the fourth is
    reported as an HTTP error and the process exits with status 1. *)
Lemma budget_exhausted (w : world) (last : response) :
  (forall i, (i < MAX_RETRIES)%nat -> retried e i) ->
  server e MAX_RETRIES = Reply last ->
  is_retry_status (status_code last) = true ->
  exists evs,
    attempts e url headers params (MAX_RETRIES + 1) 0 w
    = (Exit 1,
       log w (evs ++ [EvPrint (error_line
                                 [Lit "HTTP "; Fmt EmptyString (VInt (status_code last))])]))
    /\ length (List.filter is_get evs) = 4%nat
    /\ length (List.filter is_sleep evs) = 3%nat.
Proof.
  intros Hretry Hs Hr. unfold MAX_RETRIES in *.
  destruct (Hretry 0%nat ltac:(lia)) as (r0 & s0 & Hs0 & Hr0 & Hw0 & Hm0).
  destruct (Hretry 1%nat ltac:(lia)) as (r1 & s1 & Hs1 & Hr1 & Hw1 & Hm1).
  destruct (Hretry 2%nat ltac:(lia)) as (r2 & s2 & Hs2 & Hr2 & Hw2 & Hm2).
  simpl Nat.add.
  rewrite (attempts_retry e url headers params _ _ r0 s0 _ Hs0 Hr0
             ltac:(unfold MAX_RETRIES; lia) Hw0 Hm0).
  rewrite (attempts_retry e url headers params _ _ r1 s1 _ Hs1 Hr1
             ltac:(unfold MAX_RETRIES; lia) Hw1 Hm1).
  rewrite (attempts_retry e url headers params _ _ r2 s2 _ Hs2 Hr2
             ltac:(unfold MAX_RETRIES; lia) Hw2 Hm2).
  rewrite (attempts_http_error e url headers params _ _ last _ Hs).
  - rewrite !log_log. eexists [_; _; _; _; _; _; _]. split; [reflexivity|].
    split; reflexivity.
  - unfold is_retry_status, RETRY_STATUSES in Hr. apply bool_decide_eq_true in Hr.
    rewrite !elem_of_cons, elem_of_nil in Hr. unfold is_error_status. lia.
  - rewrite Hr. reflexivity.
Qed.

(** An error status outside the retryable set fails at once: one GET, no
    pause, the HTTP error line, exit status 1. *)
Lemma error_status_fails_at_once (w : world) (r : response) :
  server e 0%nat = Reply r ->
  is_error_status (status_code r) = true ->
  is_retry_status (status_code r) = false ->
  attempts e url headers params (MAX_RETRIES + 1) 0 w
  = (Exit 1,
     log w [EvGet url headers (default [] params);
            EvPrint (error_line [Lit "HTTP "; Fmt EmptyString (VInt (status_code r))])]).
Proof.
  intros Hs He Hn. apply attempts_http_error; auto. now rewrite Hn.
Qed.
End Budget.

(** C3, at the failing input.  The first response is a retryable 503 and the
    next attempt would be answered by a 200 with a JSON body, but the 503
    carries the hint U+00B2: the executor neither retries nor returns the
    body, it ends after one GET with an uncaught [ValueError]. *)
Theorem retry_lost_on_superscript_hint :
  (exists r, superscript_server 0 = Reply r /\ is_retry_status (status_code r) = true)
  /\ (exists r, superscript_server 1 = Reply r
                /\ is_success_status (status_code r) = true
                /\ json_body r = Some (JObj []))
  /\ make_request (anonymous superscript_server) "posts" None false empty_world
     = (Raise ValueError,
        log empty_world [EvGet "https://www.moltbook.com/api/v1/posts" [user_agent] []]).
Proof.
  split; [eexists; split; reflexivity|].
  split; [eexists; repeat split; reflexivity|].
  vm_compute. reflexivity.
Qed.

(** ** Credentials *)

(** [v.get(key, d)] with a default that is already a value reads the store
    and leaves the world as it is. *)
Lemma get_world (v : val) (key : string) (d : val) (w : world) :
  (get v key d w).2 = w.
Proof.
  unfold get, get_with, bind at 1, fields_of.
  destruct v as [| | | | l]; try reflexivity.
  destruct (heap w !! l) as [[|f]|]; reflexivity.
Qed.

(** [get_api_key] records its call once, prints nothing else and only
    allocates. *)
Lemma get_api_key_world (e : env) (w : world) :
  exists ext,
    (get_api_key e w).2 = {| heap := heap w ++ ext; trace := trace w ++ [EvResolveKey] |}.
Proof.
  assert (Hstay : forall (r : res val),
            exists ext, (r, log w [EvResolveKey]).2
                        = {| heap := heap w ++ ext; trace := trace w ++ [EvResolveKey] |}).
  { intros r. exists []. unfold log. simpl. now rewrite app_nil_r. }
  unfold get_api_key, bind at 1. cbn [emit].
  change {| heap := heap w; trace := trace w ++ [EvResolveKey] |} with (log w [EvResolveKey]).
  assert (Hfile : exists ext,
            (match config e with
             | FileUnsearchable => raise PermissionError
             | FileAbsent => ret VNone
             | FileJson j => cfg <- load j ;; get_none cfg "api_key"
             | FileNotJson => ret VNone
             | FileUnreadable => ret VNone
             | FileUndecodable => raise UnicodeDecodeError
             end (log w [EvResolveKey])).2
            = {| heap := heap w ++ ext; trace := trace w ++ [EvResolveKey] |}).
  { destruct (config e) as [| | | | | j]; try apply Hstay.
    destruct (load_grows j (log w [EvResolveKey])) as (v & w1 & E & [ext ->]).
    exists ext. unfold bind at 1. rewrite E. unfold get_none. now rewrite get_world. }
  destruct (environ_key e) as [[|c k]|]; [exact Hfile | apply Hstay | exact Hfile].
Qed.

(** The key of the environment wins, and the file is not looked at. *)
Lemma environment_key_first (e : env) (c : ascii) (k : string) (w : world) :
  environ_key e = Some (String c k) ->
  get_api_key e w = (Ok (VStr (String c k)), log w [EvResolveKey]).
Proof. intros H. unfold get_api_key. rewrite H. reflexivity. Qed.

(** Without a key in the environment, the [api_key] field of the file. *)
Lemma file_key_second (e : env) (fields : list (string * json)) (w : world) :
  match environ_key e with Some k => k = EmptyString | None => True end ->
  config e = FileJson (JObj fields) ->
  exists v cfg w',
    load (JObj fields) (log w [EvResolveKey]) = (Ok cfg, w')
    /\ get_none cfg "api_key" w' = (Ok v, w')
    /\ get_api_key e w = (Ok v, w').
Proof.
  intros Henv Hcfg.
  destruct (load_grows (JObj fields) (log w [EvResolveKey])) as (cfg & w' & E & G).
  assert (Hdict : exists l f, cfg = VRef l /\ heap w' !! l = Some (ODict f)).
  { simpl in E. unfold bind at 1 in E.
    destruct ((fix go (l : list (string * json)) (acc : gmap string val)
                 : M (gmap string val) :=
                 match l with
                 | [] => ret acc
                 | (k, x) :: r => v <- load x ;; go r (<[k := v]> acc)
                 end) fields ∅ (log w [EvResolveKey])) as [[f| | |] w1] eqn:Ego;
      try discriminate.
    unfold alloc in E. injection E as <- <-.
    exists (length (heap w1)), f. split; [reflexivity|].
    simpl. rewrite lookup_app_r by lia. now rewrite Nat.sub_diag. }
  destruct Hdict as (l & f & -> & Hl).
  exists (default VNone (f !! "api_key"%string)), (VRef l), w'.
  assert (Hget : get_none (VRef l) "api_key" w'
                 = (Ok (default VNone (f !! "api_key"%string)), w')).
  { unfold get_none, get, get_with, bind at 1, fields_of. rewrite Hl. reflexivity. }
  split; [exact E|]. split; [exact Hget|].
  unfold get_api_key, bind at 1. cbn [emit].
  change {| heap := heap w; trace := trace w ++ [EvResolveKey] |} with (log w [EvResolveKey]).
  assert (Hfile : (cfg <- load (JObj fields) ;; get_none cfg "api_key") (log w [EvResolveKey])
                  = (Ok (default VNone (f !! "api_key"%string)), w')).
  { unfold bind at 1. rewrite E. exact Hget. }
  rewrite Hcfg. destruct (environ_key e) as [[|c k]|]; [exact Hfile | discriminate | exact Hfile].
Qed.

(** The failures that [get_api_key] handles, once [CONFIG_PATH.exists()]
    has answered: no file, a file that [open] or [read] refuses with an
    [OSError], a file that is not JSON.  The credential is then absent and a
    request that asks for authentication, whatever its parameters, goes out
    with the User-Agent header alone, as the loop that follows the lookup
    shows. *)
Lemma handled_failures_give_none (e : env) (endpoint : string)
    (params : option (list (string * val))) (w : world) :
  match environ_key e with Some k => k = EmptyString | None => True end ->
  config e = FileAbsent \/ config e = FileUnreadable \/ config e = FileNotJson ->
  get_api_key e w = (Ok VNone, log w [EvResolveKey])
  /\ make_request e endpoint params true w
     = attempts e (BASE_URL ++ "/" ++ endpoint) [user_agent] params (MAX_RETRIES + 1) 0
         (log w [EvResolveKey]).
Proof.
  intros Henv Hcfg.
  assert (Hkey : get_api_key e w = (Ok VNone, log w [EvResolveKey])).
  { unfold get_api_key, bind at 1. cbn [emit].
    destruct (environ_key e) as [[|c k]|]; try discriminate;
      destruct Hcfg as [-> | [-> | ->]]; reflexivity. }
  split; [exact Hkey|].
  unfold make_request. unfold bind at 1. unfold bind at 1. rewrite Hkey. reflexivity.
Qed.

(** C8, at the failing inputs.  With no key in the environment and a
    credentials file whose bytes are not text, reading raises
    [UnicodeDecodeError], which the handler for [JSONDecodeError] and
    [IOError] lets through: [get_api_key] does not return, and a request that
    asks for authentication ends there, before any GET.  A file that holds
    JSON other than an object ends the same way with [AttributeError]. *)
Theorem unreadable_credentials_fail_the_request :
  let undecodable := {| environ_key := None; config := FileUndecodable;
                        server := fun _ => ok_reply (JObj []) |} in
  let not_an_object := {| environ_key := None; config := FileJson (JArr []);
                          server := fun _ => ok_reply (JObj []) |} in
  get_api_key undecodable empty_world
  = (Raise UnicodeDecodeError, log empty_world [EvResolveKey])
  /\ make_request undecodable "search" None true empty_world
     = (Raise UnicodeDecodeError, log empty_world [EvResolveKey])
  /\ (get_api_key not_an_object empty_world).1 = Raise AttributeError
  /\ (make_request not_an_object "search" None true empty_world).1 = Raise AttributeError.
Proof. vm_compute. repeat split; reflexivity. Qed.

(** ** One request, one set of headers *)

(** C9.  One call of [make_request] resolves the credential at most once,
    and only when authentication is asked for; it does so before anything is
    sent; and every GET that follows carries the same URL, parameters and
    headers, which are the User-Agent alone or the User-Agent with one
    Authorization header. *)
Theorem request_headers_fixed (e : env) (endpoint : string)
    (params : option (list (string * val))) (auth : bool) (w : world) :
  exists resolved headers evs ext,
    (make_request e endpoint params auth w).2
    = {| heap := heap w ++ ext; trace := trace w ++ resolved ++ evs |}
    /\ (resolved = [] \/ (auth = true /\ resolved = [EvResolveKey]))
    /\ (headers = [user_agent]
        \/ exists key, auth = true /\ headers = [user_agent; bearer key])
    /\ Forall (request_event (BASE_URL ++ "/" ++ endpoint) headers (default [] params)) evs.
Proof.
  unfold make_request.
  destruct auth.
  - unfold bind at 1. unfold bind at 1.
    destruct (get_api_key_world e w) as (ext & Hw).
    destruct (get_api_key e w) as [[key| ex | code |] w1] eqn:Ekey; simpl in Hw; subst w1.
    + unfold bind at 1. unfold is_true at 1. cbn [heap fst snd ret].
      set (w1 := {| heap := heap w ++ ext; trace := trace w ++ [EvResolveKey] |}).
      destruct (truthy (heap w ++ ext) key).
      * destruct (attempts_events e (BASE_URL ++ "/" ++ endpoint) [user_agent; bearer key]
                    params (MAX_RETRIES + 1) 0%nat w1) as (evs & ext' & E & F).
        exists [EvResolveKey], [user_agent; bearer key], evs, (ext ++ ext').
        rewrite E. simpl. rewrite <- !app_assoc. eauto 10.
      * destruct (attempts_events e (BASE_URL ++ "/" ++ endpoint) [user_agent]
                    params (MAX_RETRIES + 1) 0%nat w1) as (evs & ext' & E & F).
        exists [EvResolveKey], [user_agent], evs, (ext ++ ext').
        rewrite E. simpl. rewrite <- !app_assoc. eauto 10.
    + exists [EvResolveKey], [user_agent], [], ext. simpl. eauto 10.
    + exists [EvResolveKey], [user_agent], [], ext. simpl. eauto 10.
    + exists [EvResolveKey], [user_agent], [], ext. simpl. eauto 10.
  - unfold bind at 1. cbn [ret].
    destruct (attempts_events e (BASE_URL ++ "/" ++ endpoint) [user_agent]
                params (MAX_RETRIES + 1) 0%nat w) as (evs & ext & E & F).
    exists [], [user_agent], evs, ext. rewrite E. simpl. eauto 10.
Qed.

(** * The renderers and the store *)

(** ** Computations that only read, and computations that only allocate *)

Lemma reads_allocates {A} (m : M A) : reads m -> allocates m.
Proof.
  intros H w. exists [], []. rewrite H. destruct w. simpl. now rewrite !app_nil_r.
Qed.

Lemma allocates_bind {A B} (m : M A) (k : A -> M B) :
  allocates m -> (forall a, allocates (k a)) -> allocates (bind m k).
Proof.
  intros Hm Hk w. unfold bind. destruct (Hm w) as (ext & evs & E).
  destruct (m w) as [[a | ex | code |] w1]; simpl in E; subst w1; eauto.
  destruct (Hk a {| heap := heap w ++ ext; trace := trace w ++ evs |})
    as (ext' & evs' & E').
  exists (ext ++ ext'), (evs ++ evs'). rewrite E'. simpl. now rewrite <- !app_assoc.
Qed.

Lemma reads_bind {A B} (m : M A) (k : A -> M B) :
  reads m -> (forall a, reads (k a)) -> reads (bind m k).
Proof.
  intros Hm Hk w. unfold bind. specialize (Hm w).
  destruct (m w) as [[a | ex | code |] w1]; simpl in Hm; subst w1;
    [apply Hk | reflexivity ..].
Qed.

Lemma reads_ret {A} (a : A) : reads (ret a).
Proof. intros w. reflexivity. Qed.

Lemma reads_raise {A} (ex : exn) : reads (@raise A ex).
Proof. intros w. reflexivity. Qed.

Lemma reads_unmodelled {A} : reads (@unmodelled A).
Proof. intros w. reflexivity. Qed.

Lemma reads_read_heap : reads read_heap.
Proof. intros w. reflexivity. Qed.

Lemma reads_is_true (v : val) : reads (is_true v).
Proof. intros w. reflexivity. Qed.

Lemma reads_fields_of (v : val) : reads (fields_of v).
Proof.
  intros w. unfold fields_of. destruct v as [| | | | l]; try reflexivity.
  destruct (heap w !! l) as [[|f]|]; reflexivity.
Qed.

Lemma reads_py_len (v : val) : reads (py_len v).
Proof.
  intros w. unfold py_len. destruct v as [| | | | l]; try reflexivity.
  destruct (heap w !! l) as [[|f]|]; reflexivity.
Qed.

Lemma reads_py_iter (v : val) : reads (py_iter v).
Proof.
  intros w. unfold py_iter. destruct v as [| | | | l]; try reflexivity.
  destruct (heap w !! l) as [[|f]|]; reflexivity.
Qed.

Lemma reads_is_list (v : val) : reads (is_list v).
Proof.
  intros w. unfold is_list. destruct v as [| | | | l]; try reflexivity.
  destruct (heap w !! l) as [[|f]|]; reflexivity.
Qed.

Lemma reads_map_m {A B} (f : A -> M B) (l : list A) :
  (forall x, reads (f x)) -> reads (map_m f l).
Proof.
  intros Hf. induction l as [| x l IH]; [apply reads_ret|].
  simpl. apply reads_bind; [apply Hf|]. intros y.
  apply reads_bind; [exact IH|]. intros ys. apply reads_ret.
Qed.

Lemma allocates_emit (ev : event) : allocates (emit ev).
Proof.
  intros w. exists [], [ev]. simpl. now rewrite app_nil_r.
Qed.

Lemma reads_add_row (cells : list text) : reads (add_row cells).
Proof. intros w. unfold add_row. now destruct (forallb cell_accepted cells). Qed.

Lemma reads_format_number (spec : string) (v : val) : reads (format_number spec v).
Proof.
  intros w. destruct v as [| b | n | s | l]; try reflexivity.
  unfold format_number. now destruct (as_float spec && (FLOAT_LIMIT <=? Z.abs n)).
Qed.

Lemma allocates_console_print (line : text) : allocates (console_print line).
Proof.
  unfold console_print. destruct (plain_line line); [apply allocates_emit|].
  apply reads_allocates. intros w. reflexivity.
Qed.

Lemma allocates_print_table (columns : list string) (rows : list (list text)) :
  allocates (print_table columns rows).
Proof.
  unfold print_table. destruct (forallb (forallb plain_line) rows);
    [apply allocates_emit|].
  apply reads_allocates. intros w. reflexivity.
Qed.

Lemma allocates_alloc (o : obj) : allocates (alloc o).
Proof.
  intros w. exists [o], []. simpl. now rewrite app_nil_r.
Qed.

Lemma allocates_sys_exit {A} (code : Z) : allocates (@sys_exit A code).
Proof. apply reads_allocates. intros w. reflexivity. Qed.

Lemma allocates_for_each {A} (body : A -> M unit) (l : list A) :
  (forall x, allocates (body x)) -> allocates (for_each body l).
Proof.
  intros Hb. induction l as [| x l IH]; [apply reads_allocates, reads_ret|].
  simpl. apply allocates_bind; [apply Hb | intros _; exact IH].
Qed.

Lemma allocates_map_m {A B} (f : A -> M B) (l : list A) :
  (forall x, allocates (f x)) -> allocates (map_m f l).
Proof.
  intros Hf. induction l as [| x l IH]; [apply reads_allocates, reads_ret|].
  simpl. apply allocates_bind; [apply Hf|]. intros y.
  apply allocates_bind; [exact IH|]. intros ys. apply reads_allocates, reads_ret.
Qed.

(** Splits a goal [reads m] or [allocates m] along the structure of [m]. *)
Ltac framing :=
  repeat first
    [ apply reads_ret | apply reads_raise | apply reads_unmodelled
    | apply reads_read_heap | apply reads_is_true | apply reads_fields_of
    | apply reads_py_len | apply reads_py_iter | apply reads_is_list
    | apply allocates_emit | apply allocates_alloc | apply allocates_sys_exit
    | apply reads_bind; [| intros ?]
    | apply allocates_bind; [| intros ?]
    | apply reads_map_m; intros ?
    | apply allocates_map_m; intros ?
    | apply allocates_for_each; intros ?
    | match goal with
      | |- reads (if ?b then _ else _) => destruct b
      | |- allocates (if ?b then _ else _) => destruct b
      | |- reads (match ?x with _ => _ end) => destruct x
      | |- allocates (match ?x with _ => _ end) => destruct x
      end
    | apply reads_allocates ].

Lemma reads_get_with (v : val) (key : string) (mk : M val) :
  reads mk -> reads (get_with v key mk).
Proof. intros H. unfold get_with. framing. exact H. Qed.

Lemma allocates_get_with (v : val) (key : string) (mk : M val) :
  allocates mk -> allocates (get_with v key mk).
Proof.
  intros H. unfold get_with.
  apply allocates_bind; [apply reads_allocates, reads_fields_of|]. intros f.
  apply allocates_bind; [exact H|]. intros d. apply reads_allocates, reads_ret.
Qed.

Lemma reads_get (v : val) (key : string) (d : val) : reads (get v key d).
Proof. apply reads_get_with, reads_ret. Qed.

Lemma reads_get_none (v : val) (key : string) : reads (get_none v key).
Proof. apply reads_get. Qed.

Lemma allocates_get_or_dict (v : val) (key : string) : allocates (get_or_dict v key).
Proof. apply allocates_get_with, allocates_alloc. Qed.

Lemma allocates_get_or_list (v : val) (key : string) : allocates (get_or_list v key).
Proof. apply allocates_get_with, allocates_alloc. Qed.

Lemma allocates_get_nested (v : val) (outer inner : string) (d : val) :
  allocates (get_nested v outer inner d).
Proof.
  unfold get_nested. apply allocates_bind; [apply allocates_get_or_dict|].
  intros a. apply reads_allocates, reads_get.
Qed.

Lemma reads_greater_than (v : val) (bound : Z) : reads (greater_than v bound).
Proof. unfold greater_than. framing. Qed.

Lemma reads_maybe_truncate_dyn (v : val) (m : Z) (nt : bool) :
  reads (maybe_truncate_dyn v m nt).
Proof. unfold maybe_truncate_dyn. framing. Qed.

Lemma reads_truncate_text_dyn (v : val) (m : Z) : reads (truncate_text_dyn v m).
Proof. unfold truncate_text_dyn. framing. Qed.

Lemma reads_or_empty_dyn (v : val) : reads (or_empty_dyn v).
Proof. unfold or_empty_dyn. framing. Qed.

Lemma reads_upper (v : val) : reads (upper v).
Proof. unfold upper. framing. Qed.

Lemma reads_subscriber_count (v : val) : reads (subscriber_count v).
Proof. apply reads_get. Qed.

Lemma reads_submolt_row (v : val) : reads (submolt_row v).
Proof.
  unfold submolt_row.
  repeat first [ apply reads_get | apply reads_subscriber_count
               | apply reads_truncate_text_dyn | apply reads_ret
               | apply reads_add_row
               | apply reads_bind; [| intros ?] ].
Qed.

Lemma reads_max_subscribers (items : list val) : reads (max_subscribers items).
Proof.
  unfold max_subscribers. apply reads_bind.
  - apply reads_map_m. intros x. apply reads_subscriber_count.
  - intros keys. framing.
Qed.

Lemma reads_vote_color (v : val) : reads (vote_color v).
Proof.
  unfold vote_color.
  repeat first [ apply reads_greater_than | apply reads_ret
               | apply reads_bind; [| intros ?]
               | match goal with |- reads (if ?b then _ else _) => destruct b end ].
Qed.

(** Steps on which goals about the commands are closed. *)
Ltac frame_step :=
  first
    [ apply allocates_get_nested | apply allocates_get_or_dict
    | apply allocates_get_or_list
    | apply reads_allocates;
      first [ apply reads_get | apply reads_get_none | apply reads_vote_color
            | apply reads_maybe_truncate_dyn | apply reads_truncate_text_dyn
            | apply reads_or_empty_dyn | apply reads_upper | apply reads_is_true
            | apply reads_py_len | apply reads_py_iter | apply reads_is_list
            | apply reads_max_subscribers | apply reads_ret | apply reads_raise
            | apply reads_unmodelled | apply reads_submolt_row
            | apply reads_add_row | apply reads_format_number ]
    | apply allocates_console_print | apply allocates_print_table
    | apply allocates_emit
    | apply allocates_bind; [| intros ?]
    | apply allocates_for_each; intros ?
    | apply allocates_map_m; intros ?
    | match goal with
      | |- allocates (if ?b then _ else _) => destruct b
      | |- allocates (match ?x with _ => _ end) => destruct x
      | |- allocates (when ?b _) => destruct b; unfold when
      end ].

Lemma allocates_search_row (nt : bool) (r : val) : allocates (search_row nt r).
Proof. unfold search_row. repeat frame_step. Qed.

Lemma allocates_browse_post (ids nt : bool) (post : val) :
  allocates (browse_post ids nt post).
Proof. unfold browse_post. repeat frame_step. Qed.

Lemma allocates_comment_panel (nt : bool) (c : val) : allocates (comment_panel nt c).
Proof. unfold comment_panel. repeat frame_step. Qed.

Lemma allocates_clipped_description (agent : val) : allocates (clipped_description agent).
Proof. unfold clipped_description. repeat frame_step. Qed.

Lemma allocates_render_search (query : string) (j nt : bool) (data : val) :
  allocates (render_search query j nt data).
Proof.
  unfold render_search. repeat first [apply allocates_search_row | frame_step].
Qed.

Lemma allocates_render_browse (sort : string) (limit offset : Z) (j ids nt : bool)
    (data : val) :
  allocates (render_browse sort limit offset j ids nt data).
Proof.
  unfold render_browse. repeat first [apply allocates_browse_post | frame_step].
Qed.

Lemma allocates_render_comments (post_id sort : string) (j nt : bool) (data : val) :
  allocates (render_comments post_id sort j nt data).
Proof.
  unfold render_comments. repeat first [apply allocates_comment_panel | frame_step].
Qed.

Lemma allocates_render_fetch (post_id : string) (j : bool) (data : val) :
  allocates (render_fetch post_id j data).
Proof. unfold render_fetch. repeat frame_step. Qed.

Lemma allocates_render_stats (data : val) : allocates (render_stats data).
Proof. unfold render_stats. repeat frame_step. Qed.

Lemma allocates_render_whoami (data : val) : allocates (render_whoami data).
Proof.
  unfold render_whoami. repeat first [apply allocates_clipped_description | frame_step].
Qed.

Lemma allocates_preserves {A} (m : M A) : allocates m -> preserves_store m.
Proof.
  intros H w r w' E l o Hl. destruct (H w) as (ext & evs & Hw).
  rewrite E in Hw. simpl in Hw. subst w'. simpl. now apply lookup_app_l_Some.
Qed.

(** ** The submolt listing sorts the list of the response itself *)

Lemma count_of_app (h ext : list obj) (v : val) (n : Z) :
  count_of (h ++ ext) v = Some n ->
  (forall l o, ext !! l = Some o -> exists items, o = OList items) ->
  count_of h v = Some n.
Proof.
  unfold count_of. destruct v as [| | | | l]; try discriminate.
  intros H Hext. destruct (h !! l) as [o|] eqn:E.
  - now rewrite (lookup_app_l_Some _ _ _ _ E) in H.
  - rewrite lookup_app_r in H by now apply lookup_ge_None.
    destruct (ext !! (l - length h)%nat) as [o|] eqn:E'; [|discriminate].
    destruct (Hext _ _ E') as [items ->]. discriminate.
Qed.

(** The keys that the sort computes are the counts of the items. *)
Lemma keys_are_counts (items : list val) :
  forall w w' keys ns,
    map_m subscriber_count items w = (Ok keys, w') ->
    numeric_keys keys = Some ns ->
    mapM (count_of (heap w)) items = Some ns.
Proof.
  induction items as [| x items IH]; intros w w' keys ns E N.
  - simpl in E. injection E as <- <-. simpl in N. injection N as <-. reflexivity.
  - simpl in E. unfold bind at 1 in E.
    pose proof (reads_subscriber_count x w) as Hx.
    destruct (subscriber_count x w) as [[k| | |] w1] eqn:Ex; try discriminate.
    simpl in Hx. subst w1. unfold bind at 1 in E.
    destruct (map_m subscriber_count items w) as [[ks| | |] w2] eqn:Er; try discriminate.
    injection E as <- <-.
    unfold numeric_keys in N. rewrite mapM_Some in N.
    apply Forall2_cons_inv_l in N as (n & ns' & Hn & Hns & ->).
    apply mapM_Some in Hns.
    assert (Hc : count_of (heap w) x = Some n).
    { unfold subscriber_count, get, get_with, bind at 1, fields_of in Ex.
      unfold count_of. destruct x as [| | | | l]; try discriminate.
      destruct (heap w !! l) as [[|f]|]; try discriminate.
      unfold bind, ret in Ex. injection Ex as <-. exact Hn. }
    cbn [mapM]. rewrite Hc. simpl. rewrite (IH w w2 ks ns' Er Hns). reflexivity.
Qed.

(** What [data.get(key, [])] does to the world. *)
Lemma get_or_list_inv (data : val) (key : string) (w : world) (r : res val) (w1 : world) :
  get_or_list data key w = (r, w1) ->
  (w1 = w /\ forall v, r <> Ok v)
  \/ exists ld f,
       data = VRef ld /\ heap w !! ld = Some (ODict f)
       /\ w1 = {| heap := heap w ++ [OList []]; trace := trace w |}
       /\ r = Ok (default (VRef (length (heap w))) (f !! key)).
Proof.
  unfold get_or_list, get_with, bind at 1, fields_of. intros E.
  destruct data as [| | | | ld]; try (injection E as <- <-; left; split; [reflexivity | discriminate]).
  destruct (heap w !! ld) as [[items|f]|] eqn:El;
    try (injection E as <- <-; left; split; [reflexivity | discriminate]).
  unfold bind, alloc, ret in E. injection E as <- <-. right. eauto 10.
Qed.

Lemma similar_refl (h : list obj) : similar h h.
Proof. intros l [a|g] H; eauto. Qed.

Lemma similar_app (h ext : list obj) : similar h (h ++ ext).
Proof.
  intros l [a|g] H.
  - exists a. split; [now apply lookup_app_l_Some | reflexivity].
  - now apply lookup_app_l_Some.
Qed.

Lemma similar_trans (a b c : list obj) : similar a b -> similar b c -> similar a c.
Proof.
  intros Hab Hbc l o H. specialize (Hab l o H). destruct o as [x|g].
  - destruct Hab as (y & Hy & Hxy). destruct (Hbc l _ Hy) as (z & Hz & Hyz).
    exists z. split; [exact Hz | tauto].
  - exact (Hbc l _ Hab).
Qed.

(** Replacing a list by a list with the same items keeps the store similar. *)
Lemma similar_insert (h : list obj) (l : loc) (a b : list val) :
  h !! l = Some (OList a) -> Permutation b a -> similar h (<[l := OList b]> h).
Proof.
  intros Hl Hp l' o H. destruct (decide (l = l')) as [<- | Hne].
  - rewrite Hl in H. injection H as <-. exists b.
    split; [apply list_lookup_insert_eq; now apply lookup_lt_Some in Hl|].
    split; intros ->.
    + now apply Permutation_nil_r in Hp.
    + symmetry in Hp. now apply Permutation_nil_r in Hp.
  - rewrite <- (list_lookup_insert_ne h l l' (OList b) Hne) in H.
    destruct o as [x|g]; [exists x; split; [exact H | reflexivity] | exact H].
Qed.

Lemma truthy_similar (h h2 : list obj) (v : val) :
  similar h h2 -> truthy h v = false -> truthy h2 v = false.
Proof.
  intros Hs. destruct v as [| | | | l]; simpl; auto.
  destruct (h !! l) as [[a|g]|] eqn:E; [| |discriminate].
  - destruct (Hs l _ E) as (b & -> & Hab). destruct a; [|discriminate].
    intros _. now rewrite (proj1 Hab eq_refl).
  - now rewrite (Hs l _ E).
Qed.

Lemma listable_similar (h h2 : list obj) (v : val) :
  similar h h2 -> listable h v -> listable h2 v.
Proof.
  intros Hs. unfold listable. destruct v as [| | | | l]; auto.
  destruct (h !! l) as [[a|g]|] eqn:E; try tauto.
  rewrite (Hs l _ E). intros (Hc & Hd & Hp & Hn). repeat split; try assumption.
  unfold text_or_falsy in *.
  destruct (default (VStr EmptyString) (g !! "description"%string));
    try exact Hd; eapply truthy_similar; eassumption.
Qed.

Lemma row_of_similar (h h2 : list obj) (v : val) :
  similar h h2 -> listable h v -> row_of h2 v = row_of h v.
Proof.
  intros Hs. unfold listable, row_of. destruct v as [| | | | l]; try tauto.
  destruct (h !! l) as [[a|g]|] eqn:E; try tauto.
  now rewrite (Hs l _ E).
Qed.

Lemma count_of_similar (h h2 : list obj) (v : val) (n : Z) :
  similar h h2 -> count_of h v = Some n -> count_of h2 v = Some n.
Proof.
  intros Hs. unfold count_of. destruct v as [| | | | l]; try discriminate.
  destruct (h !! l) as [[a|g]|] eqn:E; try discriminate.
  now rewrite (Hs l _ E).
Qed.

(** Reading a field of a dict of the store. *)
Lemma get_dict (w : world) (l : loc) (f : gmap string val) (key : string) (d : val) :
  heap w !! l = Some (ODict f) ->
  get (VRef l) key d w = (Ok (default d (f !! key)), w).
Proof.
  intros H. unfold get, get_with, bind at 1, fields_of. now rewrite H.
Qed.

(** The sort keys of items whose counts are integers. *)
Lemma keys_of_counted (w : world) (items : list val) :
  forall ns, mapM (count_of (heap w)) items = Some ns ->
  exists keys,
    map_m subscriber_count items w = (Ok keys, w) /\ numeric_keys keys = Some ns.
Proof.
  induction items as [| v items IH]; intros ns Hns.
  - simpl in Hns. injection Hns as <-. exists []. split; reflexivity.
  - apply mapM_Some in Hns. apply Forall2_cons_inv_l in Hns as (n & ns' & Hn & Hns & ->).
    apply mapM_Some in Hns. destruct (IH ns' Hns) as (keys & Hk & Hnum).
    assert (Hone : exists k, subscriber_count v w = (Ok k, w) /\ as_number k = Some n).
    { unfold count_of in Hn. destruct v as [| | | | l]; try discriminate.
      destruct (heap w !! l) as [[a|g]|] eqn:E; try discriminate.
      eexists. split; [apply get_dict; exact E | exact Hn]. }
    destruct Hone as (k & Hs & Ha).
    exists (k :: keys). split.
    + cbn [map_m]. rewrite (bind_ok _ _ _ _ _ Hs), (bind_ok _ _ _ _ _ Hk). reflexivity.
    + unfold numeric_keys in *. cbn [mapM]. rewrite Ha. simpl. rewrite Hnum. reflexivity.
Qed.

(** The sort of a list of items with integer counts succeeds and stores the
    items in the stable non-increasing order of their counts. *)
Lemma list_sort_counted (w : world) (l : loc) (items : list val) (ns : list Z) :
  heap w !! l = Some (OList items) ->
  mapM (count_of (heap w)) items = Some ns ->
  list_sort (VRef l) w
  = (Ok tt, {| heap := <[l := OList (sort_desc snd (zip items ns)).*1]> (heap w);
               trace := trace w |}).
Proof.
  intros Hl Hns.
  destruct (keys_of_counted w items ns Hns) as (keys & Hk & Hn).
  unfold list_sort. unfold bind at 1, read_heap at 1. cbn [fst snd]. rewrite Hl.
  rewrite (bind_ok _ _ _ _ _ Hk), Hn. reflexivity.
Qed.

(** The store after the formatted submolt listing: either every object is as
    it was, or the list under [submolts] now holds its items in the stable
    non-increasing order of their subscriber counts, and every other object
    is as it was. *)
Lemma render_submolts_store (limit : Z) (data : val) (w : world) (r : res unit)
    (w' : world) :
  render_submolts limit false data w = (r, w') ->
  (forall l o, heap w !! l = Some o -> heap w' !! l = Some o)
  \/ exists ld f l items ns,
       data = VRef ld /\ heap w !! ld = Some (ODict f)
       /\ f !! "submolts"%string = Some (VRef l)
       /\ heap w !! l = Some (OList items)
       /\ mapM (count_of (heap w)) items = Some ns
       /\ heap w' !! l = Some (OList (sort_desc snd (zip items ns)).*1)
       /\ forall l' o, l' <> l -> heap w !! l' = Some o -> heap w' !! l' = Some o.
Proof.
  unfold render_submolts.
  (* the rest of the body after the sort only allocates *)
  set (rest := fun submolts_list : val =>
    console_print [Lit nl; Lit "[bold cyan]Submolts (Communities)[/bold cyan]"] ;;;
    n <- py_len submolts_list ;;
    console_print [Lit "[dim]Total: "; str (VInt n); Lit " communities"; Lit nl; Lit "[/dim]"] ;;;
    items <- py_iter submolts_list ;;
    rows <- map_m submolt_row (slice_list limit items) ;;
    print_table ["Name"; "Subscribers"; "Description"]%string rows ;;;
    console_print []).
  assert (Hrest : forall v, allocates (rest v)).
  { intros v. unfold rest. repeat frame_step. }
  assert (Hgrow : forall w0 w1 : world,
            (exists ext evs, w1 = {| heap := heap w0 ++ ext; trace := trace w0 ++ evs |}) ->
            forall l o, heap w0 !! l = Some o -> heap w1 !! l = Some o).
  { intros w0 w1 (ext & evs & ->) l o Hl. simpl. now apply lookup_app_l_Some. }
  intros E. unfold bind at 1 in E.
  destruct (get_or_list data "submolts" w) as [r1 w1] eqn:E1.
  apply get_or_list_inv in E1 as [[-> Hfail] | (ld & f & -> & Hld & -> & ->)].
  { left. destruct r1 as [v| | |]; [now destruct (Hfail v) | | |];
      injection E as <- <-; auto. }
  set (v := default (VRef (length (heap w))) (f !! "submolts"%string)) in *.
  set (w1 := {| heap := heap w ++ [OList []]; trace := trace w |}) in *.
  assert (H01 : forall l o, heap w !! l = Some o -> heap w1 !! l = Some o).
  { intros l o Hl. simpl. now apply lookup_app_l_Some. }
  unfold bind at 1 in E. unfold is_true at 1 in E. cbn [fst snd] in E.
  destruct (truthy (heap w1) v) eqn:Ht; cbn [negb] in E.
  2:{ left. rewrite console_print_eval in E by reflexivity.
      injection E as <- <-. exact H01. }
  unfold bind at 1 in E.
  destruct (list_sort v w1) as [r2 w2] eqn:E2.
  assert (Hafter : forall w2, r2 = Ok tt ->
            (r, w') = rest v w2 ->
            exists ext evs, w' = {| heap := heap w2 ++ ext; trace := trace w2 ++ evs |}).
  { intros w3 _ Hr. destruct (Hrest v w3) as (ext & evs & Hw). rewrite <- Hr in Hw.
    eauto. }
  unfold list_sort in E2.
  destruct v as [| | | | l] eqn:Ev; try (injection E2 as <- <-; injection E as <- <-; left; exact H01).
  unfold bind at 1 in E2. unfold read_heap at 1 in E2.
  destruct (heap w1 !! l) as [[items|g]|] eqn:El;
    try (injection E2 as <- <-; injection E as <- <-; left; exact H01).
  unfold bind at 1 in E2.
  pose proof (reads_map_m subscriber_count items reads_subscriber_count w1) as Hkeys.
  destruct (map_m subscriber_count items w1) as [[keys| | |] wk] eqn:Ek;
    simpl in Hkeys; subst wk;
    try (injection E2 as <- <-; injection E as <- <-; left; exact H01).
  destruct (numeric_keys keys) as [ns|] eqn:En.
  2:{ left. destruct (length items <=? 1)%nat.
      - injection E2 as <- <-. fold (rest (VRef l)) in E.
        intros l0 o Hl. eapply Hgrow; [eapply Hafter; eauto | now apply H01].
      - injection E2 as <- <-. injection E as <- <-. exact H01. }
  unfold store in E2. injection E2 as <- <-. fold (rest (VRef l)) in E.
  destruct (Hafter _ eq_refl (eq_sym E)) as (ext & evs & ->). cbn [heap] in *.
  (* the list is one of the response, not the default *)
  assert (Hitems : items <> []).
  { intros ->. unfold truthy in Ht. cbn [heap] in Ht. rewrite El in Ht. discriminate. }
  assert (El' : (heap w ++ [OList []]) !! l = Some (OList items)) by exact El.
  assert (Hl : heap w !! l = Some (OList items)).
  { clear El. rename El' into El. destruct (heap w !! l) as [o|] eqn:Hw.
    - rewrite (lookup_app_l_Some _ _ _ _ Hw) in El. exact El.
    - rewrite lookup_app_r in El by now apply lookup_ge_None.
      destruct (l - length (heap w))%nat as [|k]; simpl in El; [|discriminate].
      injection El as <-. congruence. }
  assert (Hf : f !! "submolts"%string = Some (VRef l)).
  { unfold v in Ev. destruct (f !! "submolts"%string) as [x|]; simpl in Ev;
      [now rewrite Ev|].
    injection Ev as <-. apply lookup_lt_Some in Hl. lia. }
  assert (Hlt : (l < length (heap w))%nat) by now apply lookup_lt_Some in Hl.
  right. exists ld, f, l, items, ns. repeat split; auto.
  - eapply mapM_Some, Forall2_impl.
    + eapply mapM_Some, keys_are_counts; eassumption.
    + intros x n Hc. cbn [heap] in Hc. eapply count_of_app; [exact Hc|].
      intros [|k] o Ho; simpl in Ho; [injection Ho as <-; eauto | discriminate].
  - rewrite insert_app_l by exact Hlt. rewrite <- app_assoc.
    rewrite lookup_app_l by now rewrite length_insert.
    now apply list_lookup_insert_eq.
  - intros l' o Hne Hl'. rewrite insert_app_l by exact Hlt. rewrite <- app_assoc.
    apply lookup_app_l_Some. rewrite list_lookup_insert_ne by auto. exact Hl'.
Qed.

(** When the response lists at least one submolt and the subscriber counts
    are integers or missing, the formatted listing does sort: whatever comes
    of the rows afterwards, the list object of the response ends up in the
    stable non-increasing order, and nothing else is touched. *)
Lemma render_submolts_sorts (limit : Z) (w : world) (ld l : loc) (f : gmap string val)
    (items : list val) (ns : list Z) :
  heap w !! ld = Some (ODict f) ->
  f !! "submolts"%string = Some (VRef l) ->
  heap w !! l = Some (OList items) ->
  items <> [] ->
  mapM (count_of (heap w)) items = Some ns ->
  heap (render_submolts limit false (VRef ld) w).2 !! l
  = Some (OList (sort_desc snd (zip items ns)).*1)
  /\ forall l' o, l' <> l -> heap w !! l' = Some o ->
       heap (render_submolts limit false (VRef ld) w).2 !! l' = Some o.
Proof.
  intros Hld Hf Hl Hne Hns.
  set (w1 := {| heap := heap w ++ [OList []]; trace := trace w |}).
  assert (Hget : get_or_list (VRef ld) "submolts" w = (Ok (VRef l), w1)).
  { unfold get_or_list, get_with, bind at 1, fields_of. rewrite Hld.
    unfold bind, alloc, ret. cbn [fst snd]. now rewrite Hf. }
  assert (Hl1 : heap w1 !! l = Some (OList items)) by now apply lookup_app_l_Some.
  assert (Htrue : is_true (VRef l) w1 = (Ok true, w1)).
  { unfold is_true, truthy. rewrite Hl1. now destruct items. }
  assert (Hns1 : mapM (count_of (heap w1)) items = Some ns).
  { apply mapM_Some. apply mapM_Some in Hns. eapply Forall2_impl; [exact Hns|].
    intros v n. apply count_of_similar, similar_app. }
  pose proof (list_sort_counted w1 l items ns Hl1 Hns1) as Hsort.
  set (w2 := {| heap := <[l := OList (sort_desc snd (zip items ns)).*1]> (heap w1);
                trace := trace w1 |}) in Hsort.
  set (rest :=
    console_print [Lit nl; Lit "[bold cyan]Submolts (Communities)[/bold cyan]"] ;;;
    n <- py_len (VRef l) ;;
    console_print [Lit "[dim]Total: "; str (VInt n); Lit " communities"; Lit nl; Lit "[/dim]"] ;;;
    items0 <- py_iter (VRef l) ;;
    rows <- map_m submolt_row (slice_list limit items0) ;;
    print_table ["Name"; "Subscribers"; "Description"]%string rows ;;;
    console_print []).
  assert (Hrest : allocates rest) by (unfold rest; repeat frame_step).
  assert (Hrun : render_submolts limit false (VRef ld) w = rest w2).
  { unfold render_submolts. rewrite (bind_ok _ _ _ _ _ Hget), (bind_ok _ _ _ _ _ Htrue).
    cbn [negb]. now rewrite (bind_ok _ _ _ _ _ Hsort). }
  rewrite Hrun. destruct (Hrest w2) as (ext & evs & ->). cbn [heap w2 w1].
  assert (Hlt : (l < length (heap w))%nat) by now apply lookup_lt_Some in Hl.
  split.
  - rewrite insert_app_l by exact Hlt. rewrite <- app_assoc.
    rewrite lookup_app_l by now rewrite length_insert.
    now apply list_lookup_insert_eq.
  - intros l' o Hne' Hl'. rewrite insert_app_l by exact Hlt. rewrite <- app_assoc.
    apply lookup_app_l_Some. rewrite list_lookup_insert_ne by auto. exact Hl'.
Qed.

(** ** The stable sort into non-increasing order *)

Section SortFacts.
Context {A : Type} (key : A -> Z).

(** [a] may stand in front of [b]. *)
Let before (a b : A) : Prop := key b <= key a.

Lemma insert_desc_perm (x : A) (l : list A) : Permutation (insert_desc key x l) (x :: l).
Proof.
  induction l as [| y r IH]; simpl; [reflexivity|].
  destruct (key y <=? key x); [reflexivity|].
  rewrite IH. apply perm_swap.
Qed.

Lemma sort_desc_perm (l : list A) : Permutation (sort_desc key l) l.
Proof.
  induction l as [| x r IH]; simpl; [reflexivity|].
  rewrite insert_desc_perm. now constructor.
Qed.

Lemma insert_desc_sorted (x : A) (l : list A) :
  StronglySorted before l -> StronglySorted before (insert_desc key x l).
Proof.
  induction 1 as [| y r Hr IH Hy]; simpl.
  - repeat constructor.
  - destruct (Z.leb_spec (key y) (key x)) as [Hle | Hgt].
    + constructor; [now constructor|]. constructor; [exact Hle|].
      eapply Forall_impl; [exact Hy|]. unfold before. intros z Hz. lia.
    + constructor; [exact IH|].
      rewrite insert_desc_perm. constructor; [unfold before; lia | exact Hy].
Qed.

Lemma sort_desc_sorted (l : list A) : StronglySorted before (sort_desc key l).
Proof.
  induction l as [| x r IH]; simpl; [constructor | now apply insert_desc_sorted].
Qed.

(** Insertion moves [x] past elements of strictly greater key only, so the
    elements of any one key keep their order. *)
Lemma insert_desc_stable (c : Z) (x : A) (l : list A) :
  List.filter (fun a => key a =? c) (insert_desc key x l)
  = List.filter (fun a => key a =? c) (x :: l).
Proof.
  induction l as [| y r IH]; [reflexivity|].
  simpl insert_desc. destruct (Z.leb_spec (key y) (key x)) as [Hle | Hgt]; [reflexivity|].
  simpl. simpl in IH. rewrite IH.
  destruct (Z.eqb_spec (key x) c), (Z.eqb_spec (key y) c); try reflexivity. lia.
Qed.

Lemma sort_desc_stable (c : Z) (l : list A) :
  List.filter (fun a => key a =? c) (sort_desc key l)
  = List.filter (fun a => key a =? c) l.
Proof.
  induction l as [| x r IH]; [reflexivity|].
  simpl sort_desc. rewrite insert_desc_stable. simpl. now rewrite IH.
Qed.
End SortFacts.

(** The items of the sorted list are the items of the list. *)
Lemma sorted_items_perm (items : list val) (ns : list Z) :
  length items = length ns ->
  Permutation (sort_desc snd (zip items ns)).*1 items.
Proof.
  intros Hlen. rewrite (sort_desc_perm snd (zip items ns)).
  rewrite fst_zip by lia. reflexivity.
Qed.

(** C2, as stated, fails.  The executor returns the loaded body
    [two_submolts], whose list of submolts sits at location 2 with the
    smaller submolt first; after the formatted listing the same list object
    holds the larger one first. *)
Lemma submolt_listing_reorders_envelope :
  let e := anonymous (fun _ => ok_reply two_submolts) in
  (make_request e "submolts" None false empty_world).1 = Ok (VRef 3%nat)
  /\ heap (make_request e "submolts" None false empty_world).2 !! 2%nat
     = Some (OList [VRef 0%nat; VRef 1%nat])
  /\ heap (submolts e 50 false empty_world).2 !! 2%nat
     = Some (OList [VRef 1%nat; VRef 0%nat])
  /\ ~ (forall limit json_out data, preserves_store (render_submolts limit json_out data)).
Proof.
  split; [vm_compute; reflexivity|]. split; [vm_compute; reflexivity|].
  split; [vm_compute; reflexivity|].
  intros H.
  pose (w1 := (make_request (anonymous (fun _ => ok_reply two_submolts))
                 "submolts" None false empty_world).2).
  pose (out := render_submolts 50 false (VRef 3%nat) w1).
  specialize (H 50 false (VRef 3%nat) w1 out.1 out.2 (surjective_pairing _) 2%nat
                (OList [VRef 0%nat; VRef 1%nat])).
  vm_compute in H. specialize (H eq_refl). discriminate.
Qed.

(** C2, amended.  Every rendering path except the formatted submolt listing
    leaves every object of the response as the executor returned it (new
    objects may be allocated for defaults), and so does the raw mode of the
    submolt listing.  The formatted submolt listing sorts the list of the
    response in place: whenever the response lists at least one submolt and
    the subscriber counts are integers or missing, the list under [submolts]
    of the response itself holds, afterwards, its items in the stable
    non-increasing order of the counts, whatever comes of the rows; every
    other object is as it was.  And however the listing ends, where the model
    follows it, either no object has changed or that list, and that list
    alone, has been reordered in this way, keeping its items. *)
Theorem renderers_and_the_store :
  (forall query json_out no_truncate data,
      preserves_store (render_search query json_out no_truncate data))
  /\ (forall sort limit offset json_out show_ids no_truncate data,
         preserves_store (render_browse sort limit offset json_out show_ids no_truncate data))
  /\ (forall post_id sort json_out no_truncate data,
         preserves_store (render_comments post_id sort json_out no_truncate data))
  /\ (forall post_id json_out data, preserves_store (render_fetch post_id json_out data))
  /\ (forall data, preserves_store (render_whoami data))
  /\ (forall data, preserves_store (render_stats data))
  /\ (forall limit data, preserves_store (render_submolts limit true data))
  /\ (forall limit data w r w',
         render_submolts limit false data w = (r, w') ->
         r <> Unmodelled ->
         (forall l o, heap w !! l = Some o -> heap w' !! l = Some o)
         \/ exists ld f l items ns,
              data = VRef ld /\ heap w !! ld = Some (ODict f)
              /\ f !! "submolts"%string = Some (VRef l)
              /\ heap w !! l = Some (OList items)
              /\ mapM (count_of (heap w)) items = Some ns
              /\ heap w' !! l = Some (OList (sort_desc snd (zip items ns)).*1)
              /\ Permutation (sort_desc snd (zip items ns)).*1 items
              /\ forall l' o, l' <> l -> heap w !! l' = Some o -> heap w' !! l' = Some o)
  /\ (forall limit w ld l f items ns,
         heap w !! ld = Some (ODict f) ->
         f !! "submolts"%string = Some (VRef l) ->
         heap w !! l = Some (OList items) ->
         items <> [] ->
         mapM (count_of (heap w)) items = Some ns ->
         let w' := (render_submolts limit false (VRef ld) w).2 in
         heap w' !! l = Some (OList (sort_desc snd (zip items ns)).*1)
         /\ StronglySorted (fun a b => b.2 <= a.2) (sort_desc snd (zip items ns))
         /\ Permutation (sort_desc snd (zip items ns)).*1 items
         /\ forall l' o, l' <> l -> heap w !! l' = Some o -> heap w' !! l' = Some o).
Proof.
  split; [|split; [|split; [|split; [|split; [|split; [|split; [|split]]]]]]].
  - intros. apply allocates_preserves, allocates_render_search.
  - intros. apply allocates_preserves, allocates_render_browse.
  - intros. apply allocates_preserves, allocates_render_comments.
  - intros. apply allocates_preserves, allocates_render_fetch.
  - intros. apply allocates_preserves, allocates_render_whoami.
  - intros. apply allocates_preserves, allocates_render_stats.
  - intros. apply allocates_preserves. unfold render_submolts. apply allocates_emit.
  - intros limit data w r w' E _.
    destruct (render_submolts_store limit data w r w' E)
      as [H | (ld & f & l & items & ns & H1 & H2 & H3 & H4 & H5 & H6 & H7)];
      [left; exact H|].
    right. exists ld, f, l, items, ns. repeat split; auto.
    apply sorted_items_perm. eapply length_mapM; eassumption.
  - intros limit w ld l f items ns Hld Hf Hl Hne Hns w'.
    destruct (render_submolts_sorts limit w ld l f items ns Hld Hf Hl Hne Hns)
      as [Hsorted Hrest].
    split; [exact Hsorted|]. split; [apply (sort_desc_sorted snd)|].
    split; [|exact Hrest].
    apply sorted_items_perm. eapply length_mapM; eassumption.
Qed.

Lemma renderers_and_the_store_witness :
  let w1 := (make_request (anonymous (fun _ => ok_reply two_submolts))
               "submolts" None false empty_world).2 in
  let w2 := (render_submolts 50 false (VRef 3%nat) w1).2 in
  heap w1 !! 2%nat = Some (OList [VRef 0%nat; VRef 1%nat])
  /\ heap w2 !! 2%nat = Some (OList [VRef 1%nat; VRef 0%nat])
  /\ heap w2 !! 0%nat = heap w1 !! 0%nat /\ heap w2 !! 3%nat = heap w1 !! 3%nat.
Proof.
  intros w1 w2.
  destruct renderers_and_the_store as (_ & _ & _ & _ & _ & _ & _ & _ & H).
  assert (Hld : heap w1 !! 3%nat
                = Some (ODict (<["submolts"%string := VRef 2%nat]> (∅ : gmap string val))))
    by (vm_compute; reflexivity).
  assert (Hf : (<["submolts"%string := VRef 2%nat]> (∅ : gmap string val))
                 !! "submolts"%string = Some (VRef 2%nat))
    by (vm_compute; reflexivity).
  assert (Hl : heap w1 !! 2%nat = Some (OList [VRef 0%nat; VRef 1%nat]))
    by (vm_compute; reflexivity).
  assert (Hns : mapM (count_of (heap w1)) [VRef 0%nat; VRef 1%nat] = Some [1; 2])
    by (vm_compute; reflexivity).
  destruct (H 50 w1 3%nat 2%nat _ _ _ Hld Hf Hl ltac:(discriminate) Hns)
    as (Hsorted & _ & _ & Hrest).
  split; [exact Hl|]. split; [exact Hsorted|]. split.
  - destruct (heap w1 !! 0%nat) as [o|] eqn:E0; [|vm_compute in E0; discriminate].
    exact (Hrest 0%nat _ ltac:(discriminate) E0).
  - destruct (heap w1 !! 3%nat) as [o|] eqn:E3; [|vm_compute in E3; discriminate].
    exact (Hrest 3%nat _ ltac:(discriminate) E3).
Defined.

(** ** A response without a post *)

(** C10.  In formatted mode, when the response is an object whose [post]
    field is missing or holds any falsy value, [fetch] prints the
    post-not-found notice and nothing else, no panel in particular, and
    returns normally, so that the process ends with status 0.  Null, the
    empty string and an empty object are such values. *)
Theorem fetch_without_post (e : env) (post_id : string) (w w1 : world)
    (ld : loc) (f : gmap string val) :
  make_request e ("posts/" ++ post_id) None false w = (Ok (VRef ld), w1) ->
  heap w1 !! ld = Some (ODict f) ->
  truthy (heap w1) (default VNone (f !! "post"%string)) = false ->
  fetch e post_id false w = (Ok tt, log w1 [EvPrint post_not_found])
  /\ List.filter is_panel [EvPrint post_not_found] = []
  /\ truthy (heap w1) VNone = false
  /\ truthy (heap w1) (VStr EmptyString) = false
  /\ (forall l, heap w1 !! l = Some (ODict ∅) -> truthy (heap w1) (VRef l) = false).
Proof.
  intros Hreq Hld Hfalsy. split; [|repeat split].
  - unfold fetch. rewrite (bind_ok _ _ _ _ _ Hreq). unfold render_fetch.
    assert (Hget : get_none (VRef ld) "post" w1
                   = (Ok (default VNone (f !! "post"%string)), w1)).
    { unfold get_none, get, get_with, bind at 1, fields_of. rewrite Hld. reflexivity. }
    rewrite (bind_ok _ _ _ _ _ Hget).
    unfold bind at 1, is_true at 1. cbn [fst snd]. rewrite Hfalsy. reflexivity.
  - intros l Hl. unfold truthy. rewrite Hl. reflexivity.
Qed.

Lemma fetch_without_post_witness :
  let e := anonymous (fun _ => ok_reply (JObj [("post"%string, JObj [])])) in
  (fetch e "abc" false empty_world).1 = Ok tt
  /\ trace (fetch e "abc" false empty_world).2
     = [EvGet "https://www.moltbook.com/api/v1/posts/abc" [user_agent] [];
        EvPrint post_not_found].
Proof.
  intros e.
  pose (out := make_request e ("posts/" ++ "abc") None false empty_world).
  assert (Hreq : make_request e ("posts/" ++ "abc") None false empty_world
                 = (Ok (VRef 1%nat), out.2)) by (vm_compute; reflexivity).
  assert (Hld : heap out.2 !! 1%nat
                = Some (ODict (<["post"%string := VRef 0%nat]> (∅ : gmap string val))))
    by (vm_compute; reflexivity).
  assert (Hfalsy : truthy (heap out.2)
                     (default VNone
                        ((<["post"%string := VRef 0%nat]> (∅ : gmap string val))
                           !! "post"%string)) = false)
    by (vm_compute; reflexivity).
  destruct (fetch_without_post e "abc" empty_world out.2 1%nat _ Hreq Hld Hfalsy)
    as [H _].
  rewrite H. split; [reflexivity | vm_compute; reflexivity].
Defined.

(** ** The rows of the submolt listing *)

Lemma listable_count (h : list obj) (v : val) :
  listable h v -> exists n, count_of h v = Some n.
Proof.
  unfold listable, count_of. destruct v as [| | | | l]; try tauto.
  destruct (h !! l) as [[a|g]|]; try tauto.
  all: intros [[n Hn] _]; eauto.
Qed.

Lemma as_number_plain (v : val) : is_Some (as_number v) -> plain_value v = true.
Proof. destruct v; try reflexivity; intros [n Hn]; discriminate. Qed.

(** The row of a listable submolt is one that the table takes and shows as
    it is. *)
Lemma row_of_listable (h : list obj) (v : val) :
  listable h v ->
  forallb cell_accepted (row_of h v) = true /\ forallb plain_line (row_of h v) = true.
Proof.
  unfold listable, row_of. destruct v as [| | | | l]; try tauto.
  destruct (h !! l) as [[a|g]|]; try tauto. intros (Hc & _ & Hp & Hn).
  unfold plain_cell in Hn. apply andb_prop in Hn as [Hr Hv].
  cbn [forallb cell_accepted plain_line plain_seg str]. rewrite Hr, Hv.
  rewrite (as_number_plain _ Hc).
  destruct (default (VStr EmptyString) (g !! "description"%string)) as [| | | s |];
    cbn [renderable plain_value plain_text] in *; try (split; reflexivity).
  rewrite markup_free_truncate_text by exact Hp. split; reflexivity.
Qed.


(** On listable items the sort keys are computed without failure and are
    the counts. *)
Lemma keys_of_listable (w : world) (items : list val) :
  Forall (listable (heap w)) items ->
  exists keys ns,
    map_m subscriber_count items w = (Ok keys, w)
    /\ numeric_keys keys = Some ns
    /\ mapM (count_of (heap w)) items = Some ns.
Proof.
  induction 1 as [| v items Hv _ (keys & ns & Hk & Hn & Hc)].
  - exists [], []. repeat split.
  - assert (Hone : exists k n, subscriber_count v w = (Ok k, w)
                               /\ as_number k = Some n
                               /\ count_of (heap w) v = Some n).
    { unfold listable in Hv. unfold count_of. destruct v as [| | | | l]; try tauto.
      destruct (heap w !! l) as [[a|g]|] eqn:E; try tauto.
      destruct Hv as [[n Hn'] _]. eexists _, n.
      split; [apply get_dict; exact E|]. auto. }
    destruct Hone as (k & n & Hs & Ha & Hcv).
    exists (k :: keys), (n :: ns). split; [|split].
    + cbn [map_m]. rewrite (bind_ok _ _ _ _ _ Hs), (bind_ok _ _ _ _ _ Hk). reflexivity.
    + unfold numeric_keys in *. cbn [mapM]. rewrite Ha. simpl. rewrite Hn. reflexivity.
    + cbn [mapM]. rewrite Hcv. simpl. rewrite Hc. reflexivity.
Qed.

Lemma truncate_text_dyn_ok (w : world) (d : val) (m : Z) :
  text_or_falsy (heap w) d ->
  truncate_text_dyn d m w
  = (Ok (match d with VStr s => VStr (truncate_text s m) | _ => VStr EmptyString end), w).
Proof.
  unfold text_or_falsy. intros H. unfold truncate_text_dyn.
  destruct d as [| b | n | s | l]; try reflexivity;
    unfold bind, is_true; cbn [fst snd]; rewrite H; reflexivity.
Qed.

(** On a listable submolt the row is computed without failure. *)
Lemma submolt_row_listable (w : world) (v : val) :
  listable (heap w) v -> submolt_row v w = (Ok (row_of (heap w) v), w).
Proof.
  unfold listable, row_of, submolt_row. destruct v as [| | | | l]; try tauto.
  pose proof (row_of_listable (heap w) (VRef l)) as Hrow. unfold listable, row_of in Hrow.
  destruct (heap w !! l) as [[a|g]|] eqn:E; try tauto. intros Hv.
  destruct (Hrow Hv) as [Hacc _]. destruct Hv as (_ & Hd & _).
  rewrite (bind_ok _ _ _ _ _ (get_dict w l g "name" _ E)).
  rewrite (bind_ok _ _ _ _ _ (get_dict w l g "display_name" _ E)).
  unfold subscriber_count. rewrite (bind_ok _ _ _ _ _ (get_dict w l g "subscriber_count" _ E)).
  rewrite (bind_ok _ _ _ _ _ (get_dict w l g "description" _ E)).
  rewrite (bind_ok _ _ _ _ _
             (truncate_text_dyn_ok w (default (VStr EmptyString) (g !! "description"%string))
                60 Hd)).
  apply add_row_eval. exact Hacc.
Qed.

Lemma rows_of_listable (w : world) (vs : list val) :
  Forall (listable (heap w)) vs ->
  map_m submolt_row vs w = (Ok (row_of (heap w) <$> vs), w).
Proof.
  induction 1 as [| v vs Hv _ IH]; [reflexivity|].
  cbn [map_m]. rewrite (bind_ok _ _ _ _ _ (submolt_row_listable w v Hv)).
  rewrite (bind_ok _ _ _ _ _ IH). reflexivity.
Qed.

Lemma rows_of_listable_plain (h : list obj) (vs : list val) :
  Forall (listable h) vs -> forallb (forallb plain_line) (row_of h <$> vs) = true.
Proof.
  induction 1 as [| v vs Hv _ IH]; [reflexivity|].
  cbn [fmap list_fmap forallb]. change (list_fmap _ _ (row_of h) vs) with (row_of h <$> vs).
  rewrite IH. now rewrite (proj2 (row_of_listable h v Hv)).
Qed.

Lemma slice_list_nonneg {A} (m : Z) (l : list A) :
  0 <= m -> slice_list m l = take (Z.to_nat m) l.
Proof. intros H. unfold slice_list. destruct (Z.ltb_spec m 0); [lia | reflexivity]. Qed.

Lemma py_len_list (w : world) (l : loc) (items : list val) :
  heap w !! l = Some (OList items) ->
  py_len (VRef l) w = (Ok (Z.of_nat (length items)), w).
Proof. intros H. unfold py_len. now rewrite H. Qed.

Lemma py_iter_list (w : world) (l : loc) (items : list val) :
  heap w !! l = Some (OList items) -> py_iter (VRef l) w = (Ok items, w).
Proof. intros H. unfold py_iter. now rewrite H. Qed.

Lemma rendered_rows_listing (p1 p2 p3 : text) (columns : list string)
    (rows : list (list text)) :
  rendered_rows ([EvPrint p1] ++ [EvPrint p2] ++ [EvTable columns rows] ++ [EvPrint p3])
  = rows.
Proof. unfold rendered_rows, tables. simpl. apply app_nil_r. Qed.

(** The sort of a list of listable items succeeds and stores the items in
    the stable non-increasing order of their counts. *)
Lemma list_sort_listable (w : world) (l : loc) (items : list val) (ns : list Z) :
  heap w !! l = Some (OList items) ->
  Forall (listable (heap w)) items ->
  mapM (count_of (heap w)) items = Some ns ->
  list_sort (VRef l) w
  = (Ok tt, {| heap := <[l := OList (sort_desc snd (zip items ns)).*1]> (heap w);
               trace := trace w |}).
Proof.
  intros Hl Hitems Hns.
  destruct (keys_of_listable w items Hitems) as (keys & ns' & Hk & Hn & Hc).
  assert (ns' = ns) by congruence. subst ns'.
  unfold list_sort. unfold bind at 1, read_heap at 1. cbn [fst snd]. rewrite Hl.
  rewrite (bind_ok _ _ _ _ _ Hk), Hn. reflexivity.
Qed.

(** C6, as stated, fails for a negative limit: with two submolts and the
    limit -1 the listing has one row, the slice dropping the last item,
    while the minimum of the limit and the total is -1. *)
Lemma negative_limit_rows_counterexample :
  let e := anonymous (fun _ => ok_reply two_submolts) in
  let out := submolts e (-1) false empty_world in
  out.1 = Ok tt
  /\ Z.of_nat (length (rendered_rows (trace out.2))) = 1
  /\ Z.of_nat (length (rendered_rows (trace out.2))) <> Z.min (-1) 2.
Proof. vm_compute. repeat split; discriminate. Qed.

(** C6, amended.  For a limit that is not negative and a response whose
    [submolts] list holds listable submolts (objects whose subscriber count
    is an integer or missing, whose description is a string, missing or
    falsy, and whose name to show is a string or None, name and description
    holding no opening bracket, which the console would read as markup),
    the formatted listing succeeds
    and its rows are those of the first [limit] items of the whole list
    sorted into non-increasing order of subscriber count (a missing count
    being zero): the number of rows is the minimum of the limit and the
    total, the counts of the rows shown are non-increasing, the sorted list
    is a rearrangement of the whole list, and submolts of equal count keep
    their original order. *)
Theorem submolt_listing_rows (limit : Z) (w : world) (ld l : loc)
    (f : gmap string val) (items : list val) :
  0 <= limit ->
  heap w !! ld = Some (ODict f) ->
  f !! "submolts"%string = Some (VRef l) ->
  heap w !! l = Some (OList items) ->
  Forall (listable (heap w)) items ->
  exists ns w' evs,
    mapM (count_of (heap w)) items = Some ns
    /\ render_submolts limit false (VRef ld) w = (Ok tt, w')
    /\ trace w' = trace w ++ evs
    /\ let sorted := sort_desc snd (zip items ns) in
       let shown := take (Z.to_nat limit) sorted in
       rendered_rows evs = row_of (heap w) <$> shown.*1
       /\ Z.of_nat (length (rendered_rows evs)) = Z.min limit (Z.of_nat (length items))
       /\ Forall (fun p => count_of (heap w) p.1 = Some p.2) shown
       /\ StronglySorted (fun a b => b.2 <= a.2) shown
       /\ Permutation sorted (zip items ns)
       /\ (forall c, List.filter (fun p => p.2 =? c) sorted
                     = List.filter (fun p => p.2 =? c) (zip items ns)).
Proof.
  intros Hlimit Hld Hf Hl Hitems.
  destruct (keys_of_listable w items Hitems) as (_ & ns & _ & _ & Hns).
  pose proof (length_mapM _ _ _ Hns) as Hlen.
  set (sorted := sort_desc snd (zip items ns)).
  set (shown := take (Z.to_nat limit) sorted).
  (* facts about the sorted list *)
  assert (Hperm : Permutation sorted (zip items ns)) by apply sort_desc_perm.
  assert (Hcounts : Forall (fun p => count_of (heap w) p.1 = Some p.2) sorted).
  { rewrite Hperm. apply mapM_Some in Hns. clear -Hns.
    induction Hns as [| x n xs ns' Hx _ IH]; constructor; auto. }
  assert (Hsorted : StronglySorted (fun a b : val * Z => b.2 <= a.2) sorted)
    by apply (sort_desc_sorted snd).
  assert (Hlensorted : length sorted = length items).
  { rewrite (Permutation_length Hperm), length_zip_with. lia. }
  assert (Hfacts :
    Z.of_nat (length (row_of (heap w) <$> shown.*1)) = Z.min limit (Z.of_nat (length items))
    /\ Forall (fun p => count_of (heap w) p.1 = Some p.2) shown
    /\ StronglySorted (fun a b : val * Z => b.2 <= a.2) shown
    /\ Permutation sorted (zip items ns)
    /\ (forall c, List.filter (fun p : val * Z => p.2 =? c) sorted
                  = List.filter (fun p : val * Z => p.2 =? c) (zip items ns))).
  { split; [|split; [|split; [|split]]].
    - rewrite !length_fmap. unfold shown. rewrite length_take. lia.
    - now apply Forall_take.
    - unfold shown. rewrite <- (take_drop (Z.to_nat limit) sorted) in Hsorted.
      now apply StronglySorted_app_1_l in Hsorted.
    - exact Hperm.
    - intros c. apply (sort_desc_stable snd). }
  (* the run *)
  set (w1 := {| heap := heap w ++ [OList []]; trace := trace w |}).
  assert (Hget : get_or_list (VRef ld) "submolts" w = (Ok (VRef l), w1)).
  { unfold get_or_list, get_with, bind at 1, fields_of. rewrite Hld.
    unfold bind, alloc, ret. cbn [fst snd]. now rewrite Hf. }
  assert (Hl1 : heap w1 !! l = Some (OList items)) by now apply lookup_app_l_Some.
  exists ns.
  unfold render_submolts. rewrite (bind_ok _ _ _ _ _ Hget).
  unfold bind at 1, is_true at 1. cbn [fst snd].
  destruct Hfacts as (H1 & H2 & H3 & H4 & H5).
  destruct (decide (items = [])) as [Hnil | Hne].
  - (* nothing to list *)
    assert (Hfalse : truthy (heap w1) (VRef l) = false).
    { unfold truthy. rewrite Hl1. now rewrite Hnil. }
    rewrite Hfalse. cbn [negb]. rewrite console_print_eval by plain.
    eexists _, _. split; [exact Hns|]. split; [reflexivity|]. split; [reflexivity|].
    assert (Hnone : sorted = []).
    { apply length_zero_iff_nil. rewrite Hlensorted, Hnil. reflexivity. }
    cbv zeta. fold sorted. fold shown. repeat split; auto.
    + unfold shown. rewrite Hnone, take_nil. reflexivity.
    + rewrite Hnil. simpl. lia.
  - assert (Htrue : truthy (heap w1) (VRef l) = true).
    { unfold truthy. rewrite Hl1. now destruct items. }
    rewrite Htrue. cbn [negb].
    assert (Hsim1 : similar (heap w) (heap w1)) by apply similar_app.
    assert (Hitems1 : Forall (listable (heap w1)) items).
    { eapply Forall_impl; [exact Hitems|]. intros v. now apply listable_similar. }
    assert (Hns1 : mapM (count_of (heap w1)) items = Some ns).
    { apply mapM_Some. apply mapM_Some in Hns. eapply Forall2_impl; [exact Hns|].
      intros v n. now apply count_of_similar. }
    pose proof (list_sort_listable w1 l items ns Hl1 Hitems1 Hns1) as Hsort.
    fold sorted in Hsort.
    set (w2 := {| heap := <[l := OList sorted.*1]> (heap w1); trace := trace w1 |}) in Hsort.
    rewrite (bind_ok _ _ _ _ _ Hsort).
    assert (Hl2 : heap w2 !! l = Some (OList sorted.*1)).
    { apply list_lookup_insert_eq. now apply lookup_lt_Some in Hl1. }
    assert (Hitemsperm : Permutation sorted.*1 items).
    { apply sorted_items_perm. exact Hlen. }
    assert (Hsim2 : similar (heap w) (heap w2)).
    { eapply similar_trans; [exact Hsim1|].
      eapply similar_insert; [exact Hl1 | exact Hitemsperm]. }
    assert (Hshownlist : Forall (listable (heap w)) (take (Z.to_nat limit) sorted.*1)).
    { apply Forall_take. rewrite Hitemsperm. exact Hitems. }
    assert (Hshown2 : Forall (listable (heap w2)) (take (Z.to_nat limit) sorted.*1)).
    { eapply Forall_impl; [exact Hshownlist|]. intros v. now apply listable_similar. }
    rewrite console_print_bind by plain.
    rewrite (bind_ok _ _ _ _ _ (py_len_list (log w2 _) l _ Hl2)).
    rewrite console_print_bind by plain.
    rewrite (bind_ok _ _ _ _ _ (py_iter_list (log (log w2 _) _) l _ Hl2)).
    rewrite slice_list_nonneg by exact Hlimit.
    rewrite (bind_ok _ _ _ _ _ (rows_of_listable (log (log w2 _) _) _ Hshown2)).
    rewrite print_table_bind by (apply rows_of_listable_plain; exact Hshown2).
    rewrite console_print_eval, !log_log by plain.
    eexists _, _. split; [exact Hns|]. split; [reflexivity|]. split; [reflexivity|].
    assert (Hrows : row_of (heap w2) <$> take (Z.to_nat limit) sorted.*1
                    = row_of (heap w) <$> shown.*1).
    { unfold shown.
      replace ((take (Z.to_nat limit) sorted).*1) with (take (Z.to_nat limit) sorted.*1)
        by (symmetry; apply fmap_take).
      apply (proj1 (Forall_fmap_ext _ _ _)).
      eapply Forall_impl; [exact Hshownlist|]. intros v Hv. now apply row_of_similar. }
    cbv zeta. fold sorted. fold shown.
    rewrite rendered_rows_listing. cbn [log heap]. rewrite Hrows. repeat split; auto.
Qed.

Lemma submolt_listing_rows_witness :
  let w1 := (load two_submolts empty_world).2 in
  exists w' evs,
    render_submolts 1 false (VRef 3%nat) w1 = (Ok tt, w')
    /\ trace w' = trace w1 ++ evs
    /\ Z.of_nat (length (rendered_rows evs)) = Z.min 1 2.
Proof.
  intros w1.
  assert (Hld : heap w1 !! 3%nat
                = Some (ODict (<["submolts"%string := VRef 2%nat]> (∅ : gmap string val))))
    by (vm_compute; reflexivity).
  assert (Hf : (<["submolts"%string := VRef 2%nat]> (∅ : gmap string val))
                 !! "submolts"%string = Some (VRef 2%nat))
    by (vm_compute; reflexivity).
  assert (Hl : heap w1 !! 2%nat = Some (OList [VRef 0%nat; VRef 1%nat]))
    by (vm_compute; reflexivity).
  assert (Hitems : Forall (listable (heap w1)) [VRef 0%nat; VRef 1%nat]).
  { repeat constructor; vm_compute; eauto. }
  destruct (submolt_listing_rows 1 w1 3%nat 2%nat _ _ ltac:(lia) Hld Hf Hl Hitems)
    as (ns & w' & evs & _ & Hrun & Htrace & _ & Hcount & _).
  exists w', evs. repeat split; assumption.
Defined.

(** * Further properties of the request executor *)

(** ** The shape of one call *)

(** [make_request] either stops in the credential lookup or runs the loop
    with its headers fixed. *)
Lemma make_request_cases (e : env) (endpoint : string)
    (params : option (list (string * val))) (auth : bool) (w : world) :
  (exists headers pre ext,
      (pre = [] \/ (auth = true /\ pre = [EvResolveKey]))
      /\ (headers = [user_agent]
          \/ (auth = true /\ exists key, headers = [user_agent; bearer key]))
      /\ make_request e endpoint params auth w
         = attempts e (BASE_URL ++ "/" ++ endpoint) headers params (MAX_RETRIES + 1) 0
             {| heap := heap w ++ ext; trace := trace w ++ pre |})
  \/ (auth = true
      /\ exists r ext,
           make_request e endpoint params auth w
           = (r, {| heap := heap w ++ ext; trace := trace w ++ [EvResolveKey] |})
           /\ forall v, r <> Ok v).
Proof.
  destruct auth.
  - assert (Heq : make_request e endpoint params true w
                  = match get_api_key e w with
                    | (Ok key, w1) =>
                        attempts e (BASE_URL ++ "/" ++ endpoint)
                          (if truthy (heap w1) key then [user_agent; bearer key]
                           else [user_agent])
                          params (MAX_RETRIES + 1) 0 w1
                    | (Raise ex, w1) => (Raise ex, w1)
                    | (Exit code, w1) => (Exit code, w1)
                    | (Unmodelled, w1) => (Unmodelled, w1)
                    end).
    { unfold make_request, bind, is_true, ret.
      destruct (get_api_key e w) as [[key | ex | code |] w1]; reflexivity. }
    rewrite Heq. clear Heq.
    destruct (get_api_key_world e w) as (ext & Hw).
    destruct (get_api_key e w) as [[key | ex | code |] w1]; simpl in Hw; subst w1.
    + left. cbn [heap].
      destruct (truthy (heap w ++ ext) key).
      * exists [user_agent; bearer key], [EvResolveKey], ext. eauto 10.
      * exists [user_agent], [EvResolveKey], ext. eauto 10.
    + right. split; [reflexivity|]. eexists _, ext. split; [reflexivity | discriminate].
    + right. split; [reflexivity|]. eexists _, ext. split; [reflexivity | discriminate].
    + right. split; [reflexivity|]. eexists _, ext. split; [reflexivity | discriminate].
  - left. exists [user_agent], [], []. split; [auto|]. split; [auto|].
    unfold make_request, bind at 1. cbn [ret]. destruct w. simpl. now rewrite !app_nil_r.
Qed.

(** Without authentication the call is the loop with the User-Agent alone. *)
Lemma make_request_public (e : env) (endpoint : string)
    (params : option (list (string * val))) (w : world) :
  make_request e endpoint params false w
  = attempts e (BASE_URL ++ "/" ++ endpoint) [user_agent] params (MAX_RETRIES + 1) 0 w.
Proof. reflexivity. Qed.

(** ** Retries *)

Section Retries.
Context (e : env) (url : string) (headers : list (string * text))
        (params : option (list (string * val))).

(** [n] retried responses in a row take the loop [n] attempts further, with
    [n] GETs and [n] pauses. *)
Lemma retried_prefix (n : nat) :
  forall attempt remaining w,
    (attempt + n <= MAX_RETRIES)%nat ->
    (forall i, (attempt <= i < attempt + n)%nat -> retried e i) ->
    exists evs,
      attempts e url headers params (n + remaining) attempt w
      = attempts e url headers params remaining (attempt + n) (log w evs)
      /\ length (List.filter is_get evs) = n
      /\ length (List.filter is_sleep evs) = n.
Proof.
  induction n as [| n IH]; intros attempt remaining w Hle Hretry.
  - exists []. rewrite Nat.add_0_r, log_nil. auto.
  - destruct (Hretry attempt ltac:(lia)) as (r0 & s & Hs0 & Hr0 & Hw0 & Hm0).
    destruct (IH (S attempt) remaining
                (log w [EvGet url headers (default [] params); EvSleep s]))
      as (evs & E & Hg & Hsl).
    + lia.
    + intros i Hi. apply Hretry. lia.
    + eexists. split; [|split].
      * change (S n + remaining)%nat with (S (n + remaining)).
        rewrite (attempts_retry e url headers params _ attempt r0 s w Hs0 Hr0
                   ltac:(lia) Hw0 Hm0).
        rewrite E, log_log. replace (S attempt + n)%nat with (attempt + S n)%nat by lia.
        reflexivity.
      * simpl. now rewrite Hg.
      * simpl. now rewrite Hsl.
Qed.

(** The loop never sends more GETs than it has turns left, never pauses
    more often than the retry budget allows, and every pause it takes is one
    that [time.sleep] accepts. *)
Lemma attempts_bounded (remaining : nat) :
  forall attempt w, exists evs ext,
    (attempts e url headers params remaining attempt w).2
    = {| heap := heap w ++ ext; trace := trace w ++ evs |}
    /\ (length (List.filter is_get evs) <= remaining)%nat
    /\ (length (List.filter is_sleep evs) <= MAX_RETRIES - attempt)%nat
    /\ Forall sound_event evs.
Proof.
  assert (Hstop : forall (A : Type) (r : res A) w attempt k evs,
            (length (List.filter is_get evs) <= S k)%nat ->
            List.filter is_sleep evs = [] ->
            Forall sound_event evs ->
            exists evs' ext,
              (r, log w evs).2 = {| heap := heap w ++ ext; trace := trace w ++ evs' |}
              /\ (length (List.filter is_get evs') <= S k)%nat
              /\ (length (List.filter is_sleep evs') <= MAX_RETRIES - attempt)%nat
              /\ Forall sound_event evs').
  { intros A r w attempt k evs Hg Hs F. exists evs, []. unfold log. simpl.
    rewrite app_nil_r, Hs. simpl. repeat split; auto. lia. }
  induction remaining as [| k IH]; intros attempt w.
  - exists [], []. destruct w. simpl. rewrite !app_nil_r. repeat split; auto. lia.
  - rewrite attempts_unfold.
    destruct (server e attempt) as [| | | r];
      [apply Hstop; [simpl; lia | reflexivity | repeat constructor]
      | apply Hstop; [simpl; lia | reflexivity | repeat constructor]
      | apply Hstop; [simpl; lia | reflexivity | repeat constructor] |].
    destruct (is_retry_status (status_code r) && (attempt <? MAX_RETRIES)%nat) eqn:Hretry.
    + destruct (wait_seconds (retry_after r) attempt) as [s|] eqn:Hwait;
        [|apply Hstop; [simpl; lia | reflexivity | repeat constructor]].
      destruct (Z.gtb_spec s SLEEP_MAX) as [Hover | Hmax];
        [apply Hstop; [simpl; lia | reflexivity | repeat constructor]|].
      apply andb_true_iff in Hretry as [_ Hlt]. apply Nat.ltb_lt in Hlt.
      assert (Hs : 0 <= s).
      { unfold wait_seconds in Hwait.
        assert (Hb : 0 <= backoff_wait attempt).
        { unfold MAX_RETRIES in Hlt.
          destruct attempt as [|[|[|n]]]; [| | | lia]; vm_compute; discriminate. }
        assert (Hd : forall h acc, 0 <= acc ->
                       PyStr.all_chars PyStr.isdecimal_char h = true ->
                       0 <= PyStr.decimal_value_from acc h).
        { induction h as [| c h IHh]; intros acc Hacc Hall; simpl; [exact Hacc|].
          simpl in Hall. apply andb_true_iff in Hall as [Hc Hall].
          apply IHh; [|exact Hall]. unfold PyStr.isdecimal_char in Hc. lia. }
        destruct (retry_after r) as [h|]; [|injection Hwait as <-; exact Hb].
        destruct (PyStr.nonempty h && PyStr.isdigit h);
          [|injection Hwait as <-; exact Hb].
        unfold PyStr.int_of_digits in Hwait.
        destruct (PyStr.isdecimal h) eqn:Hdec; [|discriminate].
        destruct (PyStr.len h <=? PyStr.MAX_STR_DIGITS); [|discriminate].
        injection Hwait as <-. unfold PyStr.isdecimal in Hdec.
        apply andb_true_iff in Hdec as [_ Hall]. apply Hd; [lia | exact Hall]. }
      destruct (IH (S attempt) (log w [EvGet url headers (default [] params); EvSleep s]))
        as (evs & ext & E & Hg & Hsl & F).
      exists (EvGet url headers (default [] params) :: EvSleep s :: evs), ext.
      rewrite E. simpl. split; [now rewrite <- !app_assoc|].
      split; [lia|]. split; [lia|]. repeat constructor; simpl; auto.
    + destruct (is_error_status (status_code r));
        [apply Hstop; [simpl; lia | reflexivity | repeat constructor]|].
      destruct (json_body r) as [j|];
        [|apply Hstop; [simpl; lia | reflexivity | repeat constructor]].
      destruct (load_grows j (log w [EvGet url headers (default [] params)]))
        as (v & w' & E & [ext ->]).
      exists [EvGet url headers (default [] params)], ext. rewrite E. simpl.
      split; [reflexivity|]. split; [lia|]. split; [lia|]. repeat constructor.
Qed.
End Retries.

(** ** What a request can cost *)

(** Whatever the server answers and whatever credential is found, one call
    of [make_request] sends at most four GETs, pauses at most three times,
    and every pause it takes has a duration that [time.sleep] accepts: not
    negative and not beyond what it can hold. *)
Theorem request_is_bounded (e : env) (endpoint : string)
    (params : option (list (string * val))) (auth : bool) (w : world) :
  exists evs,
    trace (make_request e endpoint params auth w).2 = trace w ++ evs
    /\ (length (List.filter is_get evs) <= 4)%nat
    /\ (length (List.filter is_sleep evs) <= 3)%nat
    /\ Forall sound_event evs.
Proof.
  destruct (make_request_cases e endpoint params auth w)
    as [(headers & pre & ext & Hpre & _ & ->) | (_ & r & ext & -> & _)].
  - destruct (attempts_bounded e (BASE_URL ++ "/" ++ endpoint) headers params
                (MAX_RETRIES + 1) 0 {| heap := heap w ++ ext; trace := trace w ++ pre |})
      as (evs & ext' & -> & Hg & Hs & F).
    exists (pre ++ evs). cbn [trace]. rewrite <- app_assoc. split; [reflexivity|].
    destruct Hpre as [-> | [_ ->]]; simpl; unfold MAX_RETRIES in *; simpl in *;
      repeat split; auto; constructor; simpl; auto.
  - exists [EvResolveKey]. simpl. repeat split; auto. repeat constructor.
Qed.

(** A timeout or a connection error, at the first attempt or after up to
    three retried responses, ends the loop of any request, whatever its
    headers and parameters, with the matching line and exit status 1;
    nothing is sent after it. *)
Theorem transport_failure_exits (e : env) (url : string)
    (headers : list (string * text)) (params : option (list (string * val)))
    (k : nat) (w : world) :
  (k <= MAX_RETRIES)%nat ->
  (forall i, (i < k)%nat -> retried e i) ->
  server e k = ReplyTimeout \/ server e k = ReplyConnectionError ->
  exists evs,
    attempts e url headers params (MAX_RETRIES + 1) 0 w
    = (Exit 1,
       log w (evs ++ [EvPrint (error_line
                                 [Lit (match server e k with
                                       | ReplyTimeout => "Request timed out"
                                       | _ => "Could not connect to Moltbook"
                                       end)])]))
    /\ length (List.filter is_get evs) = S k
    /\ length (List.filter is_sleep evs) = k.
Proof.
  intros Hk Hretry Hfail.
  replace (MAX_RETRIES + 1)%nat with (k + S (MAX_RETRIES - k))%nat by lia.
  destruct (retried_prefix e url headers params k 0
              (S (MAX_RETRIES - k)) w ltac:(lia)) as (evs & -> & Hg & Hs).
  { intros i Hi. apply Hretry. lia. }
  rewrite attempts_unfold. simpl Nat.add.
  exists (evs ++ [EvGet url headers (default [] params)]).
  rewrite !List.filter_app, !length_app, Hg, Hs. simpl.
  split; [|lia].
  destruct Hfail as [-> | ->]; rewrite log_log, <- app_assoc; reflexivity.
Qed.

Lemma transport_failure_exits_witness :
  exists evs,
    attempts (anonymous (fun n => match n with
                                  | O => retryable_reply 503 None
                                  | _ => ReplyTimeout
                                  end))
      "u" [user_agent; bearer (VStr "secret")] None (MAX_RETRIES + 1) 0 empty_world
    = (Exit 1, log empty_world (evs ++ [EvPrint (error_line [Lit "Request timed out"])]))
    /\ length (List.filter is_get evs) = 2%nat.
Proof.
  pose (e := anonymous (fun n => match n with
                                 | O => retryable_reply 503 None
                                 | _ => ReplyTimeout
                                 end)).
  destruct (transport_failure_exits e "u" [user_agent; bearer (VStr "secret")] None 1
              empty_world ltac:(unfold MAX_RETRIES; lia)) as (evs & H & Hg & _).
  - intros i Hi. assert (i = 0%nat) as -> by lia.
    eexists _, _. repeat split; try reflexivity. vm_compute. discriminate.
  - left. reflexivity.
  - exists evs. split; [exact H | exact Hg].
Defined.

Lemma retries_then_success_witness :
  exists evs,
    attempts (anonymous flaky_server) "u" [] None (MAX_RETRIES + 1) 0 empty_world
    = load (JObj []) (log empty_world evs)
    /\ length (List.filter is_get evs) = 3%nat
    /\ length (List.filter is_sleep evs) = 2%nat.
Proof.
  apply (retries_then_success (anonymous flaky_server) "u" [] None 2 (JObj []) empty_world).
  - unfold MAX_RETRIES. lia.
  - intros i Hi. destruct i as [|[|i]]; [| |lia]; eexists _, _;
      repeat split; try reflexivity; vm_compute; discriminate.
  - eexists. repeat split; reflexivity.
Defined.

Lemma budget_exhausted_witness :
  exists evs,
    attempts (anonymous down_server) "u" [] None (MAX_RETRIES + 1) 0 empty_world
    = (Exit 1,
       log empty_world
         (evs ++ [EvPrint (error_line [Lit "HTTP "; Fmt EmptyString (VInt 503)])]))
    /\ length (List.filter is_get evs) = 4%nat
    /\ length (List.filter is_sleep evs) = 3%nat.
Proof.
  apply (budget_exhausted (anonymous down_server) "u" [] None empty_world
           {| status_code := 503; retry_after := Some "1"%string; json_body := None |}).
  - intros i Hi. eexists _, _. repeat split; try reflexivity. vm_compute. discriminate.
  - reflexivity.
  - reflexivity.
Defined.

Lemma error_status_fails_at_once_witness :
  attempts (anonymous (fun _ => retryable_reply 404 None)) "u" [] None
    (MAX_RETRIES + 1) 0 empty_world
  = (Exit 1,
     log empty_world
       [EvGet "u" [] []; EvPrint (error_line [Lit "HTTP "; Fmt EmptyString (VInt 404)])]).
Proof.
  apply (error_status_fails_at_once (anonymous (fun _ => retryable_reply 404 None))
           "u" [] None empty_world
           {| status_code := 404; retry_after := None; json_body := None |});
    reflexivity.
Defined.

(** A status that [raise_for_status] does not treat as an error is read as
    a success whatever its class, 2xx or not, by the loop of any request:
    the body is returned when it is JSON, and otherwise the request ends
    with the invalid-JSON line and exit status 1.  One GET is sent and there
    is no pause. *)
Theorem other_status_is_read (e : env) (url : string)
    (headers : list (string * text)) (params : option (list (string * val)))
    (r : response) (w : world) :
  server e 0%nat = Reply r ->
  is_error_status (status_code r) = false ->
  attempts e url headers params (MAX_RETRIES + 1) 0 w
  = match json_body r with
    | Some j => load j (log w [EvGet url headers (default [] params)])
    | None =>
        (Exit 1,
         log w [EvGet url headers (default [] params);
                EvPrint (error_line [Lit "Invalid JSON response"])])
    end.
Proof.
  intros Hs He.
  change (MAX_RETRIES + 1)%nat with (S MAX_RETRIES). rewrite attempts_unfold, Hs, He.
  assert (Hn : is_retry_status (status_code r) = false).
  { unfold is_error_status in He. unfold is_retry_status, RETRY_STATUSES.
    apply bool_decide_eq_false. rewrite !elem_of_cons, elem_of_nil. lia. }
  rewrite Hn. reflexivity.
Qed.

(** A 300 (Multiple Choices) is no redirect that requests follows, and may
    carry a body; a 204 carries none. *)
Lemma other_status_is_read_witness :
  make_request (anonymous (fun _ => Reply {| status_code := 300; retry_after := None;
                                             json_body := Some (JInt 7) |}))
    "posts" None false empty_world
  = (Ok (VInt 7),
     log empty_world [EvGet "https://www.moltbook.com/api/v1/posts" [user_agent] []])
  /\ make_request (anonymous (fun _ => Reply {| status_code := 204; retry_after := None;
                                                json_body := None |}))
       "posts" None false empty_world
     = (Exit 1,
        log empty_world [EvGet "https://www.moltbook.com/api/v1/posts" [user_agent] [];
                         EvPrint (error_line [Lit "Invalid JSON response"])]).
Proof.
  split.
  - rewrite make_request_public.
    rewrite (other_status_is_read
               (anonymous (fun _ => Reply {| status_code := 300; retry_after := None;
                                             json_body := Some (JInt 7) |}))
               _ [user_agent] None
               {| status_code := 300; retry_after := None; json_body := Some (JInt 7) |}
               empty_world eq_refl eq_refl).
    reflexivity.
  - rewrite make_request_public.
    rewrite (other_status_is_read
               (anonymous (fun _ => Reply {| status_code := 204; retry_after := None;
                                             json_body := None |}))
               _ [user_agent] None
               {| status_code := 204; retry_after := None; json_body := None |}
               empty_world eq_refl eq_refl).
    reflexivity.
Defined.

(** Within the retry budget, a response without a Retry-After header, or
    with one that [isdigit] rejects (an HTTP date, an empty value), is
    followed by a pause of 1, 1 and 2 seconds at attempts 0, 1 and 2. *)
Theorem backoff_pause (hint : option string) (attempt : nat) :
  (attempt < MAX_RETRIES)%nat ->
  match hint with Some h => PyStr.isdigit h = false | None => True end ->
  wait_seconds hint attempt = Some (if (attempt <? 2)%nat then 1 else 2).
Proof.
  intros Ha Hh. rewrite (wait_seconds_backoff hint attempt Hh).
  unfold MAX_RETRIES in Ha. destruct attempt as [|[|[|n]]]; [| | | lia]; reflexivity.
Qed.

Lemma backoff_pause_witness :
  wait_seconds (Some "Wed, 21 Oct 2015 07:28:00 GMT"%string) 2 = Some 2.
Proof.
  apply (backoff_pause (Some "Wed, 21 Oct 2015 07:28:00 GMT"%string) 2).
  - unfold MAX_RETRIES. lia.
  - vm_compute. reflexivity.
Defined.

(** * Further properties of the credential lookup *)

Lemma handled_failures_give_none_witness :
  get_api_key {| environ_key := Some EmptyString; config := FileNotJson;
                 server := fun _ => ok_reply (JObj []) |} empty_world
  = (Ok VNone, log empty_world [EvResolveKey]).
Proof.
  apply (handled_failures_give_none
           {| environ_key := Some EmptyString; config := FileNotJson;
              server := fun _ => ok_reply (JObj []) |} "search"
           (Some [("q"%string, VStr "x")]) empty_world).
  - reflexivity.
  - right. right. reflexivity.
Defined.

(** A key in the environment is sent as the bearer token of every request
    that asks for authentication, and the credentials file is not looked at:
    the store is not touched, and a file that could not even be read does no
    harm. *)
Theorem environment_key_is_sent (e : env) (c : ascii) (k endpoint : string)
    (params : option (list (string * val))) (w : world) :
  environ_key e = Some (String c k) ->
  make_request e endpoint params true w
  = attempts e (BASE_URL ++ "/" ++ endpoint)
      [user_agent; bearer (VStr (String c k))] params (MAX_RETRIES + 1) 0
      (log w [EvResolveKey]).
Proof.
  intros H. unfold make_request.
  rewrite (bind_ok _ _ _ _ _
             (bind_ok _ _ _ _ _ (environment_key_first e c k w H))).
  reflexivity.
Qed.

Lemma environment_key_is_sent_witness :
  (make_request {| environ_key := Some "secret"%string; config := FileUndecodable;
                   server := fun _ => ok_reply JNull |} "agents/me" None true empty_world)
  = (Ok VNone,
     log empty_world
       [EvResolveKey;
        EvGet "https://www.moltbook.com/api/v1/agents/me"
          [user_agent; bearer (VStr "secret")] []]).
Proof.
  rewrite (environment_key_is_sent
             {| environ_key := Some "secret"%string; config := FileUndecodable;
                server := fun _ => ok_reply JNull |}
             "s" "ecret" "agents/me" None empty_world eq_refl).
  reflexivity.
Defined.

(** The fields of a loaded object: a key that does not occur is absent, and
    a key whose last occurrence holds a scalar has that scalar. *)
Lemma loaded_fields (key : string) (fields : list (string * json)) :
  forall acc w f w',
    (fix go (l : list (string * json)) (acc : gmap string val) : M (gmap string val) :=
       match l with
       | [] => ret acc
       | (k, x) :: r => v <- load x ;; go r (<[k := v]> acc)
       end) fields acc w = (Ok f, w') ->
    match last_field key fields with
    | None => f !! key = acc !! key
    | Some j => forall v, scalar j = Some v -> f !! key = Some v
    end.
Proof.
  induction fields as [| [k x] r IH]; intros acc w f w' E.
  - simpl in E. injection E as <- <-. reflexivity.
  - cbn [last_field].
    destruct (load_grows x w) as (vx & w1 & Ex & _).
    rewrite (bind_ok _ _ _ _ _ Ex) in E.
    specialize (IH _ _ _ _ E).
    destruct (last_field key r) as [j|]; [exact IH|].
    destruct (String.eqb_spec k key) as [-> | Hne].
    + intros v Hv. rewrite IH, lookup_insert_eq.
      destruct x; simpl in Hv; try discriminate; injection Hv as <-;
        simpl in Ex; injection Ex as <- <-; reflexivity.
    + rewrite IH. now apply lookup_insert_ne.
Qed.

(** Without a key in the environment, a credentials file that holds a JSON
    object gives the value of its [api_key] field, the last one if the key is
    repeated, and no credential when the field is missing. *)
Theorem file_key_is_read (e : env) (fields : list (string * json)) (w : world) :
  match environ_key e with Some k => k = EmptyString | None => True end ->
  config e = FileJson (JObj fields) ->
  match last_field "api_key" fields with
  | None => (get_api_key e w).1 = Ok VNone
  | Some j => forall v, scalar j = Some v -> (get_api_key e w).1 = Ok v
  end.
Proof.
  intros Henv Hcfg.
  assert (Hrun : get_api_key e w
                 = (cfg <- load (JObj fields) ;; get_none cfg "api_key")
                     (log w [EvResolveKey])).
  { unfold get_api_key, bind at 1. cbn [emit]. rewrite Hcfg.
    destruct (environ_key e) as [[|c k]|]; [reflexivity | discriminate | reflexivity]. }
  rewrite Hrun. clear Hrun.
  destruct (load_grows (JObj fields) (log w [EvResolveKey])) as (cfg & w2 & Eload & _).
  rewrite (bind_ok _ _ _ _ _ Eload).
  cbn [load] in Eload. unfold bind at 1 in Eload.
  destruct ((fix go (l : list (string * json)) (acc : gmap string val)
               : M (gmap string val) :=
               match l with
               | [] => ret acc
               | (k, x) :: r => v <- load x ;; go r (<[k := v]> acc)
               end) fields ∅ (log w [EvResolveKey])) as [[f| | |] w1] eqn:Ego;
    try discriminate.
  pose proof (loaded_fields "api_key" fields _ _ _ _ Ego) as Hf.
  unfold alloc in Eload. injection Eload as <- <-.
  assert (Hget : (get_none (VRef (length (heap w1))) "api_key"
                    {| heap := heap w1 ++ [ODict f]; trace := trace w1 |}).1
                 = Ok (default VNone (f !! "api_key"%string))).
  { unfold get_none. erewrite get_dict; [reflexivity|].
    cbn [heap]. rewrite lookup_app_r by lia. now rewrite Nat.sub_diag. }
  destruct (last_field "api_key" fields) as [j|].
  - intros v Hv. rewrite Hget, (Hf v Hv). reflexivity.
  - rewrite Hget, Hf, lookup_empty. reflexivity.
Qed.

Lemma file_key_is_read_witness :
  (get_api_key {| environ_key := None;
                  config := FileJson (JObj [("api_key"%string, JStr "old");
                                            ("name"%string, JStr "me");
                                            ("api_key"%string, JStr "new")]);
                  server := fun _ => ok_reply JNull |} empty_world).1
  = Ok (VStr "new").
Proof.
  apply (file_key_is_read
           {| environ_key := None;
              config := FileJson (JObj [("api_key"%string, JStr "old");
                                        ("name"%string, JStr "me");
                                        ("api_key"%string, JStr "new")]);
              server := fun _ => ok_reply JNull |}
           [("api_key"%string, JStr "old"); ("name"%string, JStr "me");
            ("api_key"%string, JStr "new")] empty_world I eq_refl (VStr "new") eq_refl).
Defined.

(** * Further properties of the text helpers *)

(** The collapsed text holds neither a line feed nor a carriage return. *)
Lemma collapse_newlines_clean (text : string) :
  PyStr.all_chars (fun c => negb (is_line_break c)) (collapse_newlines text) = true.
Proof.
  unfold collapse_newlines.
  assert (Hlf : forall s, PyStr.all_chars (fun c => negb (Ascii.eqb c LF))
                            (PyStr.replace LF " " s) = true).
  { induction s as [| c s IH]; [reflexivity|]. simpl.
    destruct (Ascii.eqb_spec c LF) as [-> | Hne].
    - rewrite all_chars_app, IH. reflexivity.
    - simpl. rewrite IH. now destruct (Ascii.eqb_spec c LF). }
  assert (Hcr : forall s, PyStr.all_chars (fun c => negb (Ascii.eqb c LF)) s = true ->
                          PyStr.all_chars (fun c => negb (is_line_break c))
                            (PyStr.replace CR EmptyString s) = true).
  { induction s as [| c s IH]; [reflexivity|]. simpl. intros H.
    apply andb_true_iff in H as [Hc Hs]. specialize (IH Hs).
    destruct (Ascii.eqb_spec c CR) as [-> | Hne]; [exact IH|].
    simpl. rewrite IH. unfold is_line_break.
    destruct (Ascii.eqb_spec c CR); [contradiction|].
    now destruct (Ascii.eqb c LF). }
  apply Hcr, Hlf.
Qed.

(** Whatever the text and the maximum, the display copy made by
    [truncate_text] holds no line feed and no carriage return. *)
Theorem truncated_text_is_one_line (text : string) (max_length : Z) :
  PyStr.all_chars (fun c => negb (is_line_break c)) (truncate_text text max_length) = true.
Proof.
  unfold truncate_text. destruct (PyStr.nonempty text); [|reflexivity]. cbn [negb].
  cbv zeta. destruct (PyStr.len (collapse_newlines text) >? max_length).
  - rewrite all_chars_app. apply andb_true_iff. split; [|reflexivity].
    apply all_chars_rstrip. unfold PyStr.slice_to.
    destruct (max_length <? 0); apply all_chars_take, collapse_newlines_clean.
  - apply collapse_newlines_clean.
Qed.

Lemma rstrip_ends_cleanly (s : string) : ends_in_space (PyStr.rstrip s) = false.
Proof.
  induction s as [| c s IH]; [reflexivity|]. simpl.
  destruct (PyStr.rstrip s) as [| d r].
  - destruct (PyStr.isspace c) eqn:E; [reflexivity|]. simpl. exact E.
  - exact IH.
Qed.

(** When a non-empty text is clipped, the part shown before the ellipsis
    never ends in whitespace, so the ellipsis follows a visible character or
    stands alone. *)
Theorem clipped_text_ends_cleanly (text : string) (max_length : Z) :
  PyStr.nonempty text = true ->
  PyStr.len (collapse_newlines text) > max_length ->
  exists kept,
    truncate_text text max_length = (kept ++ "...")%string
    /\ ends_in_space kept = false.
Proof.
  intros Hne Hlong.
  exists (PyStr.rstrip (PyStr.slice_to max_length (collapse_newlines text))).
  split; [|apply rstrip_ends_cleanly].
  unfold truncate_text. rewrite Hne. cbn [negb]. cbv zeta.
  destruct (Z.gtb_spec (PyStr.len (collapse_newlines text)) max_length); [reflexivity | lia].
Qed.

Lemma clipped_text_ends_cleanly_witness :
  exists kept,
    truncate_text "one two   three" 10 = (kept ++ "...")%string
    /\ ends_in_space kept = false.
Proof.
  apply (clipped_text_ends_cleanly "one two   three" 10); vm_compute; reflexivity.
Defined.

(** ** The description cell of [whoami] *)

(** A description of more than 60 characters is shown as its first 60
    characters and an ellipsis, 63 characters in all, with no stripping and
    no collapsing of line breaks; a shorter one is shown as it is. *)
Theorem whoami_description_is_clipped (w : world) (l : loc) (f : gmap string val)
    (s : string) :
  heap w !! l = Some (ODict f) ->
  f !! "description"%string = Some (VStr s) ->
  clipped_description (VRef l) w
  = (Ok (if PyStr.len s >? 60 then [Raw (VStr (PyStr.slice_to 60 s ++ "..."))]
         else [Raw (VStr s)]), w)
  /\ (PyStr.len s > 60 -> String.length (PyStr.slice_to 60 s ++ "...") = 63%nat).
Proof.
  intros Hl Hd. split.
  - unfold clipped_description.
    rewrite (bind_ok _ _ _ _ _ (get_dict w l f "description" _ Hl)), Hd.
    change (default (VStr EmptyString) (Some (VStr s))) with (VStr s).
    unfold bind at 1, py_len. cbn [fst snd].
    destruct (PyStr.len s >? 60); reflexivity.
  - intros Hlong. rewrite strlen_app. rewrite slice_to_nonneg by lia.
    rewrite strlen_take. unfold PyStr.len in Hlong.
    change (String.length "...") with 3%nat. lia.
Qed.

Lemma whoami_description_is_clipped_witness :
  let w := (load (JObj [("description"%string, JStr "short  ")]) empty_world).2 in
  clipped_description (VRef 0%nat) w = (Ok [Raw (VStr "short  ")], w).
Proof.
  intros w.
  assert (Hl : heap w !! 0%nat
               = Some (ODict (<["description"%string := VStr "short  "]>
                                (∅ : gmap string val)))) by (vm_compute; reflexivity).
  assert (Hd : (<["description"%string := VStr "short  "]> (∅ : gmap string val))
                 !! "description"%string = Some (VStr "short  "))
    by (vm_compute; reflexivity).
  destruct (whoami_description_is_clipped w 0%nat _ "short  " Hl Hd) as [H _].
  exact H.
Defined.

(** * Further properties of the commands *)

(** ** What a command can emit *)

Lemma emits_weaken {A} (P Q : event -> Prop) (m : M A) :
  (forall ev, P ev -> Q ev) -> emits P m -> emits Q m.
Proof.
  intros HPQ Hm w. destruct (Hm w) as (evs & E & F). exists evs.
  split; [exact E|]. eapply Forall_impl; eauto.
Qed.

Lemma emits_reads {A} (P : event -> Prop) (m : M A) : reads m -> emits P m.
Proof. intros H w. exists []. rewrite H, app_nil_r. auto. Qed.

Lemma emits_bind {A B} (P : event -> Prop) (m : M A) (k : A -> M B) :
  emits P m -> (forall a, emits P (k a)) -> emits P (bind m k).
Proof.
  intros Hm Hk w. unfold bind. destruct (Hm w) as (evs & E & F).
  destruct (m w) as [[a | ex | code |] w1]; simpl in E; eauto.
  destruct (Hk a w1) as (evs' & E' & F').
  exists (evs ++ evs'). rewrite E', E, <- app_assoc. split; [reflexivity|].
  now apply Forall_app.
Qed.

Lemma emits_emit (P : event -> Prop) (ev : event) : P ev -> emits P (emit ev).
Proof. intros H w. exists [ev]. simpl. auto. Qed.

Lemma emits_console_print (P : event -> Prop) (line : text) :
  P (EvPrint line) -> emits P (console_print line).
Proof.
  intros H. unfold console_print.
  destruct (plain_line line); [now apply emits_emit | apply emits_reads, reads_unmodelled].
Qed.

Lemma emits_print_table (P : event -> Prop) (columns : list string)
    (rows : list (list text)) :
  P (EvTable columns rows) -> emits P (print_table columns rows).
Proof.
  intros H. unfold print_table.
  destruct (forallb (forallb plain_line) rows);
    [now apply emits_emit | apply emits_reads, reads_unmodelled].
Qed.

Lemma emits_alloc (P : event -> Prop) (o : obj) : emits P (alloc o).
Proof. intros w. exists []. simpl. now rewrite app_nil_r. Qed.

Lemma emits_store (P : event -> Prop) (l : loc) (o : obj) : emits P (store l o).
Proof. intros w. exists []. simpl. now rewrite app_nil_r. Qed.

Lemma emits_for_each {A} (P : event -> Prop) (body : A -> M unit) (l : list A) :
  (forall x, emits P (body x)) -> emits P (for_each body l).
Proof.
  intros Hb. induction l as [| x l IH]; [apply emits_reads, reads_ret|].
  simpl. apply emits_bind; [apply Hb | intros _; exact IH].
Qed.

Lemma emits_map_m {A B} (P : event -> Prop) (f : A -> M B) (l : list A) :
  (forall x, emits P (f x)) -> emits P (map_m f l).
Proof.
  intros Hf. induction l as [| x l IH]; [apply emits_reads, reads_ret|].
  simpl. apply emits_bind; [apply Hf|]. intros y.
  apply emits_bind; [exact IH|]. intros ys. apply emits_reads, reads_ret.
Qed.

Lemma emits_get_with (P : event -> Prop) (v : val) (key : string) (mk : M val) :
  emits P mk -> emits P (get_with v key mk).
Proof.
  intros H. unfold get_with.
  apply emits_bind; [apply emits_reads, reads_fields_of|]. intros f.
  apply emits_bind; [exact H|]. intros d. apply emits_reads, reads_ret.
Qed.

Lemma emits_get_nested (P : event -> Prop) (v : val) (outer inner : string) (d : val) :
  emits P (get_nested v outer inner d).
Proof.
  unfold get_nested. apply emits_bind.
  - apply emits_get_with, emits_alloc.
  - intros a. apply emits_reads, reads_get.
Qed.

Lemma emits_list_sort (P : event -> Prop) (v : val) : emits P (list_sort v).
Proof.
  unfold list_sort. destruct v as [| | | | l]; try apply emits_reads, reads_raise.
  apply emits_bind; [apply emits_reads, reads_read_heap|]. intros h.
  destruct (h !! l) as [[items|f]|];
    [| apply emits_reads, reads_raise | apply emits_reads, reads_unmodelled].
  apply emits_bind.
  - apply emits_reads, reads_map_m. intros x. apply reads_subscriber_count.
  - intros keys. destruct (numeric_keys keys); [apply emits_store|].
    destruct (length items <=? 1)%nat;
      [apply emits_reads, reads_ret | apply emits_reads, reads_unmodelled].
Qed.

(** Splits a goal about the console events of a command. *)
Ltac console_step :=
  first
    [ apply emits_get_nested | apply emits_list_sort
    | apply emits_get_with, emits_alloc
    | apply emits_reads;
      first [ apply reads_get | apply reads_get_none | apply reads_vote_color
            | apply reads_maybe_truncate_dyn | apply reads_truncate_text_dyn
            | apply reads_or_empty_dyn | apply reads_upper | apply reads_is_true
            | apply reads_py_len | apply reads_py_iter | apply reads_is_list
            | apply reads_max_subscribers | apply reads_ret | apply reads_raise
            | apply reads_unmodelled | apply reads_submolt_row
            | apply reads_add_row | apply reads_format_number ]
    | apply emits_emit; exact I
    | apply emits_console_print; exact I
    | apply emits_print_table; exact I
    | apply emits_bind; [| intros ?]
    | apply emits_for_each; intros ?
    | apply emits_map_m; intros ?
    | match goal with
      | |- emits _ (if ?b then _ else _) => destruct b
      | |- emits _ (match ?x with _ => _ end) => destruct x
      | |- emits _ (when ?b _) => destruct b; unfold when
      | |- emits _ (get_or_list _ _) => apply emits_get_with, emits_alloc
      | |- emits _ (get_or_dict _ _) => apply emits_get_with, emits_alloc
      end ].

Lemma prints_search_row (nt : bool) (r : val) : emits console_event (search_row nt r).
Proof. unfold search_row. repeat console_step. Qed.

Lemma prints_browse_post (ids nt : bool) (post : val) :
  emits console_event (browse_post ids nt post).
Proof. unfold browse_post. repeat console_step. Qed.

Lemma prints_comment_panel (nt : bool) (c : val) :
  emits console_event (comment_panel nt c).
Proof. unfold comment_panel. repeat console_step. Qed.

Lemma prints_clipped_description (agent : val) :
  emits console_event (clipped_description agent).
Proof. unfold clipped_description. repeat console_step. Qed.

Lemma prints_render_search (query : string) (j nt : bool) (data : val) :
  emits console_event (render_search query j nt data).
Proof. unfold render_search. repeat first [apply prints_search_row | console_step]. Qed.

Lemma prints_render_browse (sort : string) (limit offset : Z) (j ids nt : bool)
    (data : val) :
  emits console_event (render_browse sort limit offset j ids nt data).
Proof. unfold render_browse. repeat first [apply prints_browse_post | console_step]. Qed.

Lemma prints_render_comments (post_id sort : string) (j nt : bool) (data : val) :
  emits console_event (render_comments post_id sort j nt data).
Proof.
  unfold render_comments. repeat first [apply prints_comment_panel | console_step].
Qed.

Lemma prints_render_fetch (post_id : string) (j : bool) (data : val) :
  emits console_event (render_fetch post_id j data).
Proof. unfold render_fetch. repeat console_step. Qed.

Lemma prints_render_submolts (limit : Z) (j : bool) (data : val) :
  emits console_event (render_submolts limit j data).
Proof. unfold render_submolts. repeat console_step. Qed.

Lemma prints_render_stats (data : val) : emits console_event (render_stats data).
Proof. unfold render_stats. repeat console_step. Qed.

Lemma prints_render_whoami (data : val) : emits console_event (render_whoami data).
Proof.
  unfold render_whoami. repeat first [apply prints_clipped_description | console_step].
Qed.

(** Once the response is there, no command touches the network again,
    pauses or looks up the credential: whatever the response holds, and even
    when rendering stops on an exception, all it adds to the trace are
    console events. *)
Theorem rendering_only_prints :
  (forall query json_out no_truncate data,
      emits console_event (render_search query json_out no_truncate data))
  /\ (forall sort limit offset json_out show_ids no_truncate data,
         emits console_event
           (render_browse sort limit offset json_out show_ids no_truncate data))
  /\ (forall post_id sort json_out no_truncate data,
         emits console_event (render_comments post_id sort json_out no_truncate data))
  /\ (forall post_id json_out data, emits console_event (render_fetch post_id json_out data))
  /\ (forall limit json_out data, emits console_event (render_submolts limit json_out data))
  /\ (forall data, emits console_event (render_stats data))
  /\ (forall data, emits console_event (render_whoami data)).
Proof.
  repeat split; intros.
  - apply prints_render_search.
  - apply prints_render_browse.
  - apply prints_render_comments.
  - apply prints_render_fetch.
  - apply prints_render_submolts.
  - apply prints_render_stats.
  - apply prints_render_whoami.
Qed.

(** The events of one request. *)
Lemma emits_make_request_public (e : env) (endpoint : string)
    (params : option (list (string * val))) :
  emits (public_event (BASE_URL ++ "/" ++ endpoint) (default [] params))
    (make_request e endpoint params false).
Proof.
  intros w. rewrite make_request_public.
  destruct (attempts_events e (BASE_URL ++ "/" ++ endpoint) [user_agent] params
              (MAX_RETRIES + 1) 0 w) as (evs & ext & -> & F).
  exists evs. split; [reflexivity|].
  eapply Forall_impl; [exact F|]. intros [] H; simpl in *; auto.
Qed.

Lemma emits_get_api_key (P : event -> Prop) (e : env) :
  P EvResolveKey -> emits P (get_api_key e).
Proof.
  intros H w. destruct (get_api_key_world e w) as (ext & ->).
  exists [EvResolveKey]. simpl. auto.
Qed.

Lemma emits_make_request (e : env) (endpoint : string)
    (params : option (list (string * val))) (auth : bool) :
  emits (authenticated_event (BASE_URL ++ "/" ++ endpoint) (default [] params))
    (make_request e endpoint params auth).
Proof.
  intros w.
  destruct (make_request_cases e endpoint params auth w)
    as [(headers & pre & ext & Hpre & Hh & ->) | (_ & r & ext & -> & _)].
  - destruct (attempts_events e (BASE_URL ++ "/" ++ endpoint) headers params
                (MAX_RETRIES + 1) 0 {| heap := heap w ++ ext; trace := trace w ++ pre |})
      as (evs & ext' & -> & F).
    exists (pre ++ evs). cbn [trace]. rewrite <- app_assoc. split; [reflexivity|].
    apply Forall_app. split.
    + destruct Hpre as [-> | [_ ->]]; repeat constructor.
    + eapply Forall_impl; [exact F|]. intros [] H; simpl in *; auto.
      destruct H as (-> & -> & ->). repeat split.
      destruct Hh as [-> | (_ & key & ->)]; eauto.
  - exists [EvResolveKey]. simpl. split; [reflexivity|]. repeat constructor.
Qed.

Lemma console_is_public (url : string) (params : list (string * val)) (ev : event) :
  console_event ev -> public_event url params ev.
Proof. destruct ev; simpl; tauto. Qed.

Lemma console_is_authenticated (url : string) (params : list (string * val)) (ev : event) :
  console_event ev -> authenticated_event url params ev.
Proof. destruct ev; simpl; tauto. Qed.

(** [browse], [fetch], [submolts] and [stats] never look up the credential
    and never send an Authorization header, whatever key is configured: each
    of their GETs goes to the command's own endpoint with the User-Agent
    header alone, and [browse] never asks for more than 50 posts. *)
Theorem public_commands_send_no_credential (e : env) :
  (forall sort limit offset json_out show_ids no_truncate,
      emits (public_event (BASE_URL ++ "/posts")
               [("sort"%string, VStr sort); ("limit"%string, VInt (Z.min limit 50));
                ("offset"%string, VInt offset)])
        (browse e sort limit offset json_out show_ids no_truncate)
      /\ Z.min limit 50 <= 50)
  /\ (forall post_id json_out,
         emits (public_event (BASE_URL ++ "/posts/" ++ post_id) [])
           (fetch e post_id json_out))
  /\ (forall limit json_out,
         emits (public_event (BASE_URL ++ "/submolts") []) (submolts e limit json_out))
  /\ emits (public_event (BASE_URL ++ "/submolts") []) (stats e).
Proof.
  repeat split; intros; try lia.
  - unfold browse. apply emits_bind.
    + apply (emits_make_request_public e "posts" (Some _)).
    + intros data. eapply emits_weaken; [apply console_is_public|].
      apply prints_render_browse.
  - unfold fetch. apply emits_bind.
    + apply (emits_make_request_public e ("posts/" ++ post_id) None).
    + intros data. eapply emits_weaken; [apply console_is_public|].
      apply prints_render_fetch.
  - unfold submolts. apply emits_bind.
    + apply (emits_make_request_public e "submolts" None).
    + intros data. eapply emits_weaken; [apply console_is_public|].
      apply prints_render_submolts.
  - unfold stats. apply emits_bind.
    + apply (emits_make_request_public e "submolts" None).
    + intros data. eapply emits_weaken; [apply console_is_public|].
      apply prints_render_stats.
Qed.

(** [search], [comments] and [whoami] send their GETs to their own endpoint
    only, with the parameters of the command ([search] never asks for more
    than 50 results, and passes the type only when it is not [all]), and
    with the User-Agent alone or the User-Agent and one bearer token. *)
Theorem authenticated_commands_stay_on_their_endpoint (e : env) :
  (forall query limit content_type json_out no_truncate,
      emits (authenticated_event (BASE_URL ++ "/search")
               ([("q"%string, VStr query); ("limit"%string, VInt (Z.min limit 50))]
                ++ (if String.eqb content_type "all" then []
                    else [("type"%string, VStr content_type)])))
        (search e query limit content_type json_out no_truncate))
  /\ (forall post_id sort json_out no_truncate,
         emits (authenticated_event (BASE_URL ++ "/posts/" ++ post_id ++ "/comments")
                  [("sort"%string, VStr sort)])
           (comments e post_id sort json_out no_truncate))
  /\ emits (authenticated_event (BASE_URL ++ "/agents/me") []) (whoami e).
Proof.
  repeat split; intros.
  - unfold search. apply emits_bind; [now apply emits_get_api_key|]. intros k.
    apply emits_bind; [apply emits_reads, reads_is_true|]. intros b.
    apply emits_bind.
    { destruct b; unfold when, no_key_warning; cbn [negb];
        [apply emits_reads, reads_ret|].
      apply emits_bind; [apply emits_console_print; exact I
                        | intros _; apply emits_console_print; exact I]. }
    intros _. apply emits_bind.
    + apply (emits_make_request e "search" (Some _) true).
    + intros data. eapply emits_weaken; [apply console_is_authenticated|].
      apply prints_render_search.
  - unfold comments. apply emits_bind; [now apply emits_get_api_key|]. intros k.
    apply emits_bind; [apply emits_reads, reads_is_true|]. intros b.
    apply emits_bind.
    { destruct b; unfold when, no_key_warning; cbn [negb];
        [apply emits_reads, reads_ret|].
      apply emits_bind; [apply emits_console_print; exact I
                        | intros _; apply emits_console_print; exact I]. }
    intros _. apply emits_bind.
    + apply (emits_make_request e ("posts/" ++ post_id ++ "/comments") (Some _) true).
    + intros data. eapply emits_weaken; [apply console_is_authenticated|].
      apply prints_render_comments.
  - unfold whoami. apply emits_bind; [now apply emits_get_api_key|]. intros k.
    apply emits_bind; [apply emits_reads, reads_is_true|]. intros b.
    destruct b; cbn [negb].
    + apply emits_bind.
      * apply (emits_make_request e "agents/me" None true).
      * intros data. eapply emits_weaken; [apply console_is_authenticated|].
        apply prints_render_whoami.
    + repeat (apply emits_bind; [apply emits_emit; exact I | intros _]).
      apply emits_emit. exact I.
Qed.

(** ** Empty responses *)

(** [data.get(key, [])] on an object of the store. *)
Lemma get_or_list_dict (w : world) (ld : loc) (f : gmap string val) (key : string) :
  heap w !! ld = Some (ODict f) ->
  get_or_list (VRef ld) key w
  = (Ok (default (VRef (length (heap w))) (f !! key)),
     {| heap := heap w ++ [OList []]; trace := trace w |}).
Proof.
  intros H. unfold get_or_list, get_with, bind at 1, fields_of. now rewrite H.
Qed.

(** A field that is missing or falsy gives a falsy list. *)
Lemma missing_or_falsy (h : list obj) (field : option val) :
  match field with Some v => truthy h v = false | None => True end ->
  truthy (h ++ [OList []]) (default (VRef (length h)) field) = false.
Proof.
  destruct field as [v|]; simpl.
  - apply truthy_similar, similar_app.
  - intros _. rewrite lookup_app_r by lia. now rewrite Nat.sub_diag.
Qed.

(** When the response is an object whose list of results, posts or submolts
    is missing, empty or otherwise falsy, [search], [browse] and [submolts]
    print their notice and nothing else, and return normally. *)
Theorem empty_listing_gives_one_notice (w : world) (ld : loc) (f : gmap string val)
    (key : string) :
  heap w !! ld = Some (ODict f) ->
  match f !! key with Some v => truthy (heap w) v = false | None => True end ->
  let w' := {| heap := heap w ++ [OList []]; trace := trace w |} in
  (key = "results"%string ->
   forall query no_truncate,
     render_search query false no_truncate (VRef ld) w
     = (Ok tt, log w' [EvPrint [Lit "[yellow]No results found[/yellow]"]]))
  /\ (key = "posts"%string ->
      forall sort limit offset show_ids no_truncate,
        render_browse sort limit offset false show_ids no_truncate (VRef ld) w
        = (Ok tt, log w' [EvPrint [Lit "[yellow]No posts found[/yellow]"]]))
  /\ (key = "submolts"%string ->
      forall limit,
        render_submolts limit false (VRef ld) w
        = (Ok tt, log w' [EvPrint [Lit "[yellow]No submolts found[/yellow]"]])).
Proof.
  intros Hld Hfalsy w'.
  pose proof (missing_or_falsy (heap w) (f !! key) Hfalsy) as Hf.
  repeat split; intros ->; intros.
  - unfold render_search. rewrite (bind_ok _ _ _ _ _ (get_or_list_dict w ld f _ Hld)).
    unfold bind at 1, is_true at 1. cbn [fst snd heap]. rewrite Hf. reflexivity.
  - unfold render_browse. rewrite (bind_ok _ _ _ _ _ (get_or_list_dict w ld f _ Hld)).
    unfold bind at 1, is_true at 1. cbn [fst snd heap]. rewrite Hf. reflexivity.
  - unfold render_submolts. rewrite (bind_ok _ _ _ _ _ (get_or_list_dict w ld f _ Hld)).
    unfold bind at 1, is_true at 1. cbn [fst snd heap]. rewrite Hf. reflexivity.
Qed.

Lemma empty_listing_gives_one_notice_witness :
  let w := (load (JObj [("posts"%string, JArr [])]) empty_world).2 in
  trace (render_browse "hot" 20 0 false false false (VRef 1%nat) w).2
  = [EvPrint [Lit "[yellow]No posts found[/yellow]"]].
Proof.
  intros w.
  assert (Hld : heap w !! 1%nat
                = Some (ODict (<["posts"%string := VRef 0%nat]> (∅ : gmap string val))))
    by (vm_compute; reflexivity).
  assert (Hfalsy : match (<["posts"%string := VRef 0%nat]> (∅ : gmap string val))
                           !! "posts"%string with
                   | Some v => truthy (heap w) v = false
                   | None => True
                   end) by (vm_compute; reflexivity).
  destruct (empty_listing_gives_one_notice w 1%nat _ "posts" Hld Hfalsy) as (_ & H & _).
  rewrite (H eq_refl "hot"%string 20 0 false false). reflexivity.
Defined.

(** [comments] takes its list from the response itself when that is a list,
    and otherwise from the [comments] field when that is there and not null:
    the [results] field is then not looked at.  So an empty response list, or
    an empty (or otherwise falsy) [comments] field beside whatever [results]
    holds, gives the notice and nothing else. *)
Theorem comments_field_comes_first (w : world) (l : loc) (post_id sort : string)
    (no_truncate : bool) :
  (heap w !! l = Some (OList [])
   \/ (exists f v, heap w !! l = Some (ODict f)
                   /\ f !! "comments"%string = Some v /\ v <> VNone
                   /\ truthy (heap w) v = false)) ->
  render_comments post_id sort false no_truncate (VRef l) w
  = (Ok tt, log w [EvPrint [Lit "[yellow]No comments found[/yellow]"]]).
Proof.
  intros [Hl | (f & v & Hl & Hc & Hv & Hfalsy)]; unfold render_comments.
  - assert (Hlist : is_list (VRef l) w = (Ok true, w)) by (unfold is_list; now rewrite Hl).
    rewrite (bind_ok _ _ _ _ _ Hlist).
    unfold bind at 1. cbn [ret]. unfold bind at 1, is_true at 1. cbn [fst snd].
    unfold truthy. rewrite Hl. reflexivity.
  - assert (Hlist : is_list (VRef l) w = (Ok false, w)) by (unfold is_list; now rewrite Hl).
    rewrite (bind_ok _ _ _ _ _ Hlist).
    assert (Hget : get_none (VRef l) "comments" w = (Ok v, w)).
    { unfold get_none. rewrite (get_dict w l f _ _ Hl), Hc. reflexivity. }
    assert (Hlocate : (found <- get_none (VRef l) "comments" ;;
                       match found with
                       | VNone => get_or_list (VRef l) "results"
                       | _ => ret found
                       end) w = (Ok v, w)).
    { rewrite (bind_ok _ _ _ _ _ Hget). destruct v; try reflexivity. contradiction. }
    rewrite (bind_ok _ _ _ _ _ Hlocate).
    unfold bind at 1, is_true at 1. cbn [fst snd]. rewrite Hfalsy. reflexivity.
Qed.

Lemma comments_field_comes_first_witness :
  let w := (load (JObj [("comments"%string, JArr []);
                        ("results"%string, JArr [JObj [("content"%string, JStr "hi")]])])
              empty_world).2 in
  render_comments "p" "top" false false (VRef 3%nat) w
  = (Ok tt, log w [EvPrint [Lit "[yellow]No comments found[/yellow]"]]).
Proof.
  intros w.
  apply (comments_field_comes_first w 3%nat "p" "top" false).
  right. eexists _, (VRef 0%nat). split; [vm_compute; reflexivity|].
  split; [vm_compute; reflexivity|]. split; [discriminate | vm_compute; reflexivity].
Defined.

(** ** The command without a key *)

(** When no credential is found, [whoami] prints its four lines of advice
    and returns: no request is sent.  [search] and [comments] print a warning
    of two lines and go on with their request all the same, looking the
    credential up a second time. *)
Theorem commands_without_a_key (e : env) (w w1 : world) (key : val) :
  get_api_key e w = (Ok key, w1) ->
  truthy (heap w1) key = false ->
  whoami e w
  = (Ok tt,
     log w1
       [EvPrint [Lit "[yellow]No API key configured.[/yellow]"];
        EvPrint [Lit nl; Lit "[dim]To configure, either:[/dim]"];
        EvPrint [Lit "[dim]  1. Set MOLTBOOK_API_KEY environment variable[/dim]"];
        EvPrint [Lit "[dim]  2. Save to ~/.config/moltbook/credentials.json[/dim]"]])
  /\ (forall query limit content_type json_out no_truncate,
         search e query limit content_type json_out no_truncate w
         = (data <- make_request e "search"
                      (Some ([("q"%string, VStr query);
                              ("limit"%string, VInt (Z.min limit 50))]
                             ++ (if String.eqb content_type "all" then []
                                 else [("type"%string, VStr content_type)]))) true ;;
            render_search query json_out no_truncate data)
             (log w1
                [EvPrint [Lit "[yellow]Warning: No API key found. ";
                          Lit "Search requires"; Lit " authentication.[/yellow]"];
                 EvPrint [Lit "[dim]Set MOLTBOOK_API_KEY env var or save key to ~/.config/moltbook/credentials.json[/dim]";
                          Lit nl]]))
  /\ (forall post_id sort json_out no_truncate,
         comments e post_id sort json_out no_truncate w
         = (data <- make_request e ("posts/" ++ post_id ++ "/comments")
                      (Some [("sort"%string, VStr sort)]) true ;;
            render_comments post_id sort json_out no_truncate data)
             (log w1
                [EvPrint [Lit "[yellow]Warning: No API key found. ";
                          Lit "Comments require"; Lit " authentication.[/yellow]"];
                 EvPrint [Lit "[dim]Set MOLTBOOK_API_KEY env var or save key to ~/.config/moltbook/credentials.json[/dim]";
                          Lit nl]])).
Proof.
  intros Hkey Hfalsy.
  assert (Htruth : is_true key w1 = (Ok false, w1)).
  { unfold is_true. now rewrite Hfalsy. }
  assert (Hwarn : forall what,
            no_key_warning what w1
            = (Ok tt,
               log w1
                 [EvPrint [Lit "[yellow]Warning: No API key found. "; Lit what;
                           Lit " authentication.[/yellow]"];
                  EvPrint [Lit "[dim]Set MOLTBOOK_API_KEY env var or save key to ~/.config/moltbook/credentials.json[/dim]";
                           Lit nl]])).
  { intros what. unfold no_key_warning.
    rewrite console_print_bind, console_print_eval, log_log by plain.
    reflexivity. }
  split; [|split]; intros.
  - unfold whoami. rewrite (bind_ok _ _ _ _ _ Hkey), (bind_ok _ _ _ _ _ Htruth).
    cbn [negb].
    rewrite !console_print_bind, console_print_eval, !log_log by plain.
    reflexivity.
  - unfold search. rewrite (bind_ok _ _ _ _ _ Hkey), (bind_ok _ _ _ _ _ Htruth).
    cbn [negb when]. rewrite (bind_ok _ _ _ _ _ (Hwarn _)). reflexivity.
  - unfold comments. rewrite (bind_ok _ _ _ _ _ Hkey), (bind_ok _ _ _ _ _ Htruth).
    cbn [negb when]. rewrite (bind_ok _ _ _ _ _ (Hwarn _)). reflexivity.
Qed.

Lemma commands_without_a_key_witness :
  List.filter is_get (trace (whoami (anonymous (fun _ => ok_reply JNull)) empty_world).2) = [].
Proof.
  destruct (commands_without_a_key (anonymous (fun _ => ok_reply JNull)) empty_world
              (log empty_world [EvResolveKey]) VNone eq_refl eq_refl) as [H _].
  rewrite H. reflexivity.
Defined.

(** ** A response that is already sorted *)

Lemma sort_desc_of_sorted {A} (key : A -> Z) (l : list A) :
  StronglySorted (fun a b => key b <= key a) l -> sort_desc key l = l.
Proof.
  induction 1 as [| x r Hr IH Hx]; [reflexivity|].
  simpl. rewrite IH. destruct r as [| y r']; [reflexivity|].
  simpl. apply Forall_cons in Hx as [Hy _].
  destruct (Z.leb_spec (key y) (key x)); [reflexivity | lia].
Qed.

Lemma zip_sorted (items : list val) :
  forall ns : list Z,
    StronglySorted (fun a b : Z => b <= a) ns ->
    StronglySorted (fun a b : val * Z => b.2 <= a.2) (zip items ns).
Proof.
  induction items as [| x items IH]; intros ns Hns; [constructor|].
  destruct ns as [| n ns]; [constructor|].
  apply StronglySorted_inv in Hns as [Hns Hn]. simpl. constructor; [now apply IH|].
  apply Forall_forall. intros [y m] Hin. simpl.
  apply elem_of_zip_r in Hin. rewrite Forall_forall in Hn. now apply Hn.
Qed.

(** When the submolts of the response already come in non-increasing order
    of subscriber count, the formatted listing leaves every object of the
    response as it was, the list of submolts included. *)
Theorem sorted_response_is_left_alone (limit : Z) (w : world) (ld l : loc)
    (f : gmap string val) (items : list val) (ns : list Z) (r : res unit) (w' : world) :
  heap w !! ld = Some (ODict f) ->
  f !! "submolts"%string = Some (VRef l) ->
  heap w !! l = Some (OList items) ->
  mapM (count_of (heap w)) items = Some ns ->
  StronglySorted (fun a b : Z => b <= a) ns ->
  render_submolts limit false (VRef ld) w = (r, w') ->
  forall l' o, heap w !! l' = Some o -> heap w' !! l' = Some o.
Proof.
  intros Hld Hf Hl Hns Hsorted Hrun.
  destruct (render_submolts_store limit (VRef ld) w r w' Hrun)
    as [H | (ld' & f' & l0 & items' & ns' & Hd & Hld' & Hf' & Hl' & Hns' & Hnew & Hrest)];
    [exact H|].
  injection Hd as <-. rewrite Hld in Hld'. injection Hld' as <-.
  rewrite Hf in Hf'. injection Hf' as <-. rewrite Hl in Hl'. injection Hl' as <-.
  rewrite Hns in Hns'. injection Hns' as <-.
  rewrite (sort_desc_of_sorted snd _ (zip_sorted items ns Hsorted)) in Hnew.
  rewrite fst_zip in Hnew by (apply length_mapM in Hns; lia).
  intros l' o Ho. destruct (decide (l' = l)) as [-> | Hne]; [|now apply Hrest].
  rewrite Hl in Ho. injection Ho as <-. exact Hnew.
Qed.

Lemma sorted_response_is_left_alone_witness :
  let w := (load (JObj [("submolts"%string,
                         JArr [JObj [("subscriber_count"%string, JInt 9)];
                               JObj [("name"%string, JStr "unranked")]])])
              empty_world).2 in
  heap (render_submolts 50 false (VRef 3%nat) w).2 !! 2%nat
  = Some (OList [VRef 0%nat; VRef 1%nat]).
Proof.
  intros w.
  assert (Hld : heap w !! 3%nat
                = Some (ODict (<["submolts"%string := VRef 2%nat]> (∅ : gmap string val))))
    by (vm_compute; reflexivity).
  assert (Hf : (<["submolts"%string := VRef 2%nat]> (∅ : gmap string val))
                 !! "submolts"%string = Some (VRef 2%nat)) by (vm_compute; reflexivity).
  assert (Hl : heap w !! 2%nat = Some (OList [VRef 0%nat; VRef 1%nat]))
    by (vm_compute; reflexivity).
  assert (Hns : mapM (count_of (heap w)) [VRef 0%nat; VRef 1%nat] = Some [9; 0])
    by (vm_compute; reflexivity).
  assert (Hsorted : StronglySorted (fun a b : Z => b <= a) [9; 0]).
  { repeat constructor. lia. }
  exact (sorted_response_is_left_alone 50 w 3%nat 2%nat _ _ _ _ _ Hld Hf Hl Hns Hsorted
           (surjective_pairing _) 2%nat _ Hl).
Defined.

(** ** The largest community of [stats] *)

(** [max_by] returns an element of greatest key, the first of them. *)
Lemma max_by_first_greatest {A} (key : A -> Z) (l : list A) :
  forall best,
    let m := max_by key best l in
    key best <= key m
    /\ Forall (fun x => key x <= key m) l
    /\ (m = best
        \/ exists i, l !! i = Some m /\ key best < key m
                     /\ forall j y, (j < i)%nat -> l !! j = Some y -> key y < key m).
Proof.
  induction l as [| x r IH]; intros best; simpl.
  - repeat split; [lia | constructor | now left].
  - destruct (IH (if key x >? key best then x else best)) as (Hb & Hall & Hwhich).
    destruct (Z.gtb_spec (key x) (key best)) as [Hgt | Hle].
    + split; [lia|]. split; [constructor; [lia | exact Hall]|]. right.
      destruct Hwhich as [-> | (i & Hi & Hlt & Hbefore)].
      * exists 0%nat. repeat split; [lia|]. intros j y Hj. lia.
      * exists (S i). repeat split; [exact Hi | lia |].
        intros [|j] y Hj Hy; simpl in Hy; [injection Hy as <-; lia|].
        apply (Hbefore j y); [lia | exact Hy].
    + split; [lia|]. split; [constructor; [lia | exact Hall]|].
      destruct Hwhich as [-> | (i & Hi & Hlt & Hbefore)]; [now left|]. right.
      exists (S i). repeat split; [exact Hi | exact Hlt |].
      intros [|j] y Hj Hy; simpl in Hy; [injection Hy as <-; lia|].
      apply (Hbefore j y); [lia | exact Hy].
Qed.

(** Among submolts whose subscriber counts are integers or missing, the
    largest community that [stats] reports is one whose count is greatest,
    and the first of these in the order of the response. *)
Theorem largest_community_is_first_greatest (w : world) (items : list val) (ns : list Z) :
  items <> [] ->
  mapM (count_of (heap w)) items = Some ns ->
  exists i x n,
    max_subscribers items w = (Ok x, w)
    /\ items !! i = Some x /\ ns !! i = Some n
    /\ Forall (fun m => m <= n) ns
    /\ forall j m, (j < i)%nat -> ns !! j = Some m -> m < n.
Proof.
  intros Hne Hns. destruct (keys_of_counted w items ns Hns) as (keys & Hk & Hnum).
  pose proof (length_mapM _ _ _ Hns) as Hlen.
  unfold max_subscribers. rewrite (bind_ok _ _ _ _ _ Hk), Hnum. cbn [fmap option_fmap option_map].
  destruct items as [| x0 items]; [contradiction|].
  destruct ns as [| n0 ns]; [discriminate|]. cbn [zip zip_with].
  destruct (max_by_first_greatest snd (zip items ns) (x0, n0)) as (Hb & Hall & Hwhich).
  set (m := max_by snd (x0, n0) (zip items ns)) in *.
  assert (Hbound : Forall (fun k => k <= m.2) (n0 :: ns)).
  { constructor; [exact Hb|]. apply Forall_forall. intros k Hin.
    apply list_elem_of_lookup in Hin as [i Hi].
    assert (Hx : exists x, items !! i = Some x).
    { apply lookup_lt_is_Some. apply lookup_lt_Some in Hi. simpl in Hlen. lia. }
    destruct Hx as [x Hx].
    rewrite Forall_forall in Hall.
    apply (Hall (x, k)). apply list_elem_of_lookup. exists i.
    rewrite lookup_zip_with, Hx. simpl. now rewrite Hi. }
  destruct Hwhich as [Hm | (i & Hi & Hlt & Hbefore)].
  - exists 0%nat, x0, n0. rewrite Hm in *. repeat split; auto.
    intros j k Hj. lia.
  - exists (S i), m.1, m.2.
    apply lookup_zip_with_Some in Hi as (x & k & Hm & Hx & Hk').
    rewrite Hm in *. simpl in *. repeat split; auto.
    intros [|j] k' Hj Hk''; simpl in Hk''; [injection Hk'' as <-; exact Hlt|].
    assert (Hy : exists y, items !! j = Some y).
    { apply lookup_lt_is_Some. apply lookup_lt_Some in Hk''. lia. }
    destruct Hy as [y Hy].
    apply (Hbefore j (y, k')); [lia|].
    rewrite lookup_zip_with, Hy. simpl. now rewrite Hk''.
Qed.

Lemma largest_community_is_first_greatest_witness :
  let w := (load (JArr [JObj [("subscriber_count"%string, JInt 3)];
                        JObj [("subscriber_count"%string, JInt 8)];
                        JObj [("subscriber_count"%string, JInt 8)]]) empty_world).2 in
  exists x, max_subscribers [VRef 0%nat; VRef 1%nat; VRef 2%nat] w = (Ok x, w).
Proof.
  intros w.
  destruct (largest_community_is_first_greatest w [VRef 0%nat; VRef 1%nat; VRef 2%nat]
              [3; 8; 8] ltac:(discriminate) ltac:(vm_compute; reflexivity))
    as (i & x & n & H & _).
  exists x. exact H.
Defined.

(** ** A post and its author *)

Lemma dict_or_missing_app (h ext : list obj) (field : option val) :
  dict_or_missing h field -> dict_or_missing (h ++ ext) field.
Proof.
  destruct field as [[| | | | la]|]; simpl; auto.
  intros [fa H]. exists fa. now apply lookup_app_l_Some.
Qed.

Lemma nested_field_app (h ext : list obj) (p : gmap string val) (outer inner : string)
    (d : val) :
  dict_or_missing h (p !! outer) ->
  nested_field (h ++ ext) p outer inner d = nested_field h p outer inner d.
Proof.
  unfold nested_field, dict_or_missing.
  destruct (p !! outer) as [[| | | | la]|]; auto.
  intros [fa H]. now rewrite (lookup_app_l_Some _ _ _ _ H), H.
Qed.

(** [p.get(outer, {}).get(inner, d)] allocates its default and reads. *)
Lemma get_nested_eval (w : world) (l : loc) (p : gmap string val) (outer inner : string)
    (d : val) :
  heap w !! l = Some (ODict p) ->
  dict_or_missing (heap w) (p !! outer) ->
  get_nested (VRef l) outer inner d w
  = (Ok (nested_field (heap w) p outer inner d),
     {| heap := heap w ++ [ODict ∅]; trace := trace w |}).
Proof.
  intros Hl Hd. unfold get_nested.
  assert (Hget : get_or_dict (VRef l) outer w
                 = (Ok (default (VRef (length (heap w))) (p !! outer)),
                    {| heap := heap w ++ [ODict ∅]; trace := trace w |})).
  { unfold get_or_dict, get_with, bind at 1, fields_of. now rewrite Hl. }
  rewrite (bind_ok _ _ _ _ _ Hget). unfold nested_field, dict_or_missing in *.
  destruct (p !! outer) as [[| | | | la]|]; try contradiction.
  - destruct Hd as [fa Hla]. cbn [default].
    rewrite (get_dict _ la fa inner d); [now rewrite Hla|].
    cbn [heap]. now apply lookup_app_l_Some.
  - cbn [default].
    rewrite (get_dict _ (length (heap w)) ∅ inner d); [now rewrite lookup_empty|].
    cbn [heap]. rewrite lookup_app_r by lia. now rewrite Nat.sub_diag.
Qed.

(** ** The body of a fetched post *)

Lemma posted_as_format : stamping format_timestamp_dyn.
Proof.
  intros [| b | n | s | l]; try reflexivity.
  destruct s as [| c s]; [vm_compute; reflexivity|]. simpl. eauto.
Qed.

(** For a response whose [post] is a non-empty object with a non-empty
    string as content (author and submolt being objects or missing), the
    content and the post identifier holding no opening bracket, which the
    console would read as markup, [fetch] prints one panel, a blank line,
    the whole content as it is, whatever its length and its line breaks, a
    blank line and the line with the post identifier, and returns normally.
    Of the Posted cell of the panel the statement fixes only what does not
    depend on the grammar of [fromisoformat]. *)
Theorem fetch_prints_the_whole_post (post_id : string) (w : world) (ld lp : loc)
    (f p : gmap string val) (c : ascii) (s : string) :
  heap w !! ld = Some (ODict f) ->
  f !! "post"%string = Some (VRef lp) ->
  heap w !! lp = Some (ODict p) ->
  dict_or_missing (heap w) (p !! "author"%string) ->
  dict_or_missing (heap w) (p !! "submolt"%string) ->
  p !! "content"%string = Some (VStr (String c s)) ->
  markup_free (String c s) = true ->
  markup_free post_id = true ->
  exists stamp,
    stamping stamp
    /\ render_fetch post_id false (VRef ld) w
       = (Ok tt,
          {| heap := heap w ++ [ODict ∅; ODict ∅];
             trace := trace w ++ [post_panel stamp (heap w) p; EvPrint [];
                                  EvPrint [Raw (VStr (String c s))]; EvPrint [];
                                  EvPrint [Lit "[dim]Post ID: "; str (VStr post_id);
                                           Lit "[/dim]"]] |}).
Proof.
  intros Hld Hf Hlp Hauthor Hsubmolt Hcontent Hplain Hid.
  exists format_timestamp_dyn. split; [exact posted_as_format|].
  assert (Hne : p <> ∅).
  { intros ->. rewrite lookup_empty in Hcontent. discriminate. }
  unfold render_fetch.
  assert (Hpost : get_none (VRef ld) "post" w = (Ok (VRef lp), w)).
  { unfold get_none. rewrite (get_dict w ld f _ _ Hld), Hf. reflexivity. }
  rewrite (bind_ok _ _ _ _ _ Hpost).
  assert (Htruthy : is_true (VRef lp) w = (Ok true, w)).
  { unfold is_true, truthy. rewrite Hlp. now rewrite bool_decide_eq_false_2. }
  rewrite (bind_ok _ _ _ _ _ Htruthy). cbn [negb].
  rewrite (bind_ok _ _ _ _ _ (get_dict w lp p "title" _ Hlp)).
  rewrite (bind_ok _ _ _ _ _ (get_dict w lp p "content" _ Hlp)), Hcontent.
  rewrite (bind_ok _ _ _ _ _ (get_nested_eval w lp p "author" "name" _ Hlp Hauthor)).
  set (w1 := {| heap := heap w ++ [ODict ∅]; trace := trace w |}).
  assert (Hlp1 : heap w1 !! lp = Some (ODict p)) by now apply lookup_app_l_Some.
  rewrite (bind_ok _ _ _ _ _ (get_dict w1 lp p "upvotes" _ Hlp1)).
  rewrite (bind_ok _ _ _ _ _ (get_dict w1 lp p "downvotes" _ Hlp1)).
  rewrite (bind_ok _ _ _ _ _ (get_dict w1 lp p "comment_count" _ Hlp1)).
  rewrite (bind_ok _ _ _ _ _ (get_dict w1 lp p "created_at" _ Hlp1)).
  rewrite (bind_ok _ _ _ _ _
             (get_nested_eval w1 lp p "submolt" "display_name" _ Hlp1
                (dict_or_missing_app _ _ _ Hsubmolt))).
  cbn [heap w1]. rewrite (nested_field_app _ _ _ _ _ _ Hsubmolt).
  rewrite (bind_ok _ _ _ _ _ (emit_eval _ _)).
  set (w2 := log _ _).
  assert (Hcontent_true : is_true (VStr (String c s)) w2 = (Ok true, w2)) by reflexivity.
  cbn [default]. rewrite (bind_ok _ _ _ _ _ Hcontent_true).
  assert (Hbody : (console_print [] ;;; console_print [Raw (VStr (String c s))]) w2
                  = (Ok tt, log w2 [EvPrint []; EvPrint [Raw (VStr (String c s))]])).
  { now rewrite console_print_bind, console_print_eval, log_log by plain. }
  rewrite (bind_ok _ _ _ _ _ Hbody).
  rewrite console_print_bind, console_print_eval, !log_log by plain.
  unfold w2, w1, log, post_panel. cbn [heap trace].
  rewrite <- !(app_assoc (heap w)), <- !(app_assoc (trace w)). reflexivity.
Qed.

Lemma fetch_prints_the_whole_post_witness :
  let w := (load (JObj [("post"%string,
                         JObj [("title"%string, JStr "T");
                               ("content"%string, JStr "  two
lines  ")])]) empty_world).2 in
  exists panel,
    trace (render_fetch "p1" false (VRef 1%nat) w).2
    = [panel; EvPrint []; EvPrint [Raw (VStr "  two
lines  ")]; EvPrint [];
       EvPrint [Lit "[dim]Post ID: "; str (VStr "p1"); Lit "[/dim]"]].
Proof.
  intros w.
  assert (Hld : heap w !! 1%nat
                = Some (ODict (<["post"%string := VRef 0%nat]> (∅ : gmap string val))))
    by (vm_compute; reflexivity).
  assert (Hf : (<["post"%string := VRef 0%nat]> (∅ : gmap string val)) !! "post"%string
               = Some (VRef 0%nat)) by (vm_compute; reflexivity).
  pose (p := <["content"%string := VStr "  two
lines  "]> (<["title"%string := VStr "T"]> (∅ : gmap string val))).
  assert (Hlp : heap w !! 0%nat = Some (ODict p)) by (vm_compute; reflexivity).
  assert (Ha : dict_or_missing (heap w) (p !! "author"%string)) by (vm_compute; exact I).
  assert (Hs : dict_or_missing (heap w) (p !! "submolt"%string)) by (vm_compute; exact I).
  assert (Hc : p !! "content"%string = Some (VStr "  two
lines  ")) by (vm_compute; reflexivity).
  destruct (fetch_prints_the_whole_post "p1" w 1%nat 0%nat _ p _ _ Hld Hf Hlp Ha Hs Hc
              eq_refl eq_refl) as (stamp & _ & ->).
  eexists. reflexivity.
Defined.

(** ** The listing of [browse] *)

Lemma truthy_app (h ext : list obj) (v : val) :
  known h v -> truthy (h ++ ext) v = truthy h v.
Proof.
  destruct v as [| | | | l]; try reflexivity.
  intros [o Ho]. unfold truthy. now rewrite (lookup_app_l_Some _ _ _ _ Ho), Ho.
Qed.

Lemma falsy_app (h ext : list obj) (v : val) :
  truthy h v = false -> truthy (h ++ ext) v = false.
Proof.
  destruct v as [| | | | l]; try (intros H; exact H).
  unfold truthy. destruct (h !! l) as [o|] eqn:Ho; [|discriminate].
  now rewrite (lookup_app_l_Some _ _ _ _ Ho).
Qed.

Lemma vote_color_eval (v : val) (n : Z) (w : world) :
  as_number v = Some n -> vote_color v w = (Ok (tier n), w).
Proof.
  intros H. unfold vote_color, greater_than, tier. rewrite H.
  unfold bind, ret. destruct (n >? 10000); [reflexivity|].
  destruct (n >? 1000); [reflexivity|]. now destruct (n >? 100).
Qed.

Lemma browsable_app (h ext : list obj) (v : val) :
  browsable h v -> browsable (h ++ ext) v.
Proof.
  unfold browsable. destruct v as [| | | | l]; auto.
  destruct (h !! l) as [[items|p]|] eqn:Hl; try contradiction.
  rewrite (lookup_app_l_Some _ _ _ _ Hl). intros (Hn & Ha & Hc & Hp & Ht & Hau & Hcc & Hid).
  rewrite (nested_field_app _ _ _ _ _ _ Ha).
  repeat split; auto using dict_or_missing_app.
  unfold text_or_falsy in *.
  destruct (default (VStr EmptyString) (p !! "content"%string)); auto using falsy_app.
Qed.

Lemma post_lines_app (h ext : list obj) (show_ids no_truncate : bool) (v : val) :
  browsable h v ->
  post_lines (h ++ ext) show_ids no_truncate v = post_lines h show_ids no_truncate v.
Proof.
  unfold browsable, post_lines. destruct v as [| | | | l]; auto.
  destruct (h !! l) as [[items|p]|] eqn:Hl; try contradiction.
  rewrite (lookup_app_l_Some _ _ _ _ Hl). intros (_ & Ha & _).
  now rewrite (nested_field_app _ _ _ _ _ _ Ha).
Qed.

(** One browsable post: its lines, and one empty dict allocated for the
    default of the author. *)
Lemma browse_post_eval (show_ids no_truncate : bool) (v : val) (w : world) :
  browsable (heap w) v ->
  browse_post show_ids no_truncate v w
  = (Ok tt, {| heap := heap w ++ [ODict ∅];
               trace := trace w ++ post_lines (heap w) show_ids no_truncate v |}).
Proof.
  unfold browsable, post_lines. destruct v as [| | | | l]; try contradiction.
  destruct (heap w !! l) as [[items|p]|] eqn:Hl; try contradiction.
  intros (Hnum & Ha & Hc & Hp & Ht & Hau & Hcc & Hid).
  pose proof (as_number_plain _ Hnum) as Hup. destruct Hnum as [n Hn]. unfold browse_post.
  rewrite (bind_ok _ _ _ _ _ (get_dict w l p "upvotes" _ Hl)).
  rewrite (bind_ok _ _ _ _ _ (get_dict w l p "title" _ Hl)).
  rewrite (bind_ok _ _ _ _ _ (get_nested_eval w l p "author" "name" _ Hl Ha)).
  set (w1 := {| heap := heap w ++ [ODict ∅]; trace := trace w |}).
  assert (Hl1 : heap w1 !! l = Some (ODict p)) by now apply lookup_app_l_Some.
  rewrite (bind_ok _ _ _ _ _ (get_dict w1 l p "comment_count" _ Hl1)).
  rewrite (bind_ok _ _ _ _ _ (get_dict w1 l p "id" _ Hl1)).
  rewrite (bind_ok _ _ _ _ _ (vote_color_eval _ n w1 Hn)), Hn. cbn [default].
  rewrite console_print_bind by plain.
  rewrite console_print_bind, log_log by plain.
  set (ids := if show_ids
              then [EvPrint [Lit "      ID: ";
                             str (default (VStr EmptyString) (p !! "id"%string))]]
              else []).
  set (w2 := log w1 _).
  assert (Hids : when show_ids
                   (console_print
                      [Lit "      ID: "; str (default (VStr EmptyString) (p !! "id"%string))])
                   w2 = (Ok tt, log w2 ids)).
  { unfold ids. destruct show_ids; [apply console_print_eval; plain|].
    unfold when, ret. now rewrite log_nil. }
  rewrite (bind_ok _ _ _ _ _ Hids). unfold w2. rewrite log_log.
  set (w3 := log w1 _).
  assert (Hl3 : heap w3 !! l = Some (ODict p)) by exact Hl1.
  rewrite (bind_ok _ _ _ _ _ (get_dict w3 l p "content" _ Hl3)).
  assert (Hdone : forall evs, log (log w3 evs) [EvPrint []]
                  = {| heap := heap w ++ [ODict ∅];
                       trace := trace w ++
                         ([EvPrint [Lit "["; Lit (tier n); Lit "]";
                                    Fmt ">6" (default (VInt 0) (p !! "upvotes"%string));
                                    Lit "👍[/"; Lit (tier n); Lit "] [bold]";
                                    str (default (VStr "No title") (p !! "title"%string));
                                    Lit "[/bold]"];
                           EvPrint [Lit "      [dim]by ";
                                    str (nested_field (heap w) p "author" "name"
                                           (VStr "Unknown"));
                                    Lit " | ";
                                    str (default (VInt 0) (p !! "comment_count"%string));
                                    Lit " comments[/dim]"]]
                          ++ ids ++ evs ++ [EvPrint []]) |}).
  { intros evs. unfold w3, w1, log. cbn [heap trace].
    f_equal. rewrite <- !app_assoc. reflexivity. }
  unfold text_or_falsy in Hc.
  destruct (default (VStr EmptyString) (p !! "content"%string)) as [|b|k|s|lc] eqn:Econtent.
  - transitivity (Ok tt, log (log w3 []) [EvPrint []]);
      [now rewrite log_nil | rewrite Hdone; reflexivity].
  - assert (Hfalse : is_true (VBool b) w3 = (Ok false, w3)).
    { unfold is_true. now rewrite (falsy_app _ [ODict ∅] _ Hc). }
    rewrite (bind_ok _ _ _ _ _ Hfalse).
    transitivity (Ok tt, log (log w3 []) [EvPrint []]);
      [now rewrite log_nil | rewrite Hdone; reflexivity].
  - assert (Hfalse : is_true (VInt k) w3 = (Ok false, w3)).
    { unfold is_true. now rewrite (falsy_app _ [ODict ∅] _ Hc). }
    rewrite (bind_ok _ _ _ _ _ Hfalse).
    transitivity (Ok tt, log (log w3 []) [EvPrint []]);
      [now rewrite log_nil | rewrite Hdone; reflexivity].
  - destruct s as [|c s].
    + transitivity (Ok tt, log (log w3 []) [EvPrint []]);
        [now rewrite log_nil | rewrite Hdone; reflexivity].
    + assert (Hprev : markup_free (maybe_truncate (String c s) 120 no_truncate) = true)
        by (apply markup_free_maybe_truncate; exact Hp).
      transitivity
        (Ok tt,
         log (log w3 [EvPrint [Lit "      [italic]";
                               str (VStr (maybe_truncate (String c s) 120 no_truncate));
                               Lit "[/italic]"]]) [EvPrint []]);
        [| rewrite Hdone; reflexivity].
      assert (Htrue : is_true (VStr (String c s)) w3 = (Ok true, w3)) by reflexivity.
      rewrite (bind_ok _ _ _ _ _ Htrue).
      assert (Hshow : (preview <- maybe_truncate_dyn (VStr (String c s)) 120 no_truncate ;;
                       console_print [Lit "      [italic]"; str preview; Lit "[/italic]"]) w3
                      = (Ok tt,
                         log w3 [EvPrint [Lit "      [italic]";
                                          str (VStr (maybe_truncate (String c s) 120
                                                       no_truncate));
                                          Lit "[/italic]"]])).
      { unfold maybe_truncate_dyn. unfold bind at 1, ret at 1. cbn [fst snd].
        apply console_print_eval. plain. }
      rewrite (bind_ok _ _ _ _ _ Hshow). apply console_print_eval. reflexivity.
  - assert (Hfalse : is_true (VRef lc) w3 = (Ok false, w3)).
    { unfold is_true. change (heap w3) with (heap w ++ [ODict ∅]).
      now rewrite (falsy_app _ [ODict ∅] _ Hc). }
    rewrite (bind_ok _ _ _ _ _ Hfalse).
    transitivity (Ok tt, log (log w3 []) [EvPrint []]);
      [now rewrite log_nil | rewrite Hdone; reflexivity].
Qed.

Lemma post_lines_all_app (h ext : list obj) (show_ids no_truncate : bool)
    (items : list val) :
  Forall (browsable h) items ->
  flat_map (post_lines (h ++ ext) show_ids no_truncate) items
  = flat_map (post_lines h show_ids no_truncate) items.
Proof.
  induction 1 as [|x r Hx Hr IH]; [reflexivity|].
  cbn [flat_map]. now rewrite IH, (post_lines_app _ _ _ _ _ Hx).
Qed.

(** The posts in order, one block each. *)
Lemma browse_posts_eval (show_ids no_truncate : bool) (items : list val) :
  forall w, Forall (browsable (heap w)) items ->
  for_each (browse_post show_ids no_truncate) items w
  = (Ok tt, {| heap := heap w ++ replicate (length items) (ODict ∅);
               trace := trace w
                        ++ flat_map (post_lines (heap w) show_ids no_truncate) items |}).
Proof.
  induction items as [|v items IH]; intros w Hall.
  - simpl. unfold ret. destruct w as [h t]. cbn [heap trace]. now rewrite !app_nil_r.
  - apply Forall_cons_1 in Hall as [Hv Hall]. cbn [for_each].
    rewrite (bind_ok _ _ _ _ _ (browse_post_eval _ _ v w Hv)).
    rewrite IH; cbn [heap trace].
    + f_equal. f_equal.
      * rewrite <- app_assoc. reflexivity.
      * rewrite <- app_assoc. cbn [flat_map]. f_equal. f_equal.
        now apply post_lines_all_app.
    + eapply Forall_impl; [exact Hall|]. intros x. apply browsable_app.
Qed.

(** For a response whose [posts] is a non-empty list of posts (objects whose
    vote count is an integer or missing, whose author is an object or
    missing and whose content is a string, missing or falsy), where the sort
    order, the texts shown of each post and the [next_offset] hold no
    opening bracket, which the console would read as markup, and
    [offset + limit] is an integer that Python prints, [browse] prints the
    two header lines with the number of posts received, then the block of
    each post in the order of the response, and then the line that proposes
    the next page exactly when [has_more] is truthy; the offset it proposes
    is the [next_offset] of the response, or else [offset + limit] with the
    limit as it was asked for.  The response is left as it is. *)
Theorem browse_prints_posts_then_hint (sort : string) (limit offset : Z)
    (show_ids no_truncate : bool) (w : world) (ld lps : loc) (f : gmap string val)
    (items : list val) :
  heap w !! ld = Some (ODict f) ->
  f !! "posts"%string = Some (VRef lps) ->
  heap w !! lps = Some (OList items) ->
  items <> [] ->
  Forall (browsable (heap w)) items ->
  known (heap w) (default VNone (f !! "has_more"%string)) ->
  markup_free sort = true ->
  plain_value (default (VInt (offset + limit)) (f !! "next_offset"%string)) = true ->
  printable_int (offset + limit) ->
  render_browse sort limit offset false show_ids no_truncate (VRef ld) w
  = (Ok tt,
     {| heap := heap w ++ OList [] :: replicate (length items) (ODict ∅);
        trace := trace w
                 ++ browse_headers sort (Z.of_nat (length items)) offset
                 ++ flat_map (post_lines (heap w) show_ids no_truncate) items
                 ++ (if truthy (heap w) (default VNone (f !! "has_more"%string))
                     then [more_line (default (VInt (offset + limit))
                                        (f !! "next_offset"%string))]
                     else []) |}).
Proof.
  intros Hld Hf Hlps Hne Hall Hknown Hsort Hnext _. unfold render_browse.
  set (w0 := {| heap := heap w ++ [OList []]; trace := trace w |}).
  assert (Hposts : get_or_list (VRef ld) "posts" w = (Ok (VRef lps), w0)).
  { unfold get_or_list, get_with, bind at 1, fields_of. now rewrite Hld, Hf. }
  rewrite (bind_ok _ _ _ _ _ Hposts).
  assert (Hlps0 : heap w0 !! lps = Some (OList items)) by now apply lookup_app_l_Some.
  assert (Hld0 : heap w0 !! ld = Some (ODict f)) by now apply lookup_app_l_Some.
  assert (Hany : is_true (VRef lps) w0 = (Ok true, w0)).
  { unfold is_true, truthy. rewrite Hlps0. now destruct items. }
  rewrite (bind_ok _ _ _ _ _ Hany). cbn [negb].
  rewrite console_print_bind by plain.
  set (w1 := log w0 _).
  rewrite (bind_ok _ _ _ _ _ (py_len_list w1 lps items Hlps0)).
  rewrite console_print_bind by plain. unfold w1. rewrite log_log.
  set (w2 := log w0 _).
  rewrite (bind_ok _ _ _ _ _ (py_iter_list w2 lps items Hlps0)).
  assert (Hall2 : Forall (browsable (heap w2)) items).
  { eapply Forall_impl; [exact Hall|]. intros x. apply browsable_app. }
  rewrite (bind_ok _ _ _ _ _ (browse_posts_eval show_ids no_truncate items w2 Hall2)).
  set (w3 := {| heap := heap w2 ++ _; trace := _ |}).
  assert (Hld3 : heap w3 !! ld = Some (ODict f)) by now apply lookup_app_l_Some.
  assert (Hmore : get_none (VRef ld) "has_more" w3
                  = (Ok (default VNone (f !! "has_more"%string)), w3)).
  { unfold get_none. now rewrite (get_dict w3 ld f _ _ Hld3). }
  rewrite (bind_ok _ _ _ _ _ Hmore).
  assert (Htruth : is_true (default VNone (f !! "has_more"%string)) w3
                   = (Ok (truthy (heap w) (default VNone (f !! "has_more"%string))), w3)).
  { unfold is_true.
    change (heap w3) with ((heap w ++ [OList []]) ++ replicate (length items) (ODict ∅)).
    now rewrite <- app_assoc, (truthy_app _ _ _ Hknown). }
  rewrite (bind_ok _ _ _ _ _ Htruth).
  change (heap w2) with (heap w ++ [OList []]) in w3.
  assert (Hlines : flat_map (post_lines (heap w ++ [OList []]) show_ids no_truncate) items
                   = flat_map (post_lines (heap w) show_ids no_truncate) items)
    by now apply post_lines_all_app.
  destruct (truthy (heap w) (default VNone (f !! "has_more"%string))).
  - rewrite (bind_ok _ _ _ _ _ (get_dict w3 ld f "next_offset" _ Hld3)), console_print_eval by plain.
    unfold w3, w2, w0, log, more_line, browse_headers. cbn [heap trace].
    rewrite Hlines. f_equal. f_equal.
    + now rewrite <- app_assoc.
    + rewrite <- !app_assoc. reflexivity.
  - unfold ret, w3, w2, w0, log, browse_headers. cbn [heap trace].
    rewrite Hlines, app_nil_r. f_equal. f_equal.
    + now rewrite <- app_assoc.
    + rewrite <- !app_assoc. reflexivity.
Qed.

Lemma browse_prints_posts_then_hint_witness :
  let w := (load (JObj [("posts"%string,
                         JArr [JObj [("upvotes"%string, JInt 12000);
                                     ("content"%string, JStr "hi")];
                               JObj []]);
                        ("has_more"%string, JBool true)]) empty_world).2 in
  last (trace (render_browse "hot" 100 0 false false false (VRef 3%nat) w).2)
  = Some (more_line (VInt 100))
  /\ length (trace (render_browse "hot" 100 0 false false false (VRef 3%nat) w).2) = 10%nat.
Proof.
  intros w.
  pose (f := <["has_more"%string := VBool true]>
               (<["posts"%string := VRef 2%nat]> (∅ : gmap string val))).
  assert (Hld : heap w !! 3%nat = Some (ODict f)) by (vm_compute; reflexivity).
  assert (Hf : f !! "posts"%string = Some (VRef 2%nat)) by (vm_compute; reflexivity).
  assert (Hlps : heap w !! 2%nat = Some (OList [VRef 0%nat; VRef 1%nat]))
    by (vm_compute; reflexivity).
  assert (Hne : [VRef 0%nat; VRef 1%nat] <> []) by discriminate.
  assert (Hall : Forall (browsable (heap w)) [VRef 0%nat; VRef 1%nat]).
  { repeat constructor; vm_compute; eauto. }
  assert (Hknown : known (heap w) (default VNone (f !! "has_more"%string)))
    by (vm_compute; exact I).
  rewrite (browse_prints_posts_then_hint "hot" 100 0 false false w 3%nat 2%nat f
             _ Hld Hf Hlps Hne Hall Hknown eq_refl eq_refl
             ltac:(vm_compute; reflexivity)).
  split; vm_compute; reflexivity.
Defined.

(** ** The table of [search] *)

Lemma bind_raise {A B} (m : M A) (k : A -> M B) (w w1 : world) (e : exn) :
  m w = (Raise e, w1) -> bind m k w = (Raise e, w1).
Proof. intros E. unfold bind. now rewrite E. Qed.

(** A choice on the type of a result commutes with what is done with it. *)
Lemma post_or_other {A B} (g : A -> B) (c : val) (x y : A) :
  g (match c with VStr "post" => x | _ => y end)
  = match c with VStr "post" => g x | _ => g y end.
Proof.
  destruct c as [| | |s|]; try reflexivity.
  do 4 (destruct s as [|[[] [] [] [] [] [] [] []] s]; try reflexivity).
  now destruct s.
Qed.

Lemma item_id_eval (w : world) (l : loc) (p : gmap string val) :
  heap w !! l = Some (ODict p) ->
  (match default (VStr "unknown") (p !! "type"%string) with
   | VStr "post" => get_none (VRef l) "id"
   | _ => get (VRef l) "post_id" (VStr EmptyString)
   end) w = (Ok (item_id p), w).
Proof.
  intros Hl. rewrite (post_or_other (fun m : M val => m w)).
  unfold get_none. rewrite !(get_dict w l p _ _ Hl).
  unfold item_id. now rewrite (post_or_other (fun v => (Ok v, w))).
Qed.

Lemma maybe_truncate_dyn_text (v : val) (max_length : Z) (no_truncate : bool) (w : world) :
  text_or_falsy (heap w) v ->
  maybe_truncate_dyn v max_length no_truncate w
  = (Ok match v with
        | VStr s => VStr (maybe_truncate s max_length no_truncate)
        | _ => VStr EmptyString
        end, w).
Proof.
  unfold text_or_falsy, maybe_truncate_dyn.
  destruct v; try reflexivity; intros H;
    unfold bind, is_true; now rewrite H.
Qed.

Lemma text_or_falsy_app (h ext : list obj) (v : val) :
  text_or_falsy h v -> text_or_falsy (h ++ ext) v.
Proof. unfold text_or_falsy. destruct v; auto using falsy_app. Qed.

Lemma known_app (h ext : list obj) (v : val) : known h v -> known (h ++ ext) v.
Proof.
  destruct v as [| | | |l]; auto. intros [o Ho]. exists o. now apply lookup_app_l_Some.
Qed.

Lemma shown_title_app (h ext : list obj) (p : gmap string val) :
  known h (default VNone (p !! "title"%string)) ->
  shown_title (h ++ ext) p = shown_title h p.
Proof. intros H. unfold shown_title. now rewrite (truthy_app _ _ _ H). Qed.

Lemma searchable_app (h ext : list obj) (v : val) :
  searchable h v -> searchable (h ++ ext) v.
Proof.
  unfold searchable. destruct v as [| | | |l]; auto.
  destruct (h !! l) as [[items|p]|] eqn:Hl; try contradiction.
  rewrite (lookup_app_l_Some _ _ _ _ Hl).
  intros (Ht & Ha & Hk & Hs & Hi & Hp & Hid & Hau & Hup & Hsim).
  rewrite (shown_title_app _ _ _ Hk), (truthy_app _ _ _ Hi),
    (nested_field_app _ _ _ _ _ _ Ha).
  repeat split; auto using dict_or_missing_app, known_app, text_or_falsy_app.
Qed.

Lemma result_row_app (h ext : list obj) (no_truncate : bool) (v : val) :
  searchable h v -> result_row (h ++ ext) no_truncate v = result_row h no_truncate v.
Proof.
  unfold searchable, result_row. destruct v as [| | | |l]; auto.
  destruct (h !! l) as [[items|p]|] eqn:Hl; try contradiction.
  rewrite (lookup_app_l_Some _ _ _ _ Hl). intros (_ & Ha & Hk & _ & Hi & _).
  now rewrite (shown_title_app _ _ _ Hk), (truthy_app _ _ _ Hi),
    (nested_field_app _ _ _ _ _ _ Ha).
Qed.

Lemma format_percent (v : val) (w : world) :
  percentable v = true -> format_number ".0%" v w = (Ok (Fmt ".0%" v), w).
Proof.
  destruct v as [| b | n | s | l]; try discriminate; [reflexivity|].
  unfold percentable, format_number. intros H. apply Z.ltb_lt in H.
  destruct (Z.leb_spec FLOAT_LIMIT (Z.abs n)); [lia|]. now rewrite andb_false_r.
Qed.

Lemma percentable_plain (v : val) : percentable v = true -> plain_value v = true.
Proof. now destruct v. Qed.

(** The row of a searchable result is one that the table takes and shows
    as it is. *)
Lemma result_row_searchable (h : list obj) (no_truncate : bool) (v : val) :
  searchable h v ->
  forallb cell_accepted (result_row h no_truncate v) = true
  /\ forallb plain_line (result_row h no_truncate v) = true.
Proof.
  unfold searchable, result_row. destruct v as [| | | | l]; try tauto.
  destruct (h !! l) as [[a|p]|]; try tauto.
  intros ((t & -> & Ht) & _ & _ & _ & _ & Hp & Hid & Hau & Hup & Hsim).
  unfold plain_cell in Hid, Hau.
  apply andb_prop in Hid as [Hid1 Hid2]. apply andb_prop in Hau as [Hau1 Hau2].
  cbn [forallb cell_accepted plain_line plain_seg str plain_value].
  rewrite Hid1, Hid2, Hau1, Hau2, Hup, Ht, (percentable_plain _ Hsim).
  destruct (shown_title h p) as [| | | s |];
    cbn [renderable plain_value plain_text] in *; try (split; reflexivity).
  rewrite markup_free_maybe_truncate by exact Hp. split; reflexivity.
Qed.

(** One searchable result: its row, and one empty dict allocated for the
    default of the author. *)
Lemma search_row_eval (no_truncate : bool) (v : val) (w : world) :
  searchable (heap w) v ->
  search_row no_truncate v w
  = (Ok (result_row (heap w) no_truncate v),
     {| heap := heap w ++ [ODict ∅]; trace := trace w |}).
Proof.
  unfold searchable, result_row. destruct v as [| | | |l]; try contradiction.
  destruct (heap w !! l) as [[items|p]|] eqn:Hl; try contradiction.
  pose proof (result_row_searchable (heap w) no_truncate (VRef l)) as Hrow.
  unfold searchable, result_row in Hrow. rewrite Hl in Hrow.
  intros Hv. destruct (Hrow Hv) as [Hacc _].
  destruct Hv as ((t & Ht & _) & Ha & Hk & Hs & Hi & _ & _ & _ & _ & Hsim).
  unfold search_row.
  rewrite (bind_ok _ _ _ _ _ (get_dict w l p "type" _ Hl)).
  assert (Htitle0 : get_none (VRef l) "title" w
                    = (Ok (default VNone (p !! "title"%string)), w)).
  { unfold get_none. now rewrite (get_dict w l p _ _ Hl). }
  rewrite (bind_ok _ _ _ _ _ Htitle0).
  assert (Hhas : is_true (default VNone (p !! "title"%string)) w
                 = (Ok (truthy (heap w) (default VNone (p !! "title"%string))), w))
    by reflexivity.
  rewrite (bind_ok _ _ _ _ _ Hhas).
  assert (Htitle : (if truthy (heap w) (default VNone (p !! "title"%string))
                    then ret (default VNone (p !! "title"%string))
                    else get (VRef l) "content" (VStr EmptyString)) w
                   = (Ok (shown_title (heap w) p), w)).
  { unfold shown_title.
    destruct (truthy (heap w) (default VNone (p !! "title"%string)));
      [reflexivity | now rewrite (get_dict w l p _ _ Hl)]. }
  rewrite (bind_ok _ _ _ _ _ Htitle).
  rewrite (bind_ok _ _ _ _ _ (get_nested_eval w l p "author" "name" _ Hl Ha)).
  set (w1 := {| heap := heap w ++ [ODict ∅]; trace := trace w |}).
  assert (Hl1 : heap w1 !! l = Some (ODict p)) by now apply lookup_app_l_Some.
  rewrite (bind_ok _ _ _ _ _ (get_dict w1 l p "upvotes" _ Hl1)).
  rewrite (bind_ok _ _ _ _ _ (get_dict w1 l p "similarity" _ Hl1)).
  rewrite (bind_ok _ _ _ _ _ (item_id_eval w1 l p Hl1)).
  rewrite Ht.
  assert (Hupper : upper (VStr t) w1 = (Ok [Upper (VStr t)], w1)) by reflexivity.
  rewrite (bind_ok _ _ _ _ _ Hupper).
  assert (Hshown : or_empty_dyn (item_id p) w1
                   = (Ok (if truthy (heap w) (item_id p) then item_id p
                          else VStr EmptyString), w1)).
  { unfold or_empty_dyn, bind, is_true, ret.
    change (heap w1) with (heap w ++ [ODict ∅]). now rewrite (truthy_app _ _ _ Hi). }
  rewrite (bind_ok _ _ _ _ _ Hshown).
  rewrite (bind_ok _ _ _ _ _
             (maybe_truncate_dyn_text _ 50 no_truncate w1
                (text_or_falsy_app _ [ODict ∅] _ Hs))).
  rewrite (bind_ok _ _ _ _ _ (format_percent _ w1 Hsim)).
  apply add_row_eval. rewrite Ht in Hacc. exact Hacc.
Qed.

Lemma result_rows_plain (h : list obj) (no_truncate : bool) (items : list val) :
  Forall (searchable h) items ->
  forallb (forallb plain_line) (map (result_row h no_truncate) items) = true.
Proof.
  induction 1 as [| v vs Hv _ IH]; [reflexivity|].
  cbn [map forallb]. rewrite IH.
  now rewrite (proj2 (result_row_searchable h no_truncate v Hv)).
Qed.

(** The rows in order, one for each result. *)
Lemma search_rows_eval (no_truncate : bool) (items : list val) :
  forall w, Forall (searchable (heap w)) items ->
  map_m (search_row no_truncate) items w
  = (Ok (map (result_row (heap w) no_truncate) items),
     {| heap := heap w ++ replicate (length items) (ODict ∅); trace := trace w |}).
Proof.
  induction items as [|v items IH]; intros w Hall.
  - simpl. unfold ret. destruct w as [h t]. cbn [heap trace]. now rewrite app_nil_r.
  - apply Forall_cons_1 in Hall as [Hv Hall]. cbn [map_m].
    rewrite (bind_ok _ _ _ _ _ (search_row_eval _ v w Hv)).
    assert (Hall1 : Forall (searchable (heap w ++ [ODict ∅])) items).
    { eapply Forall_impl; [exact Hall|]. intros x. apply searchable_app. }
    rewrite (bind_ok _ _ _ _ _
               (IH {| heap := heap w ++ [ODict ∅]; trace := trace w |} Hall1)).
    unfold ret. cbn [heap trace map length replicate].
    f_equal.
    + f_equal. f_equal. apply map_ext_Forall. eapply Forall_impl; [exact Hall|].
      intros x. apply result_row_app.
    + f_equal. now rewrite <- app_assoc.
Qed.

(** A result without a usable type stops the row with AttributeError. *)
Lemma search_row_untyped (no_truncate : bool) (v : val) (w : world) :
  untyped (heap w) v ->
  search_row no_truncate v w
  = (Raise AttributeError, {| heap := heap w ++ [ODict ∅]; trace := trace w |}).
Proof.
  unfold untyped. destruct v as [| | | |l]; try contradiction.
  destruct (heap w !! l) as [[items|p]|] eqn:Hl; try contradiction.
  intros [Ht Ha]. unfold search_row.
  rewrite (bind_ok _ _ _ _ _ (get_dict w l p "type" _ Hl)).
  assert (Htitle0 : get_none (VRef l) "title" w
                    = (Ok (default VNone (p !! "title"%string)), w)).
  { unfold get_none. now rewrite (get_dict w l p _ _ Hl). }
  rewrite (bind_ok _ _ _ _ _ Htitle0).
  assert (Hhas : is_true (default VNone (p !! "title"%string)) w
                 = (Ok (truthy (heap w) (default VNone (p !! "title"%string))), w))
    by reflexivity.
  rewrite (bind_ok _ _ _ _ _ Hhas).
  assert (Htitle : (if truthy (heap w) (default VNone (p !! "title"%string))
                    then ret (default VNone (p !! "title"%string))
                    else get (VRef l) "content" (VStr EmptyString)) w
                   = (Ok (shown_title (heap w) p), w)).
  { unfold shown_title.
    destruct (truthy (heap w) (default VNone (p !! "title"%string)));
      [reflexivity | now rewrite (get_dict w l p _ _ Hl)]. }
  rewrite (bind_ok _ _ _ _ _ Htitle).
  rewrite (bind_ok _ _ _ _ _ (get_nested_eval w l p "author" "name" _ Hl Ha)).
  set (w1 := {| heap := heap w ++ [ODict ∅]; trace := trace w |}).
  assert (Hl1 : heap w1 !! l = Some (ODict p)) by now apply lookup_app_l_Some.
  rewrite (bind_ok _ _ _ _ _ (get_dict w1 l p "upvotes" _ Hl1)).
  rewrite (bind_ok _ _ _ _ _ (get_dict w1 l p "similarity" _ Hl1)).
  rewrite (bind_ok _ _ _ _ _ (item_id_eval w1 l p Hl1)).
  apply bind_raise.
  destruct (default (VStr "unknown") (p !! "type"%string)); try reflexivity; contradiction.
Qed.

Lemma search_rows_untyped (no_truncate : bool) (good : list val) (bad : val)
    (rest : list val) :
  forall w, Forall (searchable (heap w)) good -> untyped (heap w) bad ->
  exists ext,
    map_m (search_row no_truncate) (good ++ bad :: rest) w
    = (Raise AttributeError, {| heap := heap w ++ ext; trace := trace w |}).
Proof.
  induction good as [|v good IH]; intros w Hall Hbad.
  - exists [ODict ∅]. cbn [app map_m]. apply bind_raise. now apply search_row_untyped.
  - apply Forall_cons_1 in Hall as [Hv Hall]. cbn [app map_m].
    rewrite (bind_ok _ _ _ _ _ (search_row_eval _ v w Hv)).
    destruct (IH {| heap := heap w ++ [ODict ∅]; trace := trace w |}) as [ext Hext].
    + eapply Forall_impl; [exact Hall|]. intros x. apply searchable_app.
    + revert Hbad. unfold untyped. destruct bad as [| | | |l]; auto. cbn [heap].
      destruct (heap w !! l) as [[items|p]|] eqn:Hl; try contradiction.
      rewrite (lookup_app_l_Some _ _ _ _ Hl). intros [Ht Ha].
      split; auto using dict_or_missing_app.
    + exists ([ODict ∅] ++ ext). rewrite (bind_raise _ _ _ _ _ Hext).
      cbn [heap trace]. now rewrite <- app_assoc.
Qed.

(** For a query without an opening bracket and a response whose [results]
    is a non-empty list of results that can be shown (objects whose type is
    a string or missing, whose author is an object or missing, whose title,
    or else content, is a string or falsy, whose identifier is a string or
    falsy, whose author name is a string or None and whose similarity is a
    number with a percentage, none of the texts shown holding an opening
    bracket, which the console would read as markup), [search] prints its
    two header lines, one table and a blank line.  The table has one row
    for each result, in the order of the response.  The identifier in a row
    is the result's own [id] when its type is post and its [post_id]
    otherwise, also when the type is missing, and the empty string when that
    field is missing or falsy; the title cell is the title, or the content
    when there is no title, clipped at 50 characters unless clipping is
    off. *)
Theorem search_prints_one_row_each (query : string) (no_truncate : bool) (w : world)
    (ld lr : loc) (f : gmap string val) (items : list val) :
  heap w !! ld = Some (ODict f) ->
  f !! "results"%string = Some (VRef lr) ->
  heap w !! lr = Some (OList items) ->
  items <> [] ->
  Forall (searchable (heap w)) items ->
  markup_free query = true ->
  render_search query false no_truncate (VRef ld) w
  = (Ok tt,
     {| heap := heap w ++ OList [] :: replicate (length items) (ODict ∅);
        trace := trace w
                 ++ search_headers query (Z.of_nat (length items))
                 ++ [EvTable ["Type"; "ID"; "Title/Preview"; "Author"; "👍"; "Match"]%string
                       (map (result_row (heap w) no_truncate) items);
                     EvPrint []] |}).
Proof.
  intros Hld Hf Hlr Hne Hall Hquery. unfold render_search.
  set (w0 := {| heap := heap w ++ [OList []]; trace := trace w |}).
  assert (Hresults : get_or_list (VRef ld) "results" w = (Ok (VRef lr), w0)).
  { unfold get_or_list, get_with, bind at 1, fields_of. now rewrite Hld, Hf. }
  rewrite (bind_ok _ _ _ _ _ Hresults).
  assert (Hlr0 : heap w0 !! lr = Some (OList items)) by now apply lookup_app_l_Some.
  assert (Hany : is_true (VRef lr) w0 = (Ok true, w0)).
  { unfold is_true, truthy. rewrite Hlr0. now destruct items. }
  rewrite (bind_ok _ _ _ _ _ Hany). cbn [negb].
  rewrite console_print_bind by plain.
  set (w1 := log w0 _).
  rewrite (bind_ok _ _ _ _ _ (py_len_list w1 lr items Hlr0)).
  rewrite console_print_bind by plain. unfold w1. rewrite log_log.
  set (w2 := log w0 _).
  rewrite (bind_ok _ _ _ _ _ (py_iter_list w2 lr items Hlr0)).
  assert (Hall2 : Forall (searchable (heap w2)) items).
  { eapply Forall_impl; [exact Hall|]. intros x. apply searchable_app. }
  rewrite (bind_ok _ _ _ _ _ (search_rows_eval no_truncate items w2 Hall2)).
  rewrite print_table_bind by (apply result_rows_plain; exact Hall2).
  rewrite console_print_eval, log_log by plain.
  unfold w2, w0, log, search_headers. cbn [heap trace].
  assert (Hrows : map (result_row (heap w ++ [OList []]) no_truncate) items
                  = map (result_row (heap w) no_truncate) items).
  { apply map_ext_Forall. eapply Forall_impl; [exact Hall|].
    intros x. apply result_row_app. }
  rewrite Hrows. f_equal. f_equal.
  - now rewrite <- app_assoc.
  - rewrite <- !app_assoc. reflexivity.
Qed.

Lemma search_prints_one_row_each_witness :
  let w := (load (JObj [("results"%string,
                         JArr [JObj [("type"%string, JStr "post");
                                     ("id"%string, JStr "p1");
                                     ("title"%string, JStr "T")];
                               JObj [("type"%string, JStr "comment");
                                     ("id"%string, JStr "c1");
                                     ("post_id"%string, JStr "p9");
                                     ("content"%string, JStr "hello")]])])
              empty_world).2 in
  nth_error (trace (render_search "q" false false (VRef 3%nat) w).2) 2
  = Some (EvTable ["Type"; "ID"; "Title/Preview"; "Author"; "👍"; "Match"]%string
            [[[Upper (VStr "post")]; [Raw (VStr "p1")]; [Raw (VStr "T")];
              [Raw (VStr "Unknown")]; [str (VInt 0)]; [Fmt ".0%" (VInt 0)]];
             [[Upper (VStr "comment")]; [Raw (VStr "p9")]; [Raw (VStr "hello")];
              [Raw (VStr "Unknown")]; [str (VInt 0)]; [Fmt ".0%" (VInt 0)]]]).
Proof.
  intros w.
  pose (f := <["results"%string := VRef 2%nat]> (∅ : gmap string val)).
  assert (Hld : heap w !! 3%nat = Some (ODict f)) by (vm_compute; reflexivity).
  assert (Hf : f !! "results"%string = Some (VRef 2%nat)) by (vm_compute; reflexivity).
  assert (Hlr : heap w !! 2%nat = Some (OList [VRef 0%nat; VRef 1%nat]))
    by (vm_compute; reflexivity).
  assert (Hne : [VRef 0%nat; VRef 1%nat] <> []) by discriminate.
  assert (Hall : Forall (searchable (heap w)) [VRef 0%nat; VRef 1%nat]).
  { repeat constructor; vm_compute; eauto. }
  rewrite (search_prints_one_row_each "q" false w 3%nat 2%nat f _ Hld Hf Hlr Hne Hall
             eq_refl).
  vm_compute. reflexivity.
Defined.

(** When one result has a type that is there but is no string (a JSON null,
    a number), the results before it can be shown and the query holds no
    opening bracket, [search] stops with AttributeError after its two header
    lines: no table is printed, not even for the results before that one. *)
Theorem search_stops_on_untyped_result (query : string) (no_truncate : bool) (w : world)
    (ld lr : loc) (f : gmap string val) (good : list val) (bad : val) (rest : list val) :
  heap w !! ld = Some (ODict f) ->
  f !! "results"%string = Some (VRef lr) ->
  heap w !! lr = Some (OList (good ++ bad :: rest)) ->
  Forall (searchable (heap w)) good ->
  untyped (heap w) bad ->
  markup_free query = true ->
  (render_search query false no_truncate (VRef ld) w).1 = Raise AttributeError
  /\ trace (render_search query false no_truncate (VRef ld) w).2
     = trace w ++ search_headers query (Z.of_nat (length (good ++ bad :: rest))).
Proof.
  intros Hld Hf Hlr Hall Hbad Hquery. unfold render_search.
  set (items := good ++ bad :: rest) in *.
  set (w0 := {| heap := heap w ++ [OList []]; trace := trace w |}).
  assert (Hresults : get_or_list (VRef ld) "results" w = (Ok (VRef lr), w0)).
  { unfold get_or_list, get_with, bind at 1, fields_of. now rewrite Hld, Hf. }
  rewrite (bind_ok _ _ _ _ _ Hresults).
  assert (Hlr0 : heap w0 !! lr = Some (OList items)) by now apply lookup_app_l_Some.
  assert (Hany : is_true (VRef lr) w0 = (Ok true, w0)).
  { unfold is_true, truthy. rewrite Hlr0. unfold items. now destruct good. }
  rewrite (bind_ok _ _ _ _ _ Hany). cbn [negb].
  rewrite console_print_bind by plain.
  set (w1 := log w0 _).
  rewrite (bind_ok _ _ _ _ _ (py_len_list w1 lr items Hlr0)).
  rewrite console_print_bind by plain. unfold w1. rewrite log_log.
  set (w2 := log w0 _).
  rewrite (bind_ok _ _ _ _ _ (py_iter_list w2 lr items Hlr0)).
  destruct (search_rows_untyped no_truncate good bad rest w2) as [ext Hext].
  - eapply Forall_impl; [exact Hall|]. intros x. apply searchable_app.
  - revert Hbad. unfold untyped. destruct bad as [| | | |l]; auto. cbn [heap w2 w0 log].
    destruct (heap w !! l) as [[xs|p]|] eqn:Hl; try contradiction.
    rewrite (lookup_app_l_Some _ _ _ _ Hl). intros [Ht Ha].
    split; auto using dict_or_missing_app.
  - fold items in Hext. rewrite (bind_raise _ _ _ _ _ Hext). split; reflexivity.
Qed.

Lemma search_stops_on_untyped_result_witness :
  let w := (load (JObj [("results"%string,
                         JArr [JObj [("type"%string, JStr "post");
                                     ("id"%string, JStr "p1");
                                     ("title"%string, JStr "T")];
                               JObj [("type"%string, JNull);
                                     ("id"%string, JStr "c1")]])])
              empty_world).2 in
  (render_search "q" false false (VRef 3%nat) w).1 = Raise AttributeError
  /\ tables (trace (render_search "q" false false (VRef 3%nat) w).2) = [].
Proof.
  intros w.
  pose (f := <["results"%string := VRef 2%nat]> (∅ : gmap string val)).
  assert (Hld : heap w !! 3%nat = Some (ODict f)) by (vm_compute; reflexivity).
  assert (Hf : f !! "results"%string = Some (VRef 2%nat)) by (vm_compute; reflexivity).
  assert (Hlr : heap w !! 2%nat = Some (OList ([VRef 0%nat] ++ VRef 1%nat :: [])))
    by (vm_compute; reflexivity).
  assert (Hall : Forall (searchable (heap w)) [VRef 0%nat]).
  { repeat constructor; vm_compute; eauto. }
  assert (Hbad : untyped (heap w) (VRef 1%nat)) by (vm_compute; auto).
  destruct (search_stops_on_untyped_result "q" false w 3%nat 2%nat f _ _ _
              Hld Hf Hlr Hall Hbad eq_refl) as [Hr Ht].
  split; [exact Hr|]. rewrite Ht. vm_compute. reflexivity.
Defined.

(** ** The panels of [comments] *)

Lemma showable_app (h ext : list obj) (v : val) : showable h v -> showable (h ++ ext) v.
Proof.
  unfold showable. destruct v as [| | | |l]; auto.
  destruct (h !! l) as [[items|p]|] eqn:Hl; try contradiction.
  rewrite (lookup_app_l_Some _ _ _ _ Hl). intros (Ha & Hc & Hp).
  repeat split; auto using dict_or_missing_app, text_or_falsy_app.
Qed.

Lemma comment_lines_app (stamp : val -> val) (h ext : list obj) (no_truncate : bool)
    (v : val) :
  showable h v ->
  comment_lines stamp (h ++ ext) no_truncate v = comment_lines stamp h no_truncate v.
Proof.
  unfold showable, comment_lines. destruct v as [| | | |l]; auto.
  destruct (h !! l) as [[items|p]|] eqn:Hl; try contradiction.
  rewrite (lookup_app_l_Some _ _ _ _ Hl). intros (Ha & _).
  now rewrite (nested_field_app _ _ _ _ _ _ Ha).
Qed.

Lemma comment_lines_all_app (stamp : val -> val) (h ext : list obj) (no_truncate : bool)
    (items : list val) :
  Forall (showable h) items ->
  flat_map (comment_lines stamp (h ++ ext) no_truncate) items
  = flat_map (comment_lines stamp h no_truncate) items.
Proof.
  induction 1 as [|x r Hx Hr IH]; [reflexivity|].
  cbn [flat_map]. now rewrite IH, (comment_lines_app _ _ _ _ _ Hx).
Qed.

(** One showable comment: its panel and lines, and one empty dict
    allocated for the default of the author. *)
Lemma comment_panel_eval (no_truncate : bool) (v : val) (w : world) :
  showable (heap w) v ->
  comment_panel no_truncate v w
  = (Ok tt, {| heap := heap w ++ [ODict ∅];
               trace := trace w ++ comment_lines format_timestamp_dyn (heap w) no_truncate v |}).
Proof.
  unfold showable, comment_lines. destruct v as [| | | |l]; try contradiction.
  destruct (heap w !! l) as [[items|p]|] eqn:Hl; try contradiction.
  intros (Ha & Hc & Hp). unfold comment_panel.
  rewrite (bind_ok _ _ _ _ _ (get_nested_eval w l p "author" "name" _ Hl Ha)).
  set (w1 := {| heap := heap w ++ [ODict ∅]; trace := trace w |}).
  assert (Hl1 : heap w1 !! l = Some (ODict p)) by now apply lookup_app_l_Some.
  rewrite (bind_ok _ _ _ _ _ (get_dict w1 l p "upvotes" _ Hl1)).
  rewrite (bind_ok _ _ _ _ _ (get_dict w1 l p "downvotes" _ Hl1)).
  rewrite (bind_ok _ _ _ _ _ (get_dict w1 l p "created_at" _ Hl1)).
  rewrite (bind_ok _ _ _ _ _ (get_dict w1 l p "content" _ Hl1)).
  rewrite (bind_ok _ _ _ _ _
             (maybe_truncate_dyn_text _ 300 no_truncate w1
                (text_or_falsy_app _ [ODict ∅] _ Hc))).
  rewrite (bind_ok _ _ _ _ _ (emit_eval _ _)).
  set (w2 := log w1 _).
  assert (Hdone : forall evs, log (log w2 evs) [EvPrint []]
                  = {| heap := heap w ++ [ODict ∅];
                       trace := trace w ++
                         ([EvPanel "💬 Comment"
                             [[str (nested_field (heap w) p "author" "name"
                                      (VStr "Unknown")); Lit nl];
                              [Lit "Posted: "];
                              [str (format_timestamp_dyn
                                      (default (VStr EmptyString)
                                         (p !! "created_at"%string)));
                               Lit nl];
                              [Lit "Engagement: "];
                              [str (default (VInt 0) (p !! "upvotes"%string)); Lit "👍 "];
                              [str (default (VInt 0) (p !! "downvotes"%string));
                               Lit "👎"]]]
                          ++ evs ++ [EvPrint []]) |}).
  { intros evs. unfold w2, w1, log. cbn [heap trace].
    f_equal. rewrite <- !app_assoc. reflexivity. }
  destruct (default (VStr EmptyString) (p !! "content"%string)) as [|b|k|s|lc];
    try (transitivity (Ok tt, log (log w2 []) [EvPrint []]);
         [now rewrite log_nil | rewrite Hdone; reflexivity]).
  unfold bind at 1, is_true at 1. cbn [truthy].
  assert (Hprev : markup_free (maybe_truncate s 300 no_truncate) = true)
    by (apply markup_free_maybe_truncate; exact Hp).
  destruct (PyStr.nonempty (maybe_truncate s 300 no_truncate)).
  - transitivity
      (Ok tt, log (log w2 [EvPrint [Raw (VStr (maybe_truncate s 300 no_truncate))]])
                [EvPrint []]);
      [| rewrite Hdone; reflexivity].
    cbn [fst snd]. unfold when. rewrite console_print_bind by plain.
    apply console_print_eval. reflexivity.
  - transitivity (Ok tt, log (log w2 []) [EvPrint []]);
      [now rewrite log_nil | rewrite Hdone; reflexivity].
Qed.

(** The comments in order, one panel each. *)
Lemma comment_panels_eval (no_truncate : bool) (items : list val) :
  forall w, Forall (showable (heap w)) items ->
  for_each (comment_panel no_truncate) items w
  = (Ok tt, {| heap := heap w ++ replicate (length items) (ODict ∅);
               trace := trace w ++ flat_map (comment_lines format_timestamp_dyn (heap w) no_truncate) items |}).
Proof.
  induction items as [|v items IH]; intros w Hall.
  - simpl. unfold ret. destruct w as [h t]. cbn [heap trace]. now rewrite !app_nil_r.
  - apply Forall_cons_1 in Hall as [Hv Hall]. cbn [for_each].
    rewrite (bind_ok _ _ _ _ _ (comment_panel_eval _ v w Hv)).
    rewrite IH; cbn [heap trace].
    + f_equal. f_equal.
      * rewrite <- app_assoc. reflexivity.
      * rewrite <- app_assoc. cbn [flat_map]. f_equal. f_equal.
        now apply comment_lines_all_app.
    + eapply Forall_impl; [exact Hall|]. intros x. apply showable_app.
Qed.

Lemma comment_lines_panels (stamp : val -> val) (h : list obj) (no_truncate : bool)
    (items : list val) :
  Forall (showable h) items ->
  length (List.filter is_panel (flat_map (comment_lines stamp h no_truncate) items))
  = length items.
Proof.
  induction 1 as [|v r Hv Hr IH]; [reflexivity|].
  cbn [flat_map length]. rewrite List.filter_app, length_app, IH. f_equal.
  unfold showable in Hv. unfold comment_lines.
  destruct v as [| | | |l]; try contradiction.
  destruct (h !! l) as [[xs|p]|]; try contradiction.
  cbn [app List.filter is_panel]. rewrite List.filter_app. cbn [List.filter is_panel].
  rewrite app_nil_r.
  destruct (default (VStr EmptyString) (p !! "content"%string)) as [|b|k|s|lc];
    try reflexivity.
  now destruct (PyStr.nonempty (maybe_truncate s 300 no_truncate)).
Qed.

(** For a response that is a non-empty list of comments, or an object whose
    [comments] field is one (each comment an object whose author is an
    object or missing and whose content is a string, missing or falsy),
    where the post identifier, the sort order and the contents hold no
    opening bracket, which the console would read as markup, [comments]
    prints its two header lines and then, for each comment in the order of
    the response, one panel, the content when it is not empty, and a blank
    line.  The content is clipped at 300 characters unless clipping is off,
    and there are as many panels as comments.  Nothing of the response is
    changed.  Of the Posted cell of a panel the statement fixes only what
    does not depend on the grammar of [fromisoformat]. *)
Theorem comments_prints_one_panel_each (post_id sort : string) (no_truncate : bool)
    (w : world) (data : val) (items : list val) :
  holds_comments (heap w) data items ->
  items <> [] ->
  Forall (showable (heap w)) items ->
  markup_free post_id = true ->
  markup_free sort = true ->
  exists stamp,
    stamping stamp
    /\ render_comments post_id sort false no_truncate data w
       = (Ok tt,
          {| heap := heap w ++ replicate (length items) (ODict ∅);
             trace := trace w ++ comments_headers post_id sort
                      ++ flat_map (comment_lines stamp (heap w) no_truncate) items |})
    /\ length (List.filter is_panel
                 (trace (render_comments post_id sort false no_truncate data w).2))
       = (length (List.filter is_panel (trace w)) + length items)%nat.
Proof.
  intros Hdata Hne Hall Hid Hsort.
  exists format_timestamp_dyn. split; [exact posted_as_format|].
  assert (Heval : render_comments post_id sort false no_truncate data w
                  = (Ok tt,
                     {| heap := heap w ++ replicate (length items) (ODict ∅);
                        trace := trace w ++ comments_headers post_id sort
                                 ++ flat_map (comment_lines format_timestamp_dyn (heap w) no_truncate) items |})).
  { assert (Hrest : forall lc, heap w !! lc = Some (OList items) ->
      (any <- is_true (VRef lc) ;;
       if negb any then console_print [Lit "[yellow]No comments found[/yellow]"]
       else
         console_print [Lit nl; Lit "[bold cyan]Comments[/bold cyan]"] ;;;
         console_print
           [Lit "[dim]Post ID: "; str (VStr post_id); Lit " | Sort: "; str (VStr sort);
            Lit "[/dim]"; Lit nl] ;;;
         items <- py_iter (VRef lc) ;;
         for_each (comment_panel no_truncate) items) w
      = (Ok tt,
         {| heap := heap w ++ replicate (length items) (ODict ∅);
            trace := trace w ++ comments_headers post_id sort
                     ++ flat_map (comment_lines format_timestamp_dyn (heap w) no_truncate) items |})).
    { intros lc Hlc.
      assert (Hany : is_true (VRef lc) w = (Ok true, w)).
      { unfold is_true, truthy. rewrite Hlc. now destruct items. }
      rewrite (bind_ok _ _ _ _ _ Hany). cbn [negb].
      rewrite console_print_bind by plain.
      rewrite console_print_bind, log_log by plain.
      set (w2 := log w _).
      rewrite (bind_ok _ _ _ _ _ (py_iter_list w2 lc items Hlc)).
      rewrite (comment_panels_eval no_truncate items w2 Hall).
      unfold w2, log, comments_headers. cbn [heap trace].
      f_equal. f_equal. rewrite <- !app_assoc. reflexivity. }
    unfold holds_comments in Hdata. destruct data as [| | | |ld]; try contradiction.
    unfold render_comments.
    destruct (heap w !! ld) as [[direct|f]|] eqn:Hld; try contradiction.
    + subst direct.
      assert (Hdirect : is_list (VRef ld) w = (Ok true, w)).
      { unfold is_list. now rewrite Hld. }
      rewrite (bind_ok _ _ _ _ _ Hdirect).
      assert (Hret : ret (VRef ld) w = (Ok (VRef ld), w)) by reflexivity.
      rewrite (bind_ok _ _ _ _ _ Hret). now apply Hrest.
    + destruct Hdata as (lc & Hf & Hlc).
      assert (Hdirect : is_list (VRef ld) w = (Ok false, w)).
      { unfold is_list. now rewrite Hld. }
      rewrite (bind_ok _ _ _ _ _ Hdirect).
      assert (Hfound : (found <- get_none (VRef ld) "comments" ;;
                        match found with
                        | VNone => get_or_list (VRef ld) "results"
                        | _ => ret found
                        end) w = (Ok (VRef lc), w)).
      { unfold get_none. rewrite (bind_ok _ _ _ _ _ (get_dict w ld f _ _ Hld)), Hf.
        reflexivity. }
      rewrite (bind_ok _ _ _ _ _ Hfound). now apply Hrest. }
  split; [exact Heval|].
  rewrite Heval. cbn [snd trace]. rewrite !List.filter_app, !length_app.
  now rewrite (comment_lines_panels _ _ _ _ Hall).
Qed.

Lemma comments_prints_one_panel_each_witness :
  let w := (load (JArr [JObj [("content"%string, JStr "first");
                              ("author"%string, JObj [("name"%string, JStr "ann")])];
                        JObj []]) empty_world).2 in
  length (List.filter is_panel
            (trace (render_comments "p1" "top" false false (VRef 3%nat) w).2)) = 2%nat
  /\ length (trace (render_comments "p1" "top" false false (VRef 3%nat) w).2) = 7%nat.
Proof.
  intros w.
  assert (Hdata : holds_comments (heap w) (VRef 3%nat) [VRef 1%nat; VRef 2%nat])
    by (vm_compute; reflexivity).
  assert (Hne : [VRef 1%nat; VRef 2%nat] <> []) by discriminate.
  assert (Hall : Forall (showable (heap w)) [VRef 1%nat; VRef 2%nat]).
  { repeat constructor; vm_compute; eauto. }
  destruct (comments_prints_one_panel_each "p1" "top" false w (VRef 3%nat) _
              Hdata Hne Hall eq_refl eq_refl) as (stamp & _ & Heval & Hpanels).
  split; [rewrite Hpanels; vm_compute; reflexivity|].
  rewrite Heval. vm_compute. reflexivity.
Defined.

(** ** Timestamps as the API writes them *)

Lemma append_empty (s : string) : (EmptyString ++ s)%string = s.
Proof. reflexivity. Qed.

Lemma digit_char_cases (P : ascii -> Prop) :
  P "0"%char -> P "1"%char -> P "2"%char -> P "3"%char -> P "4"%char ->
  P "5"%char -> P "6"%char -> P "7"%char -> P "8"%char -> P "9"%char ->
  forall d, P (Iso.digit_char d).
Proof.
  intros H0 H1 H2 H3 H4 H5 H6 H7 H8 H9 d. unfold Iso.digit_char.
  pose proof (Z.mod_pos_bound d 10 ltac:(lia)) as Hk.
  set (k := d mod 10) in *. clearbody k.
  assert (Hcases : k = 0 \/ k = 1 \/ k = 2 \/ k = 3 \/ k = 4 \/ k = 5 \/ k = 6
                   \/ k = 7 \/ k = 8 \/ k = 9) by lia.
  repeat destruct Hcases as [-> | Hcases]; try subst k; assumption.
Qed.

Lemma digit_of_digit_char (d : Z) : Iso.digit (Iso.digit_char d) = Some (d mod 10).
Proof.
  unfold Iso.digit_char.
  pose proof (Z.mod_pos_bound d 10 ltac:(lia)) as Hk.
  set (k := d mod 10) in *. clearbody k.
  assert (Hcases : k = 0 \/ k = 1 \/ k = 2 \/ k = 3 \/ k = 4 \/ k = 5 \/ k = 6
                   \/ k = 7 \/ k = 8 \/ k = 9) by lia.
  repeat destruct Hcases as [-> | Hcases]; try subst k; reflexivity.
Qed.

Lemma number_pad2 (n : Z) (r : string) :
  0 <= n < 100 ->
  Iso.number 2 0 (String (Iso.digit_char (n / 10)) (String (Iso.digit_char n) r))
  = Some (n, r).
Proof.
  intros Hn. cbn [Iso.number]. rewrite !digit_of_digit_char. f_equal. f_equal.
  rewrite (Z.mod_small (n / 10) 10) by (split; [apply Z.div_pos | apply Z.div_lt_upper_bound]; lia).
  pose proof (Z.div_mod n 10 ltac:(lia)). lia.
Qed.

Lemma number_pad4 (y : Z) (r : string) :
  0 <= y < 10000 ->
  Iso.number 4 0
    (String (Iso.digit_char (y / 100 / 10))
       (String (Iso.digit_char (y / 100))
          (String (Iso.digit_char (y mod 100 / 10))
             (String (Iso.digit_char (y mod 100)) r))))
  = Some (y, r).
Proof.
  intros Hy. cbn [Iso.number]. rewrite !digit_of_digit_char. f_equal. f_equal.
  assert (Ha : 0 <= y / 100 < 100)
    by (split; [apply Z.div_pos | apply Z.div_lt_upper_bound]; lia).
  pose proof (Z.mod_pos_bound y 100 ltac:(lia)) as Hb.
  pose proof (Z.div_mod y 100 ltac:(lia)) as Hy100.
  set (a := y / 100) in *. set (b := y mod 100) in *. clearbody a b.
  rewrite (Z.mod_small (a / 10) 10)
    by (split; [apply Z.div_pos | apply Z.div_lt_upper_bound]; lia).
  rewrite (Z.mod_small (b / 10) 10)
    by (split; [apply Z.div_pos | apply Z.div_lt_upper_bound]; lia).
  pose proof (Z.div_mod a 10 ltac:(lia)). pose proof (Z.div_mod b 10 ltac:(lia)). lia.
Qed.

Lemma split_offset_cons (c : ascii) (r : string) :
  Ascii.eqb c "+" || Ascii.eqb c "-" = false ->
  Iso.split_offset (String c r)
  = (String c (Iso.split_offset r).1, (Iso.split_offset r).2).
Proof.
  intros H. cbn [Iso.split_offset]. rewrite H. now destruct (Iso.split_offset r).
Qed.

Lemma digit_not_sign (d : Z) :
  Ascii.eqb (Iso.digit_char d) "+" || Ascii.eqb (Iso.digit_char d) "-" = false.
Proof. apply digit_char_cases with (d := d); reflexivity. Qed.

Lemma replace_other (c d : ascii) (by_ r : string) :
  Ascii.eqb d c = false ->
  PyStr.replace c by_ (String d r) = String d (PyStr.replace c by_ r).
Proof. intros H. cbn [PyStr.replace]. now rewrite H. Qed.

Lemma digit_not_zulu (d : Z) : Ascii.eqb (Iso.digit_char d) "Z" = false.
Proof. apply digit_char_cases with (d := d); reflexivity. Qed.

Lemma days_in_month_bound (y m : Z) : Iso.days_in_month y m <= 31.
Proof.
  unfold Iso.days_in_month.
  destruct (m =? 2); [destruct (Iso.is_leap y); lia|].
  destruct ((m =? 4) || (m =? 6) || (m =? 9) || (m =? 11)); lia.
Qed.

Lemma valid_time_range (h mi s : Z) :
  h <= 23 -> mi <= 59 -> s <= 59 -> Iso.valid_time h mi s = true.
Proof.
  intros Hh Hm Hs. unfold Iso.valid_time.
  rewrite !andb_true_iff, !Z.leb_le. lia.
Qed.

(** The clock of a timestamp is read back as it was written. *)
Lemma clock_of_time (h mi s : Z) :
  0 <= h < 100 -> 0 <= mi < 100 -> 0 <= s < 100 ->
  Iso.clock
    (String (Iso.digit_char (h / 10)) (String (Iso.digit_char h) (String ":"
       (String (Iso.digit_char (mi / 10)) (String (Iso.digit_char mi) (String ":"
          (String (Iso.digit_char (s / 10)) (String (Iso.digit_char s) EmptyString))))))))
  = Some (h, mi, s).
Proof.
  intros Hh Hm Hs. unfold Iso.clock.
  rewrite (number_pad2 h _ Hh). cbn [Iso.expect]. rewrite Ascii.eqb_refl.
  rewrite (number_pad2 mi _ Hm). cbn [Iso.expect]. rewrite Ascii.eqb_refl.
  now rewrite (number_pad2 s _ Hs).
Qed.

Lemma offset_is_valid (oh om : Z) :
  0 <= oh <= 23 -> 0 <= om <= 59 ->
  Iso.valid_offset
    (String (Iso.digit_char (oh / 10)) (String (Iso.digit_char oh) (String ":"
       (String (Iso.digit_char (om / 10)) (String (Iso.digit_char om) EmptyString)))))
  = true.
Proof.
  intros Hh Hm. unfold Iso.valid_offset, Iso.clock.
  rewrite (number_pad2 oh) by lia. cbn [Iso.expect]. rewrite Ascii.eqb_refl.
  rewrite (number_pad2 om) by lia.
  rewrite valid_time_range by lia. reflexivity.
Qed.

(** What the parser makes of a timestamp followed by any accepted
    remainder [tail] that holds no [Z]. *)
Lemma fromisoformat_stamp (y m d h mi s : Z) (tail : string) (z : option string) :
  Iso.valid_date y m d = true ->
  0 <= h <= 23 -> 0 <= mi <= 59 -> 0 <= s <= 59 ->
  Iso.split_offset tail = (EmptyString, z) ->
  match z with Some z => Iso.valid_offset z | None => true end = true ->
  Iso.fromisoformat (stamp y m d h mi s ++ tail)
  = Some {| Iso.year := y; Iso.month := m; Iso.day := d;
            Iso.hour := h; Iso.minute := mi; Iso.second := s |}.
Proof.
  intros Hdate Hh Hmi Hs Htail Hz.
  assert (Hrange : (1 <= y <= 9999 /\ 1 <= m <= 12) /\ 1 <= d <= 31).
  { unfold Iso.valid_date in Hdate. rewrite !andb_true_iff, !Z.leb_le in Hdate.
    pose proof (days_in_month_bound y m). lia. }
  unfold stamp, Iso.pad4, Iso.pad2. repeat rewrite ?append_cons, ?append_empty.
  unfold Iso.fromisoformat.
  rewrite (number_pad4 y) by lia. cbn [Iso.expect]. rewrite Ascii.eqb_refl.
  rewrite (number_pad2 m) by lia. cbn [Iso.expect]. rewrite Ascii.eqb_refl.
  rewrite (number_pad2 d) by lia. rewrite Hdate. cbn [negb].
  rewrite !split_offset_cons by (apply digit_not_sign || reflexivity).
  rewrite Htail. cbn [fst snd].
  rewrite clock_of_time by lia. rewrite valid_time_range by lia. now rewrite Hz.
Qed.

Lemma append_empty_r (s : string) : (s ++ EmptyString)%string = s.
Proof. induction s as [|c s IH]; [reflexivity|]. now rewrite append_cons, IH. Qed.

Lemma replace_stamp (y m d h mi s : Z) (by_ tail : string) :
  PyStr.replace "Z" by_ (stamp y m d h mi s ++ tail)
  = (stamp y m d h mi s ++ PyStr.replace "Z" by_ tail)%string.
Proof.
  unfold stamp, Iso.pad4, Iso.pad2. repeat rewrite ?append_cons, ?append_empty.
  now rewrite !replace_other by (apply digit_not_zulu || reflexivity).
Qed.

(** A timestamp [YYYY-MM-DDTHH:MM:SS] of a valid date and time, with a year
    of four digits, is shown as [YYYY-MM-DD HH:MM] with the very digits it
    was written with, whether it ends there, in [Z], or in an offset
    [+HH:MM] or [-HH:MM]: the seconds and the offset are dropped and the
    time is not converted to another zone. *)
Theorem timestamp_keeps_its_own_clock (y m d h mi s : Z) (sign : ascii) (oh om : Z) :
  Iso.valid_date y m d = true ->
  1000 <= y ->
  0 <= h <= 23 -> 0 <= mi <= 59 -> 0 <= s <= 59 ->
  sign = "+"%char \/ sign = "-"%char ->
  0 <= oh <= 23 -> 0 <= om <= 59 ->
  format_timestamp (stamp y m d h mi s ++ utc_offset sign oh om) = minute_of y m d h mi
  /\ format_timestamp (stamp y m d h mi s ++ "Z") = minute_of y m d h mi
  /\ format_timestamp (stamp y m d h mi s) = minute_of y m d h mi.
Proof.
  intros Hdate Hy Hh Hmi Hs Hsign Hoh Hom.
  unfold format_timestamp, format_timestamp_with. repeat split.
  - rewrite replace_stamp.
    assert (Hsame : PyStr.replace "Z" "+00:00" (utc_offset sign oh om)
                    = utc_offset sign oh om).
    { unfold utc_offset, Iso.pad2. repeat rewrite ?append_cons, ?append_empty.
      destruct Hsign as [-> | ->];
        now rewrite !replace_other by (apply digit_not_zulu || reflexivity). }
    rewrite Hsame.
    rewrite (fromisoformat_stamp y m d h mi s _
               (Some (Iso.pad2 oh ++ ":" ++ Iso.pad2 om)%string) Hdate Hh Hmi Hs).
    + reflexivity.
    + unfold utc_offset. now destruct Hsign as [-> | ->].
    + unfold Iso.pad2. repeat rewrite ?append_cons, ?append_empty.
      now apply offset_is_valid.
  - rewrite replace_stamp.
    change (PyStr.replace "Z" "+00:00" "Z") with "+00:00"%string.
    now rewrite (fromisoformat_stamp y m d h mi s "+00:00" (Some "00:00"%string)
                   Hdate Hh Hmi Hs eq_refl eq_refl).
  - rewrite <- (append_empty_r (stamp y m d h mi s)) at 1.
    rewrite replace_stamp. change (PyStr.replace "Z" "+00:00" EmptyString) with EmptyString.
    now rewrite (fromisoformat_stamp y m d h mi s EmptyString None
                   Hdate Hh Hmi Hs eq_refl eq_refl).
Qed.

Lemma timestamp_keeps_its_own_clock_witness :
  format_timestamp "2025-02-28T23:59:58-08:00" = "2025-02-28 23:59"%string
  /\ format_timestamp "2025-02-28T23:59:58Z" = "2025-02-28 23:59"%string
  /\ format_timestamp "2025-02-28T23:59:58" = "2025-02-28 23:59"%string.
Proof.
  exact (timestamp_keeps_its_own_clock 2025 2 28 23 59 58 "-" 8 0
           eq_refl ltac:(lia) ltac:(lia) ltac:(lia) ltac:(lia)
           (or_intror eq_refl) ltac:(lia) ltac:(lia)).
Defined.

(** ** The table of [stats] *)

Lemma max_by_in {A} (key : A -> Z) (l : list A) :
  forall best, max_by key best l = best \/ In (max_by key best l) l.
Proof.
  induction l as [|x r IH]; intros best; simpl; [now left|].
  destruct (IH (if key x >? key best then x else best)) as [-> | Hin]; [|now right; right].
  destruct (key x >? key best); [right; now left | now left].
Qed.

Lemma count_of_grows (h ext : list obj) (v : val) (n : Z) :
  count_of h v = Some n -> count_of (h ++ ext) v = Some n.
Proof.
  unfold count_of. destruct v as [| | | |l]; try discriminate.
  destruct (h !! l) as [o|] eqn:Hl; [|discriminate].
  now rewrite (lookup_app_l_Some _ _ _ _ Hl).
Qed.

(** Among submolts whose counts are integers or missing, [max] returns one
    of them and allocates nothing. *)
Lemma max_subscribers_counted (w : world) (items : list val) (ns : list Z) :
  items <> [] ->
  mapM (count_of (heap w)) items = Some ns ->
  exists x, max_subscribers items w = (Ok x, w) /\ In x items.
Proof.
  intros Hne Hns. destruct (keys_of_counted w items ns Hns) as (keys & Hk & Hnum).
  pose proof (length_mapM _ _ _ Hns) as Hlen.
  unfold max_subscribers. rewrite (bind_ok _ _ _ _ _ Hk), Hnum.
  cbn [fmap option_fmap option_map].
  destruct items as [|x0 items]; [contradiction|].
  destruct ns as [|n0 ns]; [discriminate|]. cbn [zip zip_with].
  eexists. split; [reflexivity|].
  destruct (max_by_in snd (zip items ns) (x0, n0)) as [-> | Hin]; [now left|].
  right. apply (in_map fst) in Hin. revert Hin. generalize (max_by snd (x0, n0) (zip items ns)).1.
  intros x Hin. apply in_map_iff in Hin as ([a b] & <- & Hin).
  apply list_elem_of_In, list_elem_of_lookup in Hin as [i Hi].
  apply lookup_zip_with_Some in Hi as (a' & b' & Heq & Ha & _).
  injection Heq as -> ->. apply list_elem_of_In. eapply list_elem_of_lookup_2; exact Ha.
Qed.

Lemma format_thousands (v : val) (w : world) :
  is_Some (as_number v) -> format_number "," v w = (Ok (Fmt "," v), w).
Proof. destruct v; try reflexivity; intros [n Hn]; discriminate. Qed.

(** For a response whose [submolts] is a non-empty list of submolts with
    integer or missing subscriber counts and display names without an
    opening bracket, and whose totals of posts and comments are integers or
    missing, [stats] prints its title, one table and a blank line.  The
    first row counts the submolts of the
    response itself; the posts and comments are the totals of the response,
    0 when missing.  The row of the largest community shows one submolt of
    the response, its [display_name] and [subscriber_count] read without a
    default, so that a missing one is shown as None even though it counted
    as 0 in the comparison; the row is left out when that submolt is an
    empty object. *)
Theorem stats_counts_the_response (w : world) (ld ls : loc) (f : gmap string val)
    (items : list val) (ns : list Z) :
  heap w !! ld = Some (ODict f) ->
  f !! "submolts"%string = Some (VRef ls) ->
  heap w !! ls = Some (OList items) ->
  items <> [] ->
  mapM (count_of (heap w)) items = Some ns ->
  Forall (plainly_named (heap w)) items ->
  is_Some (as_number (default (VInt 0) (f !! "total_posts"%string))) ->
  is_Some (as_number (default (VInt 0) (f !! "total_comments"%string))) ->
  exists lx p,
    In (VRef lx) items /\ heap w !! lx = Some (ODict p)
    /\ render_stats (VRef ld) w
       = (Ok tt,
          {| heap := heap w ++ [OList []];
             trace := trace w
               ++ [stats_title;
                   EvTable []
                     (stats_rows (Z.of_nat (length items))
                        (default (VInt 0) (f !! "total_posts"%string))
                        (default (VInt 0) (f !! "total_comments"%string))
                      ++ (if bool_decide (p = ∅) then [] else [largest_row p]));
                   EvPrint []] |}).
Proof.
  intros Hld Hf Hls Hne Hns Hnames Htotal_posts Htotal_comments.
  set (w0 := {| heap := heap w ++ [OList []]; trace := trace w |}).
  set (w1 := log w0 [stats_title]).
  assert (Hns1 : mapM (count_of (heap w1)) items = Some ns).
  { apply mapM_Some. apply mapM_Some in Hns.
    eapply Forall2_impl; [exact Hns|]. intros x n. apply count_of_grows. }
  destruct (max_subscribers_counted w1 items ns Hne Hns1) as (x & Hmax & Hin).
  assert (Hx : exists lx p, x = VRef lx /\ heap w !! lx = Some (ODict p)).
  { apply mapM_Some in Hns.
    pose proof Hin as Hat. apply list_elem_of_In, list_elem_of_lookup in Hat as [i Hi].
    destruct (Forall2_lookup_l _ _ _ _ _ Hns Hi) as (n & _ & Hn).
    unfold count_of in Hn. destruct x as [| | | |lx]; try discriminate.
    destruct (heap w !! lx) as [[a|p]|] eqn:Hlx; try discriminate. eauto. }
  destruct Hx as (lx & p & -> & Hlx).
  assert (Hname : plain_value (default VNone (p !! "display_name"%string)) = true).
  { pose proof (proj1 (Forall_forall _ _) Hnames _ (proj2 (list_elem_of_In _ _) Hin)) as Hx.
    unfold plainly_named in Hx. now rewrite Hlx in Hx. }
  assert (Hcount : plain_value (default VNone (p !! "subscriber_count"%string)) = true).
  { apply mapM_Some in Hns.
    pose proof Hin as Hat. apply list_elem_of_In, list_elem_of_lookup in Hat as [i Hi].
    destruct (Forall2_lookup_l _ _ _ _ _ Hns Hi) as (n & _ & Hn).
    unfold count_of in Hn. rewrite Hlx in Hn.
    destruct (p !! "subscriber_count"%string) as [c|]; [|reflexivity].
    apply as_number_plain. eauto. }
  exists lx, p. repeat split; [exact Hin | exact Hlx |].
  unfold render_stats.
  assert (Hlist : get_or_list (VRef ld) "submolts" w = (Ok (VRef ls), w0)).
  { unfold get_or_list, get_with, bind at 1, fields_of. now rewrite Hld, Hf. }
  rewrite (bind_ok _ _ _ _ _ Hlist).
  assert (Hld0 : heap w0 !! ld = Some (ODict f)) by now apply lookup_app_l_Some.
  assert (Hls1 : heap w1 !! ls = Some (OList items)) by now apply lookup_app_l_Some.
  assert (Hlx1 : heap w1 !! lx = Some (ODict p)) by now apply lookup_app_l_Some.
  rewrite (bind_ok _ _ _ _ _ (get_dict w0 ld f "total_posts" _ Hld0)).
  rewrite (bind_ok _ _ _ _ _ (get_dict w0 ld f "total_comments" _ Hld0)).
  rewrite console_print_bind by plain. fold stats_title. fold w1.
  rewrite (bind_ok _ _ _ _ _ (py_len_list w1 ls items Hls1)).
  rewrite (bind_ok _ _ _ _ _ (format_thousands _ w1 Htotal_posts)).
  rewrite (bind_ok _ _ _ _ _ (format_thousands _ w1 Htotal_comments)).
  assert (Hany : is_true (VRef ls) w1 = (Ok true, w1)).
  { unfold is_true, truthy. rewrite Hls1. now destruct items. }
  rewrite (bind_ok _ _ _ _ _ Hany).
  assert (Htop : (items0 <- py_iter (VRef ls) ;; max_subscribers items0) w1
                 = (Ok (VRef lx), w1)).
  { now rewrite (bind_ok _ _ _ _ _ (py_iter_list w1 ls items Hls1)). }
  rewrite (bind_ok _ _ _ _ _ Htop).
  assert (Hhas : is_true (VRef lx) w1 = (Ok (negb (bool_decide (p = ∅))), w1)).
  { unfold is_true, truthy. now rewrite Hlx1. }
  rewrite (bind_ok _ _ _ _ _ Hhas).
  assert (Hlargest :
            (if negb (bool_decide (p = ∅))
             then
               name <- get_none (VRef lx) "display_name" ;;
               count <- get_none (VRef lx) "subscriber_count" ;;
               ret [[[Lit "Largest Community"];
                     [str name; Lit " ("; str count; Lit " subscribers)"]]]
             else ret []) w1
            = (Ok (if bool_decide (p = ∅) then [] else [largest_row p]), w1)).
  { destruct (bool_decide (p = ∅)); [reflexivity|]. cbn [negb]. unfold get_none.
    rewrite (bind_ok _ _ _ _ _ (get_dict w1 lx p _ _ Hlx1)).
    now rewrite (bind_ok _ _ _ _ _ (get_dict w1 lx p _ _ Hlx1)). }
  rewrite (bind_ok _ _ _ _ _ Hlargest).
  rewrite print_table_bind.
  2:{ cbn [app forallb plain_line plain_seg plain_value str].
      rewrite (as_number_plain _ Htotal_posts), (as_number_plain _ Htotal_comments).
      destruct (bool_decide (p = ∅)); [reflexivity|]. unfold largest_row.
      cbn [forallb plain_line plain_seg plain_value str]. now rewrite Hname, Hcount. }
  rewrite console_print_eval, log_log by plain.
  unfold w1. rewrite log_log. unfold w0, log, stats_rows. cbn [heap trace app].
  reflexivity.
Qed.

Lemma stats_counts_the_response_witness :
  let w := (load (JObj [("submolts"%string,
                         JArr [JObj [("name"%string, JStr "a")];
                               JObj [("name"%string, JStr "b")]]);
                        ("total_posts"%string, JInt 10)]) empty_world).2 in
  exists largest,
    tables (trace (render_stats (VRef 3%nat) w).2)
    = [stats_rows 2 (VInt 10) (VInt 0) ++ largest].
Proof.
  intros w.
  pose (f := <["total_posts"%string := VInt 10]>
               (<["submolts"%string := VRef 2%nat]> (∅ : gmap string val))).
  assert (Hld : heap w !! 3%nat = Some (ODict f)) by (vm_compute; reflexivity).
  assert (Hf : f !! "submolts"%string = Some (VRef 2%nat)) by (vm_compute; reflexivity).
  assert (Hls : heap w !! 2%nat = Some (OList [VRef 0%nat; VRef 1%nat]))
    by (vm_compute; reflexivity).
  assert (Hne : [VRef 0%nat; VRef 1%nat] <> []) by discriminate.
  assert (Hns : mapM (count_of (heap w)) [VRef 0%nat; VRef 1%nat] = Some [0; 0])
    by (vm_compute; reflexivity).
  assert (Hnames : Forall (plainly_named (heap w)) [VRef 0%nat; VRef 1%nat])
    by (repeat constructor).
  destruct (stats_counts_the_response w 3%nat 2%nat f _ _ Hld Hf Hls Hne Hns Hnames
              ltac:(vm_compute; eauto) ltac:(vm_compute; eauto))
    as (lx & p & _ & _ & Heval).
  rewrite Heval. eexists. reflexivity.
Defined.

(** ** A post that [browse] cannot show *)

Lemma uncounted_app (h ext : list obj) (v : val) : uncounted h v -> uncounted (h ++ ext) v.
Proof.
  unfold uncounted. destruct v as [| | | |l]; auto.
  destruct (h !! l) as [[items|p]|] eqn:Hl; try contradiction.
  rewrite (lookup_app_l_Some _ _ _ _ Hl). intros [Hn Ha].
  split; auto using dict_or_missing_app.
Qed.

(** The comparison of the vote count fails before anything of the post is
    printed. *)
Lemma browse_post_uncounted (show_ids no_truncate : bool) (v : val) (w : world) :
  uncounted (heap w) v ->
  browse_post show_ids no_truncate v w
  = (Raise TypeError, {| heap := heap w ++ [ODict ∅]; trace := trace w |}).
Proof.
  unfold uncounted. destruct v as [| | | |l]; try contradiction.
  destruct (heap w !! l) as [[items|p]|] eqn:Hl; try contradiction.
  intros [Hn Ha]. unfold browse_post.
  rewrite (bind_ok _ _ _ _ _ (get_dict w l p "upvotes" _ Hl)).
  rewrite (bind_ok _ _ _ _ _ (get_dict w l p "title" _ Hl)).
  rewrite (bind_ok _ _ _ _ _ (get_nested_eval w l p "author" "name" _ Hl Ha)).
  set (w1 := {| heap := heap w ++ [ODict ∅]; trace := trace w |}).
  assert (Hl1 : heap w1 !! l = Some (ODict p)) by now apply lookup_app_l_Some.
  rewrite (bind_ok _ _ _ _ _ (get_dict w1 l p "comment_count" _ Hl1)).
  rewrite (bind_ok _ _ _ _ _ (get_dict w1 l p "id" _ Hl1)).
  apply bind_raise. unfold vote_color. apply bind_raise.
  unfold greater_than. now rewrite Hn.
Qed.

Lemma browse_posts_uncounted (show_ids no_truncate : bool) (good : list val) (bad : val)
    (rest : list val) :
  forall w, Forall (browsable (heap w)) good -> uncounted (heap w) bad ->
  exists ext,
    for_each (browse_post show_ids no_truncate) (good ++ bad :: rest) w
    = (Raise TypeError,
       {| heap := heap w ++ ext;
          trace := trace w ++ flat_map (post_lines (heap w) show_ids no_truncate) good |}).
Proof.
  induction good as [|v good IH]; intros w Hall Hbad.
  - exists [ODict ∅]. cbn [app for_each flat_map]. rewrite app_nil_r.
    apply bind_raise. now apply browse_post_uncounted.
  - apply Forall_cons_1 in Hall as [Hv Hall]. cbn [app for_each].
    rewrite (bind_ok _ _ _ _ _ (browse_post_eval _ _ v w Hv)).
    destruct (IH {| heap := heap w ++ [ODict ∅];
                    trace := trace w ++ post_lines (heap w) show_ids no_truncate v |})
      as [ext Hext].
    + eapply Forall_impl; [exact Hall|]. intros x. apply browsable_app.
    + now apply uncounted_app.
    + exists ([ODict ∅] ++ ext). rewrite Hext. cbn [heap trace flat_map].
      rewrite (post_lines_all_app _ _ _ _ _ Hall), <- !app_assoc. reflexivity.
Qed.

(** When one post has a vote count that is there but is no number (a JSON
    null, a string), the posts before it can be shown and the sort order
    holds no opening bracket, [browse] stops with TypeError at that post:
    the header lines and the blocks of the posts before it have been
    printed by then, nothing of the post itself or of the posts after it
    is, and no line proposes a next page. *)
Theorem browse_stops_at_uncounted_post (sort : string) (limit offset : Z)
    (show_ids no_truncate : bool) (w : world) (ld lps : loc) (f : gmap string val)
    (good : list val) (bad : val) (rest : list val) :
  heap w !! ld = Some (ODict f) ->
  f !! "posts"%string = Some (VRef lps) ->
  heap w !! lps = Some (OList (good ++ bad :: rest)) ->
  Forall (browsable (heap w)) good ->
  uncounted (heap w) bad ->
  markup_free sort = true ->
  (render_browse sort limit offset false show_ids no_truncate (VRef ld) w).1
  = Raise TypeError
  /\ trace (render_browse sort limit offset false show_ids no_truncate (VRef ld) w).2
     = trace w
       ++ browse_headers sort (Z.of_nat (length (good ++ bad :: rest))) offset
       ++ flat_map (post_lines (heap w) show_ids no_truncate) good.
Proof.
  intros Hld Hf Hlps Hall Hbad Hsort. unfold render_browse.
  set (items := good ++ bad :: rest) in *.
  set (w0 := {| heap := heap w ++ [OList []]; trace := trace w |}).
  assert (Hposts : get_or_list (VRef ld) "posts" w = (Ok (VRef lps), w0)).
  { unfold get_or_list, get_with, bind at 1, fields_of. now rewrite Hld, Hf. }
  rewrite (bind_ok _ _ _ _ _ Hposts).
  assert (Hlps0 : heap w0 !! lps = Some (OList items)) by now apply lookup_app_l_Some.
  assert (Hany : is_true (VRef lps) w0 = (Ok true, w0)).
  { unfold is_true, truthy. rewrite Hlps0. unfold items. now destruct good. }
  rewrite (bind_ok _ _ _ _ _ Hany). cbn [negb].
  rewrite console_print_bind by plain.
  set (w1 := log w0 _).
  rewrite (bind_ok _ _ _ _ _ (py_len_list w1 lps items Hlps0)).
  rewrite console_print_bind by plain. unfold w1. rewrite log_log.
  set (w2 := log w0 _).
  rewrite (bind_ok _ _ _ _ _ (py_iter_list w2 lps items Hlps0)).
  destruct (browse_posts_uncounted show_ids no_truncate good bad rest w2) as [ext Hext].
  - eapply Forall_impl; [exact Hall|]. intros x. apply browsable_app.
  - now apply uncounted_app.
  - fold items in Hext. rewrite (bind_raise _ _ _ _ _ Hext). split; [reflexivity|].
    cbn [snd trace]. unfold w2, w0, log, browse_headers. cbn [heap trace].
    rewrite (post_lines_all_app _ _ _ _ _ Hall), <- !app_assoc. reflexivity.
Qed.

Lemma browse_stops_at_uncounted_post_witness :
  let w := (load (JObj [("posts"%string,
                         JArr [JObj [("upvotes"%string, JInt 5)];
                               JObj [("upvotes"%string, JStr "12")];
                               JObj []]);
                        ("has_more"%string, JBool true)]) empty_world).2 in
  (render_browse "hot" 20 0 false false false (VRef 4%nat) w).1 = Raise TypeError
  /\ length (trace (render_browse "hot" 20 0 false false false (VRef 4%nat) w).2) = 5%nat.
Proof.
  intros w.
  pose (f := <["has_more"%string := VBool true]>
               (<["posts"%string := VRef 3%nat]> (∅ : gmap string val))).
  assert (Hld : heap w !! 4%nat = Some (ODict f)) by (vm_compute; reflexivity).
  assert (Hf : f !! "posts"%string = Some (VRef 3%nat)) by (vm_compute; reflexivity).
  assert (Hlps : heap w !! 3%nat
                 = Some (OList ([VRef 0%nat] ++ VRef 1%nat :: [VRef 2%nat])))
    by (vm_compute; reflexivity).
  assert (Hall : Forall (browsable (heap w)) [VRef 0%nat]).
  { repeat constructor; vm_compute; eauto. }
  assert (Hbad : uncounted (heap w) (VRef 1%nat)) by (vm_compute; auto).
  destruct (browse_stops_at_uncounted_post "hot" 20 0 false false w 4%nat 3%nat f _ _ _
              Hld Hf Hlps Hall Hbad eq_refl) as [Hr Ht].
  split; [exact Hr|]. rewrite Ht. vm_compute. reflexivity.
Defined.
